(** * Display driver and character generator of the digital thermometer

    A shallow embedding of the 7-segment display driver
    (driver_7_seg.c: [driver_7_seg_init], [driver_7_seg_send_buffer],
    [HAL_TIM_PeriodElapsedCallback], [HAL_SPI_TxCpltCallback]) and of the
    character generator (character_generator.c: [char_gen_transmit]).

    Modelling conventions
    - C integers are [Z]; a store into a [uint8_t] or [uint16_t] object is
      written with its wrap-around ([to_uint8], [to_uint16]).
    - Pointers are [ptr] (an address, [NULL] = 0) for the peripheral handles
      and [option] for pointers to arrays ([None] is the null pointer).
    - The file-scope statics of driver_7_seg.c, together with the
      function-scope statics of the timer callback, form the record [driver].
    - The fixed-size arrays are lists read with [!!] and written with
      [<[i:=v]>]; a read outside the array, or through a null pointer, is
      undefined behaviour in C and makes the embedded function return [None].
    - Calls into the vendor HAL are recorded in the field [hal], newest
      first; the status returned by [HAL_TIM_Base_Start_IT] is an input. *)

From Stdlib Require Import ZArith List Ascii Bool Lia.
From stdpp Require Import base option list.
Import ListNotations.
Local Open Scope Z_scope.

(** ** Machine integers and pointers *)

Definition to_uint8 (z : Z) : Z := z mod 256.
Definition to_uint16 (z : Z) : Z := z mod 65536.

Definition ptr := Z.
Definition NULL : ptr := 0.

(** ** driver_7_seg_api.h *)

Inductive driver_7_seg_status_t :=
| DRIVER_7_SEG_STATUS_OK
| DRIVER_7_SEG_STATUS_NOT_INITIALIZED
| DRIVER_7_SEG_STATUS_SEND_ERROR
| DRIVER_7_SEG_STATUS_INVALID_PARAMETERS
| DRIVER_7_SEG_STATUS_BUSY.

(** The enumerators start at 1, so the zero-initialised
    [config.initialized] is none of them. *)
Definition status_value (s : driver_7_seg_status_t) : Z :=
  match s with
  | DRIVER_7_SEG_STATUS_OK => 1
  | DRIVER_7_SEG_STATUS_NOT_INITIALIZED => 2
  | DRIVER_7_SEG_STATUS_SEND_ERROR => 3
  | DRIVER_7_SEG_STATUS_INVALID_PARAMETERS => 4
  | DRIVER_7_SEG_STATUS_BUSY => 5
  end.

(** [driver_7_seg_brightness_t]: the enumerators, as the integers they are. *)
Definition LEVEL_5_MAX : Z := 0.
Definition LEVEL_1_MIN : Z := 30.
Definition NOT_USED : Z := 255.

(** ** The part of the HAL the driver talks to *)

Inductive HAL_StatusTypeDef := HAL_OK | HAL_ERROR | HAL_BUSY | HAL_TIMEOUT.
Inductive GPIO_PinState := GPIO_PIN_RESET | GPIO_PIN_SET.
Inductive timer_instance := TIM6 | TIM_OTHER.

Inductive buf_id := BUF0 | BUF1.

(** What the pointer handed to [HAL_SPI_Transmit_IT] points at. *)
Inductive tx_source :=
| data_word (b : buf_id) (i : nat)   (* &data_buf[current_segment_index] *)
| void_data.                         (* &void_data *)

(** A recorded call.  For [HAL_SPI_Transmit_IT], [pData] is the pointer
    argument and [word] the 16-bit value it points at when the call is made;
    [digit] is not an argument of the call but the value of
    [current_segment_index] at that moment, kept so that the transmissions
    of one digit can be told apart. *)
Inductive hal_call :=
| HAL_GPIO_WritePin (port : ptr) (pin : Z) (st : GPIO_PinState)
| HAL_TIM_Base_Start_IT (htim : ptr)
| HAL_SPI_Transmit_IT (hspi : ptr) (digit : nat) (pData : tx_source) (word : Z).

(** ** driver_7_seg.c: types and statics *)

Record driver_7_seg_config_t := mk_config {
  CS_GPIO_Port : ptr;
  CS_GPIO_Pin : Z;
  hspi : ptr;
  htim : ptr;
  initialized : Z
}.

Definition NUMBER_OF_SEGMENTS : nat := 4.

Record driver_7_seg_segment_buffer_t := mk_segment_buffer {
  data : list Z;
  skip_buff : list Z
}.

Record driver_7_seg_display_buffers_t := mk_buffers {
  buf0 : driver_7_seg_segment_buffer_t;
  buf1 : driver_7_seg_segment_buffer_t;
  skip_counter : list Z
}.

Inductive driver_7_seg_transfer_state_t :=
| STATE_PREPARE
| STATE_START_SENDING
| STATE_WAIT_SPI
| STATE_POST
| STATE_WAIT.

Record driver := mk_driver {
  config : driver_7_seg_config_t;
  buffers : driver_7_seg_display_buffers_t;
  spi_tranfer_complete : Z;
  new_buffer_ready : Z;
  current_active_buf_index : Z;
  (* statics of HAL_TIM_PeriodElapsedCallback *)
  state : driver_7_seg_transfer_state_t;
  data_buf : option buf_id;
  skip_buf : option buf_id;
  current_segment_index : nat;
  (* calls made into the HAL, newest first *)
  hal : list hal_call
}.

(** All statics as the C start-up code leaves them. *)
Definition zero_buffer : driver_7_seg_segment_buffer_t :=
  mk_segment_buffer [0; 0; 0; 0] [0; 0; 0; 0].

Definition power_on : driver :=
  mk_driver (mk_config NULL 0 NULL NULL 0)
            (mk_buffers zero_buffer zero_buffer [0; 0; 0; 0])
            0 0 0 STATE_PREPARE None None 0%nat [].

(** *** Field updates *)

Definition get_buf (b : buf_id) (bs : driver_7_seg_display_buffers_t) :=
  match b with BUF0 => buf0 bs | BUF1 => buf1 bs end.

Definition set_buf (b : buf_id) (sb : driver_7_seg_segment_buffer_t)
    (bs : driver_7_seg_display_buffers_t) : driver_7_seg_display_buffers_t :=
  match b with
  | BUF0 => mk_buffers sb (buf1 bs) (skip_counter bs)
  | BUF1 => mk_buffers (buf0 bs) sb (skip_counter bs)
  end.

Definition set_skip_counter (sc : list Z) (bs : driver_7_seg_display_buffers_t) :=
  mk_buffers (buf0 bs) (buf1 bs) sc.

Definition with_config (c : driver_7_seg_config_t) (d : driver) : driver :=
  mk_driver c (buffers d) (spi_tranfer_complete d) (new_buffer_ready d)
            (current_active_buf_index d) (state d) (data_buf d) (skip_buf d)
            (current_segment_index d) (hal d).

Definition with_buffers (bs : driver_7_seg_display_buffers_t) (d : driver) : driver :=
  mk_driver (config d) bs (spi_tranfer_complete d) (new_buffer_ready d)
            (current_active_buf_index d) (state d) (data_buf d) (skip_buf d)
            (current_segment_index d) (hal d).

Definition with_spi_tranfer_complete (v : Z) (d : driver) : driver :=
  mk_driver (config d) (buffers d) v (new_buffer_ready d)
            (current_active_buf_index d) (state d) (data_buf d) (skip_buf d)
            (current_segment_index d) (hal d).

Definition with_new_buffer_ready (v : Z) (d : driver) : driver :=
  mk_driver (config d) (buffers d) (spi_tranfer_complete d) v
            (current_active_buf_index d) (state d) (data_buf d) (skip_buf d)
            (current_segment_index d) (hal d).

Definition with_current_active_buf_index (v : Z) (d : driver) : driver :=
  mk_driver (config d) (buffers d) (spi_tranfer_complete d) (new_buffer_ready d)
            v (state d) (data_buf d) (skip_buf d)
            (current_segment_index d) (hal d).

Definition with_state (s : driver_7_seg_transfer_state_t) (d : driver) : driver :=
  mk_driver (config d) (buffers d) (spi_tranfer_complete d) (new_buffer_ready d)
            (current_active_buf_index d) s (data_buf d) (skip_buf d)
            (current_segment_index d) (hal d).

Definition with_data_buf (p : option buf_id) (d : driver) : driver :=
  mk_driver (config d) (buffers d) (spi_tranfer_complete d) (new_buffer_ready d)
            (current_active_buf_index d) (state d) p (skip_buf d)
            (current_segment_index d) (hal d).

Definition with_skip_buf (p : option buf_id) (d : driver) : driver :=
  mk_driver (config d) (buffers d) (spi_tranfer_complete d) (new_buffer_ready d)
            (current_active_buf_index d) (state d) (data_buf d) p
            (current_segment_index d) (hal d).

Definition with_current_segment_index (i : nat) (d : driver) : driver :=
  mk_driver (config d) (buffers d) (spi_tranfer_complete d) (new_buffer_ready d)
            (current_active_buf_index d) (state d) (data_buf d) (skip_buf d)
            i (hal d).

Definition call (c : hal_call) (d : driver) : driver :=
  mk_driver (config d) (buffers d) (spi_tranfer_complete d) (new_buffer_ready d)
            (current_active_buf_index d) (state d) (data_buf d) (skip_buf d)
            (current_segment_index d) (c :: hal d).

(** ** driver_7_seg.c: functions *)

(** [for (i = 0; i < NUMBER_OF_SEGMENTS; i++) a[i] = v;] *)
Definition fill_segments (v : Z) (a : list Z) : list Z :=
  foldl (fun acc i => <[i:=v]> acc) a (seq 0 NUMBER_OF_SEGMENTS).

Definition with_initialized (v : Z) (c : driver_7_seg_config_t) :=
  mk_config (CS_GPIO_Port c) (CS_GPIO_Pin c) (hspi c) (htim c) v.

(** [tim_start] is what [HAL_TIM_Base_Start_IT(config.htim)] returns. *)
Definition driver_7_seg_init (a_hspi a_htim GPIOx : ptr) (GPIO_Pin : Z)
    (tim_start : HAL_StatusTypeDef) (d : driver) : driver_7_seg_status_t * driver :=
  if (a_hspi =? NULL) || (a_htim =? NULL) || (GPIOx =? NULL) then
    (DRIVER_7_SEG_STATUS_NOT_INITIALIZED, d)
  else
    let d1 := call (HAL_GPIO_WritePin (CS_GPIO_Port (config d))
                                      (CS_GPIO_Pin (config d)) GPIO_PIN_SET) d in
    let d2 := with_config
                (mk_config GPIOx GPIO_Pin a_hspi a_htim (initialized (config d1))) d1 in
    let b0 := buf0 (buffers d2) in
    let d3 := with_buffers
                (set_buf BUF0 (mk_segment_buffer (data b0)
                                 (fill_segments NOT_USED (skip_buff b0)))
                         (buffers d2)) d2 in
    let d4 := call (HAL_TIM_Base_Start_IT (htim (config d3))) d3 in
    match tim_start with
    | HAL_OK =>
        (DRIVER_7_SEG_STATUS_OK,
         with_config (with_initialized (status_value DRIVER_7_SEG_STATUS_OK)
                                       (config d4)) d4)
    | _ => (DRIVER_7_SEG_STATUS_NOT_INITIALIZED, d4)
    end.

(** The buffer the pair [data_buf]/[skip_buf] is pointed at in
    [STATE_PREPARE]. *)
Definition active_buf (d : driver) : buf_id :=
  if current_active_buf_index d =? 0 then BUF0 else BUF1.

(** One invocation of the timer interrupt handler. *)
Definition HAL_TIM_PeriodElapsedCallback (Instance : timer_instance) (d : driver)
    : option driver :=
  match Instance with
  | TIM_OTHER => Some d
  | TIM6 =>
    match state d with
    | STATE_PREPARE =>
        let d1 :=
          if new_buffer_ready d =? 1 then
            with_new_buffer_ready 0
              (with_current_active_buf_index
                 (Z.lxor (current_active_buf_index d) 1) d)
          else d in
        let d2 := with_data_buf (Some (active_buf d1)) d1 in
        let d3 := with_skip_buf (Some (active_buf d2)) d2 in
        let d4 := call (HAL_GPIO_WritePin (CS_GPIO_Port (config d3))
                                          (CS_GPIO_Pin (config d3)) GPIO_PIN_RESET) d3 in
        Some (with_state STATE_START_SENDING d4)
    | STATE_START_SENDING =>
        let d1 := with_spi_tranfer_complete 0 d in
        let i := current_segment_index d1 in
        sb ← skip_buf d1;
        thr ← skip_buff (get_buf sb (buffers d1)) !! i;
        cnt ← skip_counter (buffers d1) !! i;
        if negb (thr =? NOT_USED) && (cnt >=? thr) then
          db ← data_buf d1;
          w ← data (get_buf db (buffers d1)) !! i;
          let d2 := call (HAL_SPI_Transmit_IT (hspi (config d1)) i (data_word db i) w) d1 in
          let d3 := with_buffers
                      (set_skip_counter (<[i:=0]> (skip_counter (buffers d2)))
                                        (buffers d2)) d2 in
          Some (with_state STATE_WAIT_SPI d3)
        else
          let d2 := call (HAL_SPI_Transmit_IT (hspi (config d1)) i void_data 0) d1 in
          let d3 := with_buffers
                      (set_skip_counter
                         (<[i:=to_uint8 (cnt + 1)]> (skip_counter (buffers d2)))
                         (buffers d2)) d2 in
          Some (with_state STATE_WAIT_SPI d3)
    | STATE_WAIT_SPI =>
        if negb (spi_tranfer_complete d =? 0) then Some (with_state STATE_POST d)
        else Some d
    | STATE_POST =>
        let d1 := call (HAL_GPIO_WritePin (CS_GPIO_Port (config d))
                                          (CS_GPIO_Pin (config d)) GPIO_PIN_SET) d in
        Some (with_state STATE_WAIT d1)
    | STATE_WAIT =>
        let d1 := with_current_segment_index
                    ((current_segment_index d + 1) mod NUMBER_OF_SEGMENTS)%nat d in
        Some (with_state STATE_PREPARE d1)
    end
  end.

(** The SPI transmission-complete interrupt handler. *)
Definition HAL_SPI_TxCpltCallback (a_hspi : ptr) (d : driver) : driver :=
  if a_hspi =? hspi (config d) then with_spi_tranfer_complete 1 d else d.

(** *** [driver_7_seg_send_buffer], statement by statement

    The function runs in the main context and can be interrupted between any
    two of its memory accesses, so it is embedded as a small-step machine:
    [send_pc] is the point the function has reached, together with the
    caller's two arrays. *)

Inductive send_pc :=
| AT_WAIT (a_data a_level : list Z)      (* while (new_buffer_ready != 0) {} *)
| AT_SELECT (a_data a_level : list Z)    (* if (current_active_buf_index == 0) *)
| AT_COPY_DATA (target : buf_id) (i : nat) (a_data a_level : list Z)
                                         (* i < NUMBER_OF_SEGMENTS ? bufN.data[i] = data[i] *)
| AT_COPY_SKIP (target : buf_id) (i : nat) (a_data a_level : list Z)
                                         (* bufN.skip_buff[i] = (uint8_t)brightness_level[i]; i++ *)
| AT_PUBLISH (a_data a_level : list Z)    (* new_buffer_ready = 1 *)
| RETURNED (s : driver_7_seg_status_t).

(** The two parameter checks at the top of the function. *)
Definition send_buffer_entry (a_data a_level : option (list Z)) (size : Z)
    (d : driver) : send_pc :=
  if negb (status_value DRIVER_7_SEG_STATUS_OK =? initialized (config d)) then
    RETURNED DRIVER_7_SEG_STATUS_NOT_INITIALIZED
  else
    match a_data, a_level with
    | Some da, Some lv =>
        if negb (size =? Z.of_nat NUMBER_OF_SEGMENTS) then
          RETURNED DRIVER_7_SEG_STATUS_INVALID_PARAMETERS
        else AT_WAIT da lv
    | _, _ => RETURNED DRIVER_7_SEG_STATUS_INVALID_PARAMETERS
    end.

Definition write_data (b : buf_id) (i : nat) (w : Z) (d : driver) : driver :=
  let sb := get_buf b (buffers d) in
  with_buffers (set_buf b (mk_segment_buffer (<[i:=w]> (data sb)) (skip_buff sb))
                        (buffers d)) d.

Definition write_skip_buff (b : buf_id) (i : nat) (v : Z) (d : driver) : driver :=
  let sb := get_buf b (buffers d) in
  with_buffers (set_buf b (mk_segment_buffer (data sb) (<[i:=v]> (skip_buff sb)))
                        (buffers d)) d.

Definition send_buffer_step (pc : send_pc) (d : driver) : option (send_pc * driver) :=
  match pc with
  | AT_WAIT da lv =>
      if negb (new_buffer_ready d =? 0) then Some (AT_WAIT da lv, d)
      else Some (AT_SELECT da lv, d)
  | AT_SELECT da lv =>
      if current_active_buf_index d =? 0 then Some (AT_COPY_DATA BUF1 0 da lv, d)
      else Some (AT_COPY_DATA BUF0 0 da lv, d)
  | AT_COPY_DATA b i da lv =>
      if (i <? NUMBER_OF_SEGMENTS)%nat then
        w ← da !! i;
        Some (AT_COPY_SKIP b i da lv, write_data b i w d)
      else Some (AT_PUBLISH da lv, d)
  | AT_COPY_SKIP b i da lv =>
      v ← lv !! i;
      Some (AT_COPY_DATA b (S i) da lv, write_skip_buff b i (to_uint8 v) d)
  | AT_PUBLISH _ _ =>
      Some (RETURNED DRIVER_7_SEG_STATUS_OK, with_new_buffer_ready 1 d)
  | RETURNED s => Some (RETURNED s, d)
  end.

(** How a call ends. *)
Inductive outcome (A : Type) :=
| Returns (a : A)
| AssertFails      (* an assert() aborted the program *)
| Undefined        (* null or out-of-bounds access *)
| Spinning.        (* still executing after the given number of steps *)
Arguments Returns {A} a.
Arguments AssertFails {A}.
Arguments Undefined {A}.
Arguments Spinning {A}.

(** The function run without any interrupt arriving, for at most [fuel]
    steps. *)
Fixpoint send_buffer_run (fuel : nat) (pc : send_pc) (d : driver)
    : outcome (driver_7_seg_status_t * driver) :=
  match pc with
  | RETURNED s => Returns (s, d)
  | _ =>
      match fuel with
      | O => Spinning
      | S fuel' =>
          match send_buffer_step pc d with
          | Some (pc', d') => send_buffer_run fuel' pc' d'
          | None => Undefined
          end
      end
  end.

Definition driver_7_seg_send_buffer (fuel : nat) (a_data a_level : option (list Z))
    (size : Z) (d : driver) : outcome (driver_7_seg_status_t * driver) :=
  send_buffer_run fuel (send_buffer_entry a_data a_level size d) d.

(** ** character_generator.c *)

Definition DIGIT_NUM : nat := 4.

Inductive chars :=
| INVALID_CHAR | ZERO | ONE | TWO | THREE | FOUR | FIVE | SIX | SEVEN | EIGHT
| NINE | H_CHAR | F_CHAR | C_CHAR | DASH.

Definition chars_value (c : chars) : Z :=
  match c with
  | INVALID_CHAR => 0xFF
  | ZERO => 0xC0
  | ONE => 0xF9
  | TWO => 0xA4
  | THREE => 0xB0
  | FOUR => 0x99
  | FIVE => 0x92
  | SIX => 0x82
  | SEVEN => 0xF8
  | EIGHT => 0x80
  | NINE => 0x90
  | H_CHAR => 0x89
  | F_CHAR => 0x8E
  | C_CHAR => 0xC6
  | DASH => 0xBF
  end.

Definition char_mappings : list (ascii * chars) :=
  [ ("0", ZERO); ("1", ONE); ("2", TWO); ("3", THREE); ("4", FOUR);
    ("5", FIVE); ("6", SIX); ("7", SEVEN); ("8", EIGHT); ("9", NINE);
    ("H", H_CHAR); ("h", H_CHAR); ("F", F_CHAR); ("f", F_CHAR);
    ("C", C_CHAR); ("c", C_CHAR); ("-", DASH) ]%char.

Inductive char_generator_status_t :=
| CHAR_GEN_STATUS_OK
| CHAR_GEN_STATUS_INVALID_PARAMETERS
| CHAR_GEN_STATUS_NOT_INITIALIZED
| CHAR_GEN_STATUS_NOT_TRANSMITTED.

Inductive period_status := PERIOD_ON | PERIOD_OFF.

Record char_gen_data_t := mk_char_gen_data {
  digits : option (list ascii);
  periods : option (list period_status);
  brightness : option (list Z)
}.

(** The inner loop of [char_gen_transmit]: the first entry of the table
    whose [ch] is the character, [INVALID_CHAR] when there is none. *)
Fixpoint lookup_code (tbl : list (ascii * chars)) (c : ascii) : chars :=
  match tbl with
  | [] => INVALID_CHAR
  | (ch, code) :: rest => if Ascii.eqb ch c then code else lookup_code rest c
  end.

(** [segment_data] as it stands after the decimal-point adjustment. *)
Definition segment_data (c : ascii) (p : period_status) : Z :=
  let code := lookup_code char_mappings c in
  let sd := to_uint8 (chars_value code) in
  match p with
  | PERIOD_ON => to_uint8 (Z.land sd (Z.lnot (Z.shiftl 1 7)))
  | PERIOD_OFF => sd
  end.

(** The value stored into [out_data[i]]. *)
Definition transfer_word (c : ascii) (p : period_status) (i : nat) : Z :=
  to_uint16 (Z.lor (to_uint16 (Z.shiftl (segment_data c p) 8))
                   (Z.shiftl 1 (Z.of_nat i))).

(** The outer loop: [None] when [digits] or [periods] has fewer than
    [DIGIT_NUM] elements. *)
Definition encode_digits (ds : list ascii) (ps : list period_status)
    : option (list Z) :=
  mapM (fun i => c ← ds !! i; p ← ps !! i; Some (transfer_word c p i))
       (seq 0 DIGIT_NUM).

Definition char_gen_transmit (fuel : nat) (cfg : option char_gen_data_t)
    (d : driver) : outcome (char_generator_status_t * driver) :=
  match cfg with
  | None => AssertFails
  | Some c =>
      match digits c, periods c with
      | Some ds, Some ps =>
          match encode_digits ds ps with
          | None => Undefined
          | Some out_data =>
              match driver_7_seg_send_buffer fuel (Some out_data) (brightness c)
                                             (Z.of_nat DIGIT_NUM) d with
              | Returns (s, d') =>
                  match s with
                  | DRIVER_7_SEG_STATUS_OK => Returns (CHAR_GEN_STATUS_OK, d')
                  | _ => Returns (CHAR_GEN_STATUS_NOT_TRANSMITTED, d')
                  end
              | AssertFails => AssertFails
              | Undefined => Undefined
              | Spinning => Spinning
              end
          end
      | _, _ => Undefined
      end
  end.

(** ** The running system

    The main context is either outside [driver_7_seg_send_buffer]
    ([main = None]) or at some point inside a call.  Interrupt handlers run
    to completion between two steps of the main context. *)

Record system := mk_system {
  drv : driver;
  main : option send_pc
}.

Inductive event :=
| TIMER (Instance : timer_instance)          (* timer period elapsed *)
| SPI_TX_COMPLETE (a_hspi : ptr)             (* SPI transmission complete *)
| CALL_SEND_BUFFER (a_data a_level : option (list Z)) (size : Z)
| MAIN_STEP.                                 (* next step of the call in progress *)

Definition in_call (s : system) : bool :=
  match main s with
  | None | Some (RETURNED _) => false
  | Some _ => true
  end.

(** [None]: the event is not enabled, or the step is undefined. *)
Definition exec (e : event) (s : system) : option system :=
  match e with
  | TIMER inst =>
      d' ← HAL_TIM_PeriodElapsedCallback inst (drv s);
      Some (mk_system d' (main s))
  | SPI_TX_COMPLETE h =>
      Some (mk_system (HAL_SPI_TxCpltCallback h (drv s)) (main s))
  | CALL_SEND_BUFFER da lv size =>
      if in_call s then None
      else Some (mk_system (drv s) (Some (send_buffer_entry da lv size (drv s))))
  | MAIN_STEP =>
      pc ← main s;
      r ← send_buffer_step pc (drv s);
      Some (mk_system r.2 (Some r.1))
  end.

Fixpoint run (es : list event) (s : system) : option system :=
  match es with
  | [] => Some s
  | e :: es' => s' ← exec e s; run es' s'
  end.

Inductive reachable (s0 : system) : system -> Prop :=
| reach_start : reachable s0 s0
| reach_step s e s' : reachable s0 s -> exec e s = Some s' -> reachable s0 s'.

(** The system right after a successful [driver_7_seg_init] on the freshly
    started program. *)
Definition boot (a_hspi a_htim GPIOx : ptr) (GPIO_Pin : Z) : system :=
  mk_system (driver_7_seg_init a_hspi a_htim GPIOx GPIO_Pin HAL_OK power_on).2 None.

(** *** Runs of the scheduler alone *)

Definition tick : driver -> option driver := HAL_TIM_PeriodElapsedCallback TIM6.

(** One digit's refresh: the five timer ticks PREPARE .. WAIT, with the
    transfer completing before the tick that polls for it. *)
Definition refresh_digit (d : driver) : option driver :=
  d1 ← tick d;
  d2 ← tick d1;
  d3 ← tick (HAL_SPI_TxCpltCallback (hspi (config d2)) d2);
  d4 ← tick d3;
  tick d4.

(** One scan of the display: [NUMBER_OF_SEGMENTS] refreshes. *)
Definition scan (d : driver) : option driver :=
  d1 ← refresh_digit d; d2 ← refresh_digit d1; d3 ← refresh_digit d2; refresh_digit d3.

Fixpoint scans (n : nat) (d : driver) : option driver :=
  match n with
  | O => Some d
  | S n' => d' ← scan d; scans n' d'
  end.


(** All words handed to the SPI, newest first, with their digit. *)
Fixpoint sent_words (h : list hal_call) : list (nat * tx_source * Z) :=
  match h with
  | [] => []
  | HAL_SPI_Transmit_IT _ digit src w :: rest => (digit, src, w) :: sent_words rest
  | _ :: rest => sent_words rest
  end.

Definition is_real (src : tx_source) : bool :=
  match src with data_word _ _ => true | void_data => false end.

(** ** Invariants of the running system *)

Definition other_buf (b : buf_id) : buf_id :=
  match b with BUF0 => BUF1 | BUF1 => BUF0 end.

Definition lengths_ok (d : driver) : Prop :=
  length (data (buf0 (buffers d))) = NUMBER_OF_SEGMENTS /\
  length (skip_buff (buf0 (buffers d))) = NUMBER_OF_SEGMENTS /\
  length (data (buf1 (buffers d))) = NUMBER_OF_SEGMENTS /\
  length (skip_buff (buf1 (buffers d))) = NUMBER_OF_SEGMENTS /\
  length (skip_counter (buffers d)) = NUMBER_OF_SEGMENTS.

(** The first [n] words and the first [m] thresholds of the caller's frame
    are in slot [b]. *)
Definition copied (b : buf_id) (n m : nat) (da lv : list Z) (d : driver) : Prop :=
  (forall j, (j < n)%nat -> data (get_buf b (buffers d)) !! j = da !! j) /\
  (forall j, (j < m)%nat ->
     skip_buff (get_buf b (buffers d)) !! j = to_uint8 <$> lv !! j).

Definition main_ok (d : driver) (m : option send_pc) : Prop :=
  match m with
  | Some (AT_SELECT _ _) => new_buffer_ready d = 0
  | Some (AT_COPY_DATA b i da lv) =>
      new_buffer_ready d = 0 /\ b = other_buf (active_buf d) /\ copied b i i da lv d
  | Some (AT_COPY_SKIP b i da lv) =>
      new_buffer_ready d = 0 /\ b = other_buf (active_buf d) /\
      (i < NUMBER_OF_SEGMENTS)%nat /\ copied b (S i) i da lv d
  | Some (AT_PUBLISH da lv) =>
      new_buffer_ready d = 0 /\
      copied (other_buf (active_buf d)) NUMBER_OF_SEGMENTS NUMBER_OF_SEGMENTS da lv d
  | _ => True
  end.

Record inv (s : system) : Prop := mk_inv {
  inv_len : lengths_ok (drv s);
  inv_idx : (current_segment_index (drv s) < NUMBER_OF_SEGMENTS)%nat;
  inv_ptr : state (drv s) <> STATE_PREPARE ->
            data_buf (drv s) = Some (active_buf (drv s)) /\
            skip_buf (drv s) = Some (active_buf (drv s));
  inv_main : main_ok (drv s) (main s)
}.

(** ** Vocabulary for the dimming statements *)

(** The test of [STATE_START_SENDING]: the frame's word is sent. *)
Definition real_visit (thr cnt : Z) : bool := negb (thr =? NOT_USED) && (cnt >=? thr).





(** The two interrupt sources.  A run made of these events alone is a run
    in which the main context never calls [driver_7_seg_send_buffer]. *)
Definition is_interrupt (e : event) : bool :=
  match e with
  | TIMER _ | SPI_TX_COMPLETE _ => true
  | CALL_SEND_BUFFER _ _ _ | MAIN_STEP => false
  end.

Definition is_blank (t : nat * tx_source * Z) : bool :=
  match t with
  | (_, void_data, 0) => true
  | _ => false
  end.

(** The display before any frame was handed over: slot 0 is active with
    nothing pending, its thresholds are all [NOT_USED], and only blank words
    went to the SPI. *)
Record blank_display (s : system) : Prop := mk_blank_display {
  bd_len : lengths_ok (drv s);
  bd_idx : (current_segment_index (drv s) < NUMBER_OF_SEGMENTS)%nat;
  bd_active : current_active_buf_index (drv s) = 0;
  bd_ready : new_buffer_ready (drv s) = 0;
  bd_thr : skip_buff (buf0 (buffers (drv s))) = [NOT_USED; NOT_USED; NOT_USED; NOT_USED];
  bd_ptr : state (drv s) <> STATE_PREPARE ->
           data_buf (drv s) = Some BUF0 /\ skip_buf (drv s) = Some BUF0;
  bd_sent : forallb is_blank (sent_words (hal (drv s))) = true
}.


(** The scheduler is at the start of digit [j]'s refresh, before any frame
    was handed over. *)
Definition blank_at (d : driver) (j : nat) : Prop :=
  lengths_ok d /\ state d = STATE_PREPARE /\ new_buffer_ready d = 0 /\
  current_segment_index d = j /\ current_active_buf_index d = 0 /\
  skip_buff (buf0 (buffers d)) = [NOT_USED; NOT_USED; NOT_USED; NOT_USED].

(** What one scan of the blank display hands to the SPI, newest first: the
    blank word for digits 0, 1, 2 and 3. *)
Definition blank_scan : list (nat * tx_source * Z) :=
  [(3%nat, void_data, 0); (2%nat, void_data, 0);
   (1%nat, void_data, 0); (0%nat, void_data, 0)].

(** [d'] differs from [d] at most in the two slots and the ready flag. *)
Definition same_outside_slots (d d' : driver) : Prop :=
  config d' = config d /\
  skip_counter (buffers d') = skip_counter (buffers d) /\
  spi_tranfer_complete d' = spi_tranfer_complete d /\
  current_active_buf_index d' = current_active_buf_index d /\
  state d' = state d /\ data_buf d' = data_buf d /\ skip_buf d' = skip_buf d /\
  current_segment_index d' = current_segment_index d /\
  hal d' = hal d.

(** ** Vocabulary for the character generator statements *)

(** The characters the display can show: the digits, H, F and C in either
    case, and the dash. *)
Definition supported_chars : list ascii :=
  [ "0"; "1"; "2"; "3"; "4"; "5"; "6"; "7"; "8"; "9";
    "H"; "h"; "F"; "f"; "C"; "c"; "-" ]%char.

Definition is_supported (c : ascii) : bool := existsb (Ascii.eqb c) supported_chars.

(** The slot [driver_7_seg_send_buffer] writes when called in state [d]. *)
Definition inactive_buf (d : driver) : buf_id := other_buf (active_buf d).

(** The request of the scenario: "C105", decimal point on the third digit,
    full brightness. *)
Definition request_C105 : char_gen_data_t :=
  mk_char_gen_data (Some ["C"; "1"; "0"; "5"]%char)
                   (Some [PERIOD_OFF; PERIOD_OFF; PERIOD_ON; PERIOD_OFF])
                   (Some [LEVEL_5_MAX; LEVEL_5_MAX; LEVEL_5_MAX; LEVEL_5_MAX]).

(** The same request with a null [brightness] pointer. *)
Definition request_null_brightness : char_gen_data_t :=
  mk_char_gen_data (Some ["C"; "1"; "0"; "5"]%char)
                   (Some [PERIOD_OFF; PERIOD_OFF; PERIOD_ON; PERIOD_OFF])
                   None.

(** A driver initialised with handles 1, 2, 3 and pin 4. *)
Definition booted : driver := Eval vm_compute in drv (boot 1 2 3 4).

(** ** The statement that slots are swapped at scan boundaries only *)

(** Whenever the active index changes, the scheduler is at digit 0. *)
Definition swap_boundary_aligned (s0 : system) : Prop :=
  forall s e s', reachable s0 s -> exec e s = Some s' ->
    current_active_buf_index (drv s') <> current_active_buf_index (drv s) ->
    current_segment_index (drv s) = 0%nat.

(** Whenever the four latest words sent are the frame words of digits 0 to
    3, in this order, they were read from one and the same slot. *)
Definition scan_reads_one_slot (s0 : system) : Prop :=
  forall s b0 b1 b2 b3 w0 w1 w2 w3 rest, reachable s0 s ->
    sent_words (hal (drv s)) =
      (3%nat, data_word b3 3, w3) :: (2%nat, data_word b2 2, w2) ::
      (1%nat, data_word b1 1, w1) :: (0%nat, data_word b0 0, w0) :: rest ->
    b0 = b1 /\ b1 = b2 /\ b2 = b3.


(** Two frames, "C1.05" and "F486", both at full brightness. *)
Definition frame_A : list Z := [0xC601; 0xF902; 0x4004; 0x9208].
Definition frame_B : list Z := [0x8E01; 0x9902; 0x8004; 0x8208].
Definition full_brightness : list Z :=
  [LEVEL_5_MAX; LEVEL_5_MAX; LEVEL_5_MAX; LEVEL_5_MAX].

(** A complete, uninterrupted call of [driver_7_seg_send_buffer]. *)
Definition submit (da lv : list Z) : list event :=
  CALL_SEND_BUFFER (Some da) (Some lv) 4 :: replicate 12 MAIN_STEP.

(** The events of one digit's refresh. *)
Definition digit_cycle (a_hspi : ptr) : list event :=
  [TIMER TIM6; TIMER TIM6; SPI_TX_COMPLETE a_hspi; TIMER TIM6; TIMER TIM6; TIMER TIM6].

(** Frame A is handed over and digit 0 of it is shown; frame B is handed
    over while the scheduler is about to refresh digit 1. *)
Definition second_frame_pending : list event :=
  submit frame_A full_brightness ++ digit_cycle 1 ++ submit frame_B full_brightness.

(** ... and the scan goes on with digits 1, 2 and 3. *)
Definition torn_scan : list event :=
  second_frame_pending ++ digit_cycle 1 ++ digit_cycle 1 ++ digit_cycle 1.

(** ** Concrete states of the system, for the examples *)

Definition state_after (es : list event) : system :=
  match run es (boot 1 2 3 4) with
  | Some s => s
  | None => boot 1 2 3 4
  end.


(** A blank scan, then frame A handed over: the frame is pending. *)
Definition frame_pending : system :=
  Eval vm_compute in
    state_after (digit_cycle 1 ++ digit_cycle 1 ++ digit_cycle 1 ++ digit_cycle 1
                   ++ submit frame_A full_brightness).

(** ... and the timer tick that makes it the active one. *)
Definition frame_active : system :=
  Eval vm_compute in
    state_after (digit_cycle 1 ++ digit_cycle 1 ++ digit_cycle 1 ++ digit_cycle 1
                   ++ submit frame_A full_brightness ++ [TIMER TIM6]).

(** The call for frame A has copied the frame and is about to raise the
    flag; then it has returned. *)
Definition about_to_publish : system :=
  Eval vm_compute in
    state_after (CALL_SEND_BUFFER (Some frame_A) (Some full_brightness) 4
                   :: replicate 11 MAIN_STEP).

Definition published : system :=
  Eval vm_compute in state_after (submit frame_A full_brightness).

(** ** Further vocabulary: the driver on its own *)

(** Any event but the completion interrupt of the driver's own SPI. *)
Definition not_own_completion (d : driver) (e : event) : bool :=
  match e with
  | SPI_TX_COMPLETE h => negb (h =? hspi (config d))
  | _ => true
  end.

(** The scheduler has started a transfer and waits for its completion. *)
Definition waiting_for_spi : system :=
  Eval vm_compute in state_after [TIMER TIM6; TIMER TIM6].

(** Ticks, the completion interrupt of some other SPI, and a whole call of
    [driver_7_seg_send_buffer]. *)
Definition all_but_completion : list event :=
  [TIMER TIM6; SPI_TX_COMPLETE 9; TIMER TIM6; TIMER TIM6]
    ++ submit frame_A full_brightness ++ [TIMER TIM6].

(** *** The chip-select line as the HAL calls show it *)

(** Chip select is high and digit [next] is up next; it is low for digit
    [digit]; it is low and the word for [digit] was handed to the SPI. *)
Inductive cs_phase :=
| CS_HIGH (next : nat)
| CS_LOW (digit : nat)
| CS_LOW_SENT (digit : nat).

(** The one call that may follow in each phase. *)
Definition cs_step (c : driver_7_seg_config_t) (ph : cs_phase) (call : hal_call)
    : option cs_phase :=
  match ph, call with
  | CS_HIGH k, HAL_GPIO_WritePin port pin GPIO_PIN_RESET =>
      if (port =? CS_GPIO_Port c) && (pin =? CS_GPIO_Pin c) then Some (CS_LOW k) else None
  | CS_LOW k, HAL_SPI_Transmit_IT h digit _ _ =>
      if (h =? hspi c) && Nat.eqb digit k then Some (CS_LOW_SENT k) else None
  | CS_LOW_SENT k, HAL_GPIO_WritePin port pin GPIO_PIN_SET =>
      if (port =? CS_GPIO_Port c) && (pin =? CS_GPIO_Pin c)
      then Some (CS_HIGH ((k + 1) mod NUMBER_OF_SEGMENTS)%nat) else None
  | _, _ => None
  end.

(** The phase a list of calls (newest first) ends in, starting with chip
    select high before digit 0; [None] if some call is out of turn. *)
Fixpoint cs_trace (c : driver_7_seg_config_t) (calls : list hal_call) : option cs_phase :=
  match calls with
  | [] => Some (CS_HIGH 0)
  | call :: older => ph ← cs_trace c older; cs_step c ph call
  end.

(** The phase the scheduler's state stands for. *)
Definition phase_of (d : driver) : cs_phase :=
  match state d with
  | STATE_PREPARE => CS_HIGH (current_segment_index d)
  | STATE_START_SENDING => CS_LOW (current_segment_index d)
  | STATE_WAIT_SPI | STATE_POST => CS_LOW_SENT (current_segment_index d)
  | STATE_WAIT => CS_HIGH ((current_segment_index d + 1) mod NUMBER_OF_SEGMENTS)%nat
  end.

(** What [STATE_PREPARE] does to a driver with a frame pending before it
    points [data_buf] and [skip_buf]: the other slot becomes the active one
    and the flag is cleared. *)
Definition activated (d : driver) : driver :=
  with_new_buffer_ready 0
    (with_current_active_buf_index (Z.lxor (current_active_buf_index d) 1) d).

(** ** character_generator.c: [char_gen_init] *)

(** The three assertions, then the driver's [init] through [api_7_seg]. *)
Definition char_gen_init (a_hspi a_htim GPIOx : ptr) (GPIO_Pin : Z)
    (tim_start : HAL_StatusTypeDef) (d : driver)
    : outcome (char_generator_status_t * driver) :=
  if a_hspi =? NULL then AssertFails
  else if a_htim =? NULL then AssertFails
  else if GPIOx =? NULL then AssertFails
  else
    match driver_7_seg_init a_hspi a_htim GPIOx GPIO_Pin tim_start d with
    | (DRIVER_7_SEG_STATUS_OK, d') => Returns (CHAR_GEN_STATUS_OK, d')
    | (_, d') => Returns (CHAR_GEN_STATUS_NOT_INITIALIZED, d')
    end.

(** Upper case of a letter, any other character as it is. *)
Definition upper (c : ascii) : ascii :=
  let n := nat_of_ascii c in
  if (97 <=? n)%nat && (n <=? 122)%nat then ascii_of_nat (n - 32) else c.

(** The segment pattern a character is shown with, decimal point off. *)
Definition glyph (c : ascii) : Z := chars_value (lookup_code char_mappings c).

(** ** AHT20.c: the sensor driver

    The I2C bus and the delay are outside the program: what the HAL
    functions return, and what [HAL_I2C_Master_Receive] leaves in the
    buffer, are inputs ([measure_env]); the calls made are recorded, oldest
    first.  The conversion to [float] in [aht20_calculate_measurments] is not
    embedded, only the two integers it starts from. *)

Inductive aht20_status_t :=
| AHT20_STATUS_OK
| AHT20_STATUS_NOT_TRANSMITTED
| AHT20_STATUS_NOT_RECEIVED
| AHT20_STATUS_NOT_CALIBRATED
| AHT20_STATUS_NOT_MEASURED.

Definition DEVICE_ADDRESS : Z := Z.shiftl 0x38 1.
Definition SOFT_RESET_CMD : Z := 0xba.
Definition MEASURE_CMD : list Z := [0xac; 0x33; 0x00].
Definition ACK_CMD : Z := 0x06.
Definition NACK_CMD : Z := 0x15.

Inductive i2c_call :=
| HAL_I2C_Master_Transmit (hi2c : ptr) (address : Z) (bytes : list Z)
| HAL_I2C_Master_Receive (hi2c : ptr) (address : Z) (size : Z)
| HAL_Delay (ms : Z).

(** One step of the inner loop of [calculate_crc], on a [uint8_t]. *)
Definition crc_shift (crc : Z) : Z :=
  if negb (Z.land crc 0x80 =? 0) then to_uint8 (Z.lxor (Z.shiftl crc 1) 0x31)
  else to_uint8 (Z.shiftl crc 1).

(** One round of the outer loop: [crc ^= data[i]] and eight shifts. *)
Definition crc_byte (crc b : Z) : Z :=
  Nat.iter 8 crc_shift (to_uint8 (Z.lxor crc b)).

(** The six rounds, reading [data[0]] to [data[5]]. *)
Fixpoint crc_rounds (n : nat) (i : nat) (data : list Z) (crc : Z) : option Z :=
  match n with
  | O => Some crc
  | S n' => b ← data !! i; crc_rounds n' (S i) data (crc_byte crc b)
  end.

Definition calculate_crc (data : option (list Z)) : outcome Z :=
  match data with
  | None => AssertFails
  | Some l =>
      match crc_rounds 6 0 l 0xFF with
      | Some crc => Returns crc
      | None => Undefined
      end
  end.

Definition aht20_check_calibration (status_word : Z) : aht20_status_t :=
  if negb (Z.land status_word (Z.shiftl 1 3) =? 0) then AHT20_STATUS_OK
  else AHT20_STATUS_NOT_CALIBRATED.

(** [reply] is what [HAL_I2C_Master_Transmit] returns. *)
Definition aht20_soft_reset (reply : HAL_StatusTypeDef) (hi2c : ptr)
    : outcome (aht20_status_t * list i2c_call) :=
  if hi2c =? NULL then AssertFails
  else
    let sent := [HAL_I2C_Master_Transmit hi2c DEVICE_ADDRESS [SOFT_RESET_CMD]] in
    match reply with
    | HAL_OK => Returns (AHT20_STATUS_OK, sent ++ [HAL_Delay 20])
    | _ => Returns (AHT20_STATUS_NOT_TRANSMITTED, sent)
    end.

(** What the bus does during one [aht20_measure]. *)
Record measure_env := mk_measure_env {
  measure_reply : HAL_StatusTypeDef;   (* to the transmit of MEASURE_CMD *)
  receive_reply : HAL_StatusTypeDef;   (* of the receive *)
  received : list Z;                   (* measured_data after the receive *)
  answer_reply : HAL_StatusTypeDef;    (* to the transmit of ACK_CMD or NACK_CMD *)
  reset_reply : HAL_StatusTypeDef      (* to the transmit of SOFT_RESET_CMD *)
}.

(** The result: the status, [measured_data] as the call leaves it, and the
    calls made. *)
Definition aht20_measure (env : measure_env) (hi2c : ptr)
    (measured_data : option (list Z)) (measured_data_size : Z)
    : outcome (aht20_status_t * list Z * list i2c_call) :=
  if hi2c =? NULL then AssertFails
  else
    match measured_data with
    | None => AssertFails
    | Some buf =>
        let t1 := [HAL_I2C_Master_Transmit hi2c DEVICE_ADDRESS MEASURE_CMD] in
        match measure_reply env with
        | HAL_OK =>
            let t2 := t1 ++ [HAL_Delay 80;
                             HAL_I2C_Master_Receive hi2c DEVICE_ADDRESS measured_data_size] in
            let buf' := received env in
            match receive_reply env with
            | HAL_OK =>
                match buf' !! 0%nat with
                | None => Undefined
                | Some b0 =>
                    if negb (Z.land b0 (Z.shiftl 1 7) =? 0) then
                      Returns (AHT20_STATUS_NOT_MEASURED, buf', t2)
                    else
                      match calculate_crc (Some buf'), buf' !! 6%nat with
                      | Returns calculated_crc, Some b6 =>
                          if calculated_crc =? b6 then
                            let t3 := t2 ++ [HAL_I2C_Master_Transmit hi2c DEVICE_ADDRESS
                                               [ACK_CMD]] in
                            match answer_reply env with
                            | HAL_OK => Returns (AHT20_STATUS_OK, buf', t3)
                            | _ => Returns (AHT20_STATUS_NOT_TRANSMITTED, buf', t3)
                            end
                          else
                            let t3 := t2 ++ [HAL_I2C_Master_Transmit hi2c DEVICE_ADDRESS
                                               [NACK_CMD]] in
                            match answer_reply env with
                            | HAL_OK =>
                                match aht20_soft_reset (reset_reply env) hi2c with
                                | Returns (_, t4) =>
                                    Returns (AHT20_STATUS_OK, buf', t3 ++ t4)
                                | AssertFails => AssertFails
                                | Undefined => Undefined
                                | Spinning => Spinning
                                end
                            | _ => Returns (AHT20_STATUS_NOT_TRANSMITTED, buf', t3)
                            end
                      | AssertFails, _ => AssertFails
                      | _, _ => Undefined
                      end
                end
            | _ => Returns (AHT20_STATUS_NOT_RECEIVED, buf', t2)
            end
        | _ => Returns (AHT20_STATUS_NOT_TRANSMITTED, buf, t1)
        end
    end.

(** The two integers [aht20_calculate_measurments] converts: 20 bits of
    humidity and 20 bits of temperature. *)
Definition raw_humidity (d1 d2 d3 : Z) : Z :=
  Z.lor (Z.lor (Z.shiftl d1 12) (Z.shiftl d2 4)) (Z.shiftr d3 4).

Definition raw_temperature (d3 d4 d5 : Z) : Z :=
  Z.lor (Z.lor (Z.shiftl (Z.land d3 0x0F) 16) (Z.shiftl d4 8)) d5.

Definition is_byte (b : Z) : Prop := 0 <= b < 256.

(** The first six bytes of a reading with byte [i] changed by [e]. *)
Definition corrupt (i : nat) (e : Z) (l : list Z) : list Z :=
  match l !! i with
  | Some b => <[i := Z.lxor b e]> l
  | None => l
  end.

(** Eight shifts of a byte. *)
Definition crc_shift8 (x : Z) : Z := Nat.iter 8 crc_shift x.

(** All values of a [uint8_t]. *)
Definition all_bytes : list Z := Z.of_nat <$> seq 0 256.

(** How a difference [delta] in the running CRC, and a difference [e] in
    byte [i] of the data, show in the result of rounds [j], [j+1], ...,
    [j+n-1]. *)
Fixpoint crc_difference (i : nat) (e : Z) (n j : nat) (delta : Z) : Z :=
  match n with
  | O => delta
  | S n' =>
      crc_difference i e n' (S j)
        (crc_shift8 (Z.lxor delta (if Nat.eqb j i then e else 0)))
  end.

(** The calls of an [aht20_measure] that rejects its reading. *)
Definition rejected_measure_calls (env : measure_env) (hi2c : ptr) (size : Z)
    : list i2c_call :=
  [HAL_I2C_Master_Transmit hi2c DEVICE_ADDRESS MEASURE_CMD;
   HAL_Delay 80;
   HAL_I2C_Master_Receive hi2c DEVICE_ADDRESS size;
   HAL_I2C_Master_Transmit hi2c DEVICE_ADDRESS [NACK_CMD];
   HAL_I2C_Master_Transmit hi2c DEVICE_ADDRESS [SOFT_RESET_CMD]]
  ++ match reset_reply env with HAL_OK => [HAL_Delay 20] | _ => [] end.

(** A reading of seven bytes, and a bus on which every transfer succeeds
    but byte 3 of the reading arrives with its lowest bit flipped. *)
Definition sample_reading : list Z := [0x1C; 0x80; 0x00; 0x05; 0x9A; 0x33; 0xB1].

Definition noisy_bus : measure_env :=
  mk_measure_env HAL_OK HAL_OK (corrupt 3 1 sample_reading) HAL_OK HAL_OK.

(** ** buttons.c and button_hmi_api.c

    The buttons form a linked list through [next_button], entered at
    [button_list_entry].  It is embedded as the list of the buttons in the
    order of the chain; a pointer to a button of the chain is its position.
    [button_init] puts the button it is given in front, each button being
    initialised once.  What [HAL_GPIO_ReadPin] and [HAL_GetTick] return are
    inputs. *)

Definition to_uint32 (x : Z) : Z := x mod 2 ^ 32.

Inductive Button_State := BUTTON_RELEASED | BUTTON_SHORT_PRESS.
Inductive HMI_Interact_Status_t := HMI_NO_EVENT | HMI_SHORT_EVENT.

Record Button := mk_Button {
  press_time : Z;
  release_time : Z;
  button_state : Button_State;
  last_gpio_state : GPIO_PinState;
  gpio_port : ptr;
  gpio_pin : Z
}.

Definition with_button_state (s : Button_State) (b : Button) : Button :=
  mk_Button (press_time b) (release_time b) s (last_gpio_state b)
            (gpio_port b) (gpio_pin b).

Definition with_press (level : GPIO_PinState) (t : Z) (b : Button) : Button :=
  mk_Button t (release_time b) (button_state b) level (gpio_port b) (gpio_pin b).

Definition with_release (level : GPIO_PinState) (t : Z) (b : Button) : Button :=
  mk_Button (press_time b) t (button_state b) level (gpio_port b) (gpio_pin b).

Definition DEBOUNCE_TIME_MS : Z := 20.

Definition is_set (s : GPIO_PinState) : bool :=
  match s with GPIO_PIN_SET => true | GPIO_PIN_RESET => false end.

Definition is_released (s : Button_State) : bool :=
  match s with BUTTON_RELEASED => true | BUTTON_SHORT_PRESS => false end.

(** [current_button_pin_state] is what [HAL_GPIO_ReadPin] returns. *)
Definition check_button_state (current_button_pin_state : GPIO_PinState)
    (button : Button) : Button_State * Button :=
  let checked_button_state :=
    if is_set (last_gpio_state button) || is_set current_button_pin_state
    then BUTTON_RELEASED else BUTTON_SHORT_PRESS in
  (checked_button_state, with_button_state checked_button_state button).

(** [None]: the list is empty and the function dereferences NULL. *)
Fixpoint check_interrupt_pin (button_list : list Button) (pin : Z) : option nat :=
  match button_list with
  | [] => None
  | button_to_return :: rest =>
      match rest with
      | [] => Some 0%nat
      | _ :: _ =>
          if negb (gpio_pin button_to_return =? pin)
          then S <$> check_interrupt_pin rest pin
          else Some 0%nat
      end
  end.

(** Whether both debounce conditions of [read_button] hold. *)
Definition debounced (current_time : Z) (button : Button) : bool :=
  (to_uint32 (current_time - press_time button) >=? DEBOUNCE_TIME_MS)
  && (to_uint32 (current_time - release_time button) >=? DEBOUNCE_TIME_MS).

(** [current_time] is what [HAL_GetTick] returns, [level] what
    [HAL_GPIO_ReadPin] returns when it is called. *)
Definition read_button (current_time : Z) (level : GPIO_PinState) (pin : Z)
    (button_list : list Button) : outcome (list Button) :=
  match check_interrupt_pin button_list pin with
  | None => Undefined
  | Some i =>
      match button_list !! i with
      | None => Undefined
      | Some button =>
          if debounced current_time button then
            Returns (<[i := match level with
                            | GPIO_PIN_RESET => with_press level current_time button
                            | GPIO_PIN_SET => with_release level current_time button
                            end]> button_list)
          else Returns button_list
      end
  end.

(** [first] and [second] are what the two calls of [HAL_GPIO_ReadPin]
    return. *)
Definition button_init (first second : GPIO_PinState) (port : ptr) (pin : Z)
    (button_list : list Button) : list Button :=
  mk_Button 0 0
    (match first with
     | GPIO_PIN_RESET => BUTTON_RELEASED
     | GPIO_PIN_SET => BUTTON_SHORT_PRESS
     end)
    second port pin
  :: button_list.

Definition convert_to_hmi_status (button_status : Button_State)
    : HMI_Interact_Status_t :=
  match button_status with
  | BUTTON_RELEASED => HMI_NO_EVENT
  | BUTTON_SHORT_PRESS => HMI_SHORT_EVENT
  end.

Definition b_hmi_check_button_status_change (level : GPIO_PinState)
    (button : Button) : HMI_Interact_Status_t * Button :=
  let previous_button_state := button_state button in
  let '(current_button_state, button') := check_button_state level button in
  let result :=
    if is_released previous_button_state
       && negb (is_released current_button_state)
    then HMI_SHORT_EVENT else HMI_NO_EVENT in
  (result, with_button_state current_button_state button').

Definition b_hmi_check_button_current_state (button : Button)
    : HMI_Interact_Status_t :=
  convert_to_hmi_status (button_state button).

(** Polling a button several times, the interrupt handler not running in
    between; [levels] are the pin levels read. *)
Fixpoint polls (levels : list GPIO_PinState) (button : Button)
    : list HMI_Interact_Status_t :=
  match levels with
  | [] => []
  | level :: rest =>
      let '(result, button') := b_hmi_check_button_status_change level button in
      result :: polls rest button'
  end.

(** Two buttons on pins 2 and 4, and a tick counter about to wrap. *)
Definition two_buttons : list Button :=
  button_init GPIO_PIN_SET GPIO_PIN_SET 1 4
    (button_init GPIO_PIN_SET GPIO_PIN_SET 1 2 []).

Definition late_tick : Z := 2 ^ 32 - 5.

(** ** business_logic.c

    [buttonA], [buttonB], [config], [t_data] and the display driver are the
    state; the pin levels read while polling, and the three values
    [(int16_t)(x * 10)] computed from the [float] readings, are inputs. *)

Inductive SystemEvent := EVENT_NONE | EVENT_BUTTON_A_SHORT | EVENT_BUTTON_B_SHORT.

Inductive MainState :=
| MAIN_STATE_DISPLAY_C
| MAIN_STATE_DISPLAY_F
| MAIN_STATE_DISPLAY_H
| MAIN_STATE_ERROR_DISPLAY.

Inductive bl_status_t := BL_STATUS_OK | BL_STATUS_RUN_FAILED.

Definition detect_events (levelA levelB : GPIO_PinState) (buttonA buttonB : Button)
    : SystemEvent * Button * Button :=
  let '(stateOnReleaseA, buttonA') := b_hmi_check_button_status_change levelA buttonA in
  let '(stateOnReleaseB, buttonB') := b_hmi_check_button_status_change levelB buttonB in
  let currentStateB := b_hmi_check_button_current_state buttonB' in
  let detected_event :=
    match stateOnReleaseA with
    | HMI_SHORT_EVENT => EVENT_BUTTON_A_SHORT
    | HMI_NO_EVENT => EVENT_NONE
    end in
  let detected_event :=
    match detected_event with
    | EVENT_NONE =>
        match stateOnReleaseB with
        | HMI_SHORT_EVENT => EVENT_BUTTON_B_SHORT
        | HMI_NO_EVENT =>
            match currentStateB with
            | HMI_NO_EVENT => EVENT_NONE
            | HMI_SHORT_EVENT => detected_event
            end
        end
    | _ => detected_event
    end in
  (detected_event, buttonA', buttonB').

(** The assignments to [config.currentMainState] in the switch of
    [bl_spi_transmit_sensor_data]. *)
Definition next_main_state (s : MainState) (event : SystemEvent) : MainState :=
  match s with
  | MAIN_STATE_DISPLAY_C =>
      match event with
      | EVENT_BUTTON_A_SHORT => MAIN_STATE_DISPLAY_F
      | EVENT_BUTTON_B_SHORT => MAIN_STATE_DISPLAY_H
      | EVENT_NONE => s
      end
  | MAIN_STATE_DISPLAY_F =>
      match event with
      | EVENT_BUTTON_A_SHORT => MAIN_STATE_DISPLAY_H
      | EVENT_BUTTON_B_SHORT => MAIN_STATE_DISPLAY_C
      | EVENT_NONE => s
      end
  | MAIN_STATE_DISPLAY_H =>
      match event with
      | EVENT_BUTTON_A_SHORT => MAIN_STATE_DISPLAY_C
      | EVENT_BUTTON_B_SHORT => MAIN_STATE_DISPLAY_F
      | EVENT_NONE => s
      end
  | MAIN_STATE_ERROR_DISPLAY => s
  end.

(** *** What [snprintf] leaves in [t_data] *)

Definition digit_char (d : Z) : ascii := ascii_of_nat (48 + Z.to_nat d).

(** The decimal digits of [n >= 0], at most [fuel] of them. *)
Fixpoint decimal (fuel : nat) (n : Z) : list ascii :=
  match fuel with
  | O => []
  | S fuel' =>
      (if n <? 10 then [] else decimal fuel' (n / 10)) ++ [digit_char (n mod 10)]
  end.

(** The conversion [%03d] of an [int16_t]: the sign if negative, then the
    digits, with zeros between them up to three characters. *)
Definition printf_03d (v : Z) : list ascii :=
  let ds := decimal 5 (Z.abs v) in
  let sign := if v <? 0 then ["-"%char] else [] in
  sign ++ replicate (3 - length sign - length ds) "0"%char ++ ds.

(** [snprintf(t_data, sizeof(t_data), "X%03d", v)] with the five bytes of
    [t_data]: the first four characters and the terminating null. *)
Definition snprintf_t_data (letter : ascii) (v : Z) : list ascii :=
  take 4 (letter :: printf_03d v) ++ [Ascii.zero].

Record bl_data := mk_bl_data {
  buttonA : Button;
  buttonB : Button;
  currentMainState : MainState;
  t_data : list ascii;
  display : driver
}.

(** The values [(int16_t)(sensor_data.x * 10)]. *)
Record readings := mk_readings {
  temperature_c_x10 : Z;
  temperature_f_x10 : Z;
  humidity_x10 : Z
}.

Definition bl_periods : list period_status :=
  [PERIOD_OFF; PERIOD_OFF; PERIOD_ON; PERIOD_OFF].

Definition bl_brightness : list Z :=
  [LEVEL_5_MAX; LEVEL_5_MAX; LEVEL_5_MAX; LEVEL_5_MAX].

(** The text written in state [s]. *)
Definition display_text (s : MainState) (r : readings) : list ascii :=
  match s with
  | MAIN_STATE_DISPLAY_C => snprintf_t_data "C" (temperature_c_x10 r)
  | MAIN_STATE_DISPLAY_F => snprintf_t_data "F" (temperature_f_x10 r)
  | MAIN_STATE_DISPLAY_H => snprintf_t_data "H" (humidity_x10 r)
  | MAIN_STATE_ERROR_DISPLAY => ["-"; "-"; "-"; "-"; Ascii.zero]%char
  end.

(** The status [api_char_gen.transmit] returns is not looked at. *)
Definition bl_spi_transmit_sensor_data (fuel : nat) (levelA levelB : GPIO_PinState)
    (r : readings) (s : bl_data) : outcome bl_data :=
  let '(event, buttonA', buttonB') :=
    detect_events levelA levelB (buttonA s) (buttonB s) in
  let text := display_text (currentMainState s) r in
  match char_gen_transmit fuel
          (Some (mk_char_gen_data (Some text) (Some bl_periods) (Some bl_brightness)))
          (display s) with
  | Returns (_, display') =>
      Returns (mk_bl_data buttonA' buttonB'
                 (next_main_state (currentMainState s) event) text display')
  | AssertFails => AssertFails
  | Undefined => Undefined
  | Spinning => Spinning
  end.

(** The two integers [aht20_calculate_measurments] converts, read from
    [measured_data]. *)
Definition raw_values (measured_data : list Z) : option (Z * Z) :=
  d1 ← measured_data !! 1%nat; d2 ← measured_data !! 2%nat;
  d3 ← measured_data !! 3%nat; d4 ← measured_data !! 4%nat;
  d5 ← measured_data !! 5%nat;
  Some (raw_humidity d1 d2 d3, raw_temperature d3 d4 d5).

(** [retry_reply] is what the transmit of the soft reset made by
    [bl_process_sensor_data] itself returns.  The result: the status,
    [sensor_data.measured_data], the integers converted, and the calls
    made. *)
Definition bl_process_sensor_data (env : measure_env) (retry_reply : HAL_StatusTypeDef)
    (hi2c : ptr) (measured_data : list Z)
    : outcome (bl_status_t * list Z * option (Z * Z) * list i2c_call) :=
  match aht20_measure env hi2c (Some measured_data) 7 with
  | Returns (status, measured_data', calls) =>
      let calculate (calls : list i2c_call) :=
        match raw_values measured_data' with
        | Some raw => Returns (BL_STATUS_OK, measured_data', Some raw, calls)
        | None => Undefined
        end in
      match status with
      | AHT20_STATUS_OK => calculate calls
      | _ =>
          match aht20_soft_reset retry_reply hi2c with
          | Returns (AHT20_STATUS_OK, calls') => calculate (calls ++ calls')
          | Returns (_, calls') =>
              Returns (BL_STATUS_RUN_FAILED, measured_data', None, calls ++ calls')
          | AssertFails => AssertFails
          | Undefined => Undefined
          | Spinning => Spinning
          end
      end
  | AssertFails => AssertFails
  | Undefined => Undefined
  | Spinning => Spinning
  end.

(** The state of the display after a sequence of detected events. *)
Definition main_state_after (events : list SystemEvent) (s : MainState) : MainState :=
  fold_left next_main_state events s.

(** The display selected by a number: 0 Celsius, 1 Fahrenheit, 2 humidity. *)
Definition display_of (n : nat) : MainState :=
  match n with
  | 0%nat => MAIN_STATE_DISPLAY_C
  | 1%nat => MAIN_STATE_DISPLAY_F
  | _ => MAIN_STATE_DISPLAY_H
  end.

Definition same_event (x e : SystemEvent) : bool :=
  match x, e with
  | EVENT_NONE, EVENT_NONE
  | EVENT_BUTTON_A_SHORT, EVENT_BUTTON_A_SHORT
  | EVENT_BUTTON_B_SHORT, EVENT_BUTTON_B_SHORT => true
  | _, _ => false
  end.

(** How often [e] occurs in [events]. *)
Definition presses (e : SystemEvent) (events : list SystemEvent) : nat :=
  length (List.filter (same_event e) events).

(** The business logic after start-up: both buttons released, the Celsius
    display selected, the display driver initialised; and readings of
    23.4 degrees Celsius, 74.1 degrees Fahrenheit and 45.5 percent. *)
Definition bl_started : bl_data :=
  mk_bl_data (mk_Button 0 0 BUTTON_SHORT_PRESS GPIO_PIN_SET 1 2)
             (mk_Button 0 0 BUTTON_SHORT_PRESS GPIO_PIN_SET 1 4)
             MAIN_STATE_DISPLAY_C (replicate 5 Ascii.zero) booted.

Definition sample_readings : readings := mk_readings 234 741 455.

(** *** The two buttons of the business logic

    [bl_init_buttons] initialises [buttonA] and then [buttonB]: the chain is
    [buttonB], [buttonA].  [a1], [a2], [b1], [b2] are the pin levels read by
    the two calls of [button_init]. *)
Definition bl_init_buttons (a1 a2 b1 b2 : GPIO_PinState)
    (portA : ptr) (pinA : Z) (portB : ptr) (pinB : Z) : list Button :=
  button_init b1 b2 portB pinB (button_init a1 a2 portA pinA []).

Definition HAL_GPIO_EXTI_Callback (current_time : Z) (level : GPIO_PinState)
    (gpio_pin : Z) (chain : list Button) : outcome (list Button) :=
  read_button current_time level gpio_pin chain.

(** [detect_events] on the chain [buttonB], [buttonA]. *)
Definition detect_events_on (levelA levelB : GPIO_PinState) (chain : list Button)
    : option (SystemEvent * list Button) :=
  match chain with
  | [b; a] =>
      let '(event, a', b') := detect_events levelA levelB a b in
      Some (event, [b'; a'])
  | _ => None
  end.

(** The chain after [bl_init_buttons] with both buttons released. *)
Definition released_buttons (portA : ptr) (pinA : Z) (portB : ptr) (pinB : Z)
    : list Button :=
  bl_init_buttons GPIO_PIN_SET GPIO_PIN_SET GPIO_PIN_SET GPIO_PIN_SET
    portA pinA portB pinB.
#[local] Arguments Nat.modulo : simpl never.

Lemma other_buf_neq b : other_buf b <> b.
Proof. destruct b; discriminate. Qed.

Lemma main_ok_frame d d' m :
  buf0 (buffers d') = buf0 (buffers d) ->
  buf1 (buffers d') = buf1 (buffers d) ->
  current_active_buf_index d' = current_active_buf_index d ->
  new_buffer_ready d' = new_buffer_ready d ->
  main_ok d m -> main_ok d' m.
Proof.
  intros H0 H1 Ha Hr.
  assert (Hg : forall b, get_buf b (buffers d') = get_buf b (buffers d))
    by (intros []; simpl; assumption).
  assert (Hact : active_buf d' = active_buf d) by (unfold active_buf; rewrite Ha; reflexivity).
  destruct m as [[| | | | |]|]; simpl; unfold copied; rewrite ?Hr, ?Hact, ?Hg; auto.
Qed.

Ltac inv_close Hp :=
  constructor; simpl; auto;
  try (unfold lengths_ok in *; simpl; rewrite ?length_insert; tauto);
  try (eapply main_ok_frame; eauto; fail);
  try (intros _; apply Hp; congruence).

Lemma timer_preserves_inv s inst s' :
  inv s -> exec (TIMER inst) s = Some s' -> inv s'.
Proof.
  intros [Hl Hi Hp Hm] H. destruct s as [d m]. simpl in *.
  destruct inst; simpl in H; [| inversion H; subst; constructor; auto].
  destruct (state d) eqn:Hs; simpl in H.
  - inversion H; subst; clear H. constructor; simpl; auto.
    + destruct (new_buffer_ready d =? 1); exact Hl.
    + destruct (new_buffer_ready d =? 1); exact Hi.
    + destruct (new_buffer_ready d =? 1) eqn:Hr; [| eapply main_ok_frame; eauto].
      apply Z.eqb_eq in Hr.
      destruct m as [[| | | | |]|]; simpl in *; auto; lia.
  - destruct (Hp ltac:(discriminate)) as [Hd Hk]. rewrite Hd, Hk in H. simpl in H.
    destruct (skip_buff (get_buf (active_buf d) (buffers d)) !! current_segment_index d) as [thr|] eqn:Ht; simpl in H; [|discriminate].
    destruct (skip_counter (buffers d) !! current_segment_index d) as [cnt|] eqn:Hc; simpl in H; [|discriminate].
    destruct (negb (thr =? NOT_USED) && (cnt >=? thr)).
    + destruct (data (get_buf (active_buf d) (buffers d)) !! current_segment_index d) as [w|] eqn:Hw; simpl in H; [|discriminate].
      inversion H; subst; clear H. inv_close Hp.
    + inversion H; subst; clear H. inv_close Hp.
  - destruct (negb (spi_tranfer_complete d =? 0)); inversion H; subst; clear H; inv_close Hp.
  - inversion H; subst; clear H; inv_close Hp.
  - inversion H; subst; clear H; inv_close Hp.
    apply Nat.mod_upper_bound. discriminate.
Qed.

Lemma get_set_buf b sb bs : get_buf b (set_buf b sb bs) = sb.
Proof. destruct b; reflexivity. Qed.

Lemma get_set_buf_other b sb bs : get_buf (other_buf b) (set_buf b sb bs) = get_buf (other_buf b) bs.
Proof. destruct b; reflexivity. Qed.

Lemma get_buf_lengths d b :
  lengths_ok d ->
  length (data (get_buf b (buffers d))) = NUMBER_OF_SEGMENTS /\
  length (skip_buff (get_buf b (buffers d))) = NUMBER_OF_SEGMENTS.
Proof. intros (?&?&?&?&?). destruct b; simpl; auto. Qed.

Lemma write_data_lengths b i w d : lengths_ok d -> lengths_ok (write_data b i w d).
Proof.
  intros (?&?&?&?&?). unfold lengths_ok, write_data.
  destruct b; simpl; rewrite ?length_insert; auto.
Qed.

Lemma write_skip_buff_lengths b i w d : lengths_ok d -> lengths_ok (write_skip_buff b i w d).
Proof.
  intros (?&?&?&?&?). unfold lengths_ok, write_skip_buff.
  destruct b; simpl; rewrite ?length_insert; auto.
Qed.

Lemma main_step_preserves_inv s s' :
  inv s -> exec MAIN_STEP s = Some s' -> inv s'.
Proof.
  intros [Hl Hi Hp Hm] H. destruct s as [d m]. simpl in *.
  destruct m as [pc|]; simpl in H; [|discriminate].
  destruct pc as [da lv|da lv|b i da lv|b i da lv|da lv|st]; simpl in H, Hm.
  - destruct (negb (new_buffer_ready d =? 0)) eqn:Hr; inversion H; subst; clear H;
      constructor; simpl; auto.
    apply negb_false_iff, Z.eqb_eq in Hr. exact Hr.
  - destruct (current_active_buf_index d =? 0) eqn:Ha; inversion H; subst; clear H;
      constructor; simpl; auto; unfold active_buf; simpl; rewrite Ha;
      (split; [exact Hm | split; [reflexivity | split; intros; lia]]).
  - destruct Hm as (Hr & Hb & Hcd & Hcs).
    destruct (i <? NUMBER_OF_SEGMENTS)%nat eqn:Hlt.
    + apply Nat.ltb_lt in Hlt.
      destruct (da !! i) as [w|] eqn:Hw; simpl in H; [|discriminate].
      inversion H; subst; clear H.
      destruct (get_buf_lengths d (other_buf (active_buf d)) Hl) as [Hld Hls].
      constructor; simpl; auto using write_data_lengths.
      split; [exact Hr|]. split; [reflexivity|]. split; [exact Hlt|].
      unfold copied, write_data; simpl. rewrite get_set_buf. simpl. split.
      * intros j Hj. destruct (decide (j = i)) as [->|Hne].
        -- rewrite list_lookup_insert_eq by lia. congruence.
        -- rewrite list_lookup_insert_ne by congruence. apply Hcd. lia.
      * exact Hcs.
    + apply Nat.ltb_ge in Hlt. inversion H; subst; clear H.
      constructor; simpl; auto.
      split; [exact Hr|]. split; intros j Hj; [apply Hcd | apply Hcs]; lia.
  - destruct Hm as (Hr & Hb & Hlt & Hcd & Hcs).
    destruct (lv !! i) as [v|] eqn:Hv; simpl in H; [|discriminate].
    inversion H; subst; clear H.
    destruct (get_buf_lengths d (other_buf (active_buf d)) Hl) as [Hld Hls].
    constructor; simpl; auto using write_skip_buff_lengths.
    split; [exact Hr|]. split; [reflexivity|].
    unfold copied, write_skip_buff; simpl. rewrite get_set_buf. simpl. split.
    + exact Hcd.
    + intros j Hj. destruct (decide (j = i)) as [->|Hne].
      * rewrite list_lookup_insert_eq by lia. rewrite Hv. reflexivity.
      * rewrite list_lookup_insert_ne by congruence. apply Hcs. lia.
  - inversion H; subst; clear H. constructor; simpl; auto.
  - inversion H; subst; clear H. constructor; simpl; auto.
Qed.

Lemma exec_preserves_inv e s s' : inv s -> exec e s = Some s' -> inv s'.
Proof.
  destruct e as [inst|h|da lv size|].
  - apply timer_preserves_inv.
  - intros [Hl Hi Hp Hm] H. destruct s as [d m]. simpl in *.
    inversion H; subst; clear H. unfold HAL_SPI_TxCpltCallback.
    destruct (h =? hspi (config d)); constructor; simpl; auto.
  - intros [Hl Hi Hp Hm] H. destruct s as [d m]. simpl in *.
    destruct (in_call _); [discriminate|]. inversion H; subst; clear H.
    constructor; simpl; auto. unfold send_buffer_entry.
    destruct (negb _); simpl; auto.
    destruct da, lv; simpl; auto. destruct (negb _); simpl; auto.
  - apply main_step_preserves_inv.
Qed.

Lemma init_lengths h t g p r d :
  lengths_ok d -> lengths_ok (driver_7_seg_init h t g p r d).2.
Proof.
  intros (?&?&?&?&?). unfold driver_7_seg_init.
  destruct (_ || _); simpl; [repeat split; assumption|].
  assert (length (fill_segments NOT_USED (skip_buff (buf0 (buffers d)))) = NUMBER_OF_SEGMENTS).
  { unfold fill_segments. simpl. rewrite !length_insert. assumption. }
  destruct r; simpl; repeat split; assumption.
Qed.

Lemma boot_inv h t g p : inv (boot h t g p).
Proof.
  constructor.
  - apply init_lengths. repeat split; reflexivity.
  - unfold boot, driver_7_seg_init. simpl. destruct (_ || _); simpl; unfold NUMBER_OF_SEGMENTS; lia.
  - unfold boot, driver_7_seg_init. simpl. destruct (_ || _); simpl; congruence.
  - exact I.
Qed.

Lemma reachable_inv s0 s : inv s0 -> reachable s0 s -> inv s.
Proof. intros H0 Hr. induction Hr; eauto using exec_preserves_inv. Qed.

Lemma run_reachable es s0 s : run es s0 = Some s -> reachable s0 s.
Proof.
  intros H. assert (G : forall s1, reachable s0 s1 -> run es s1 = Some s -> reachable s0 s).
  { clear H. induction es as [|e es IH]; simpl; intros s1 Hr H.
    - inversion H; subst; exact Hr.
    - destruct (exec e s1) as [s2|] eqn:He; simpl in H; [|discriminate].
      eapply IH; [|exact H]. eapply reach_step; eauto. }
  eapply G; [constructor | exact H].
Qed.

(** ** The scheduler running alone *)

Lemma tick_prepare d :
  state d = STATE_PREPARE -> new_buffer_ready d = 0 ->
  tick d = Some (with_state STATE_START_SENDING
                   (call (HAL_GPIO_WritePin (CS_GPIO_Port (config d))
                                            (CS_GPIO_Pin (config d)) GPIO_PIN_RESET)
                      (with_skip_buf (Some (active_buf d))
                         (with_data_buf (Some (active_buf d)) d)))).
Proof.
  intros Hs Hr. unfold tick, HAL_TIM_PeriodElapsedCallback. rewrite Hs, Hr. reflexivity.
Qed.

Lemma tick_start_sending d b thr cnt w :
  state d = STATE_START_SENDING ->
  skip_buf d = Some b -> data_buf d = Some b ->
  skip_buff (get_buf b (buffers d)) !! current_segment_index d = Some thr ->
  skip_counter (buffers d) !! current_segment_index d = Some cnt ->
  data (get_buf b (buffers d)) !! current_segment_index d = Some w ->
  tick d =
    Some (with_state STATE_WAIT_SPI
            (with_buffers
               (set_skip_counter
                  (<[current_segment_index d :=
                       if real_visit thr cnt then 0 else to_uint8 (cnt + 1)]>
                     (skip_counter (buffers d))) (buffers d))
               (call (if real_visit thr cnt
                      then HAL_SPI_Transmit_IT (hspi (config d)) (current_segment_index d)
                             (data_word b (current_segment_index d)) w
                      else HAL_SPI_Transmit_IT (hspi (config d)) (current_segment_index d)
                             void_data 0)
                  (with_spi_tranfer_complete 0 d)))).
Proof.
  intros Hs Hk Hd Ht Hc Hw. unfold tick, HAL_TIM_PeriodElapsedCallback. rewrite Hs. simpl.
  rewrite Hk. simpl. rewrite Ht. simpl. rewrite Hc. simpl.
  fold (real_visit thr cnt). destruct (real_visit thr cnt); simpl.
  - rewrite Hd. simpl. rewrite Hw. reflexivity.
  - reflexivity.
Qed.

Lemma tick_wait_spi d :
  state d = STATE_WAIT_SPI -> spi_tranfer_complete d = 1 ->
  tick d = Some (with_state STATE_POST d).
Proof.
  intros Hs Hc. unfold tick, HAL_TIM_PeriodElapsedCallback. rewrite Hs, Hc. reflexivity.
Qed.

Lemma tick_post d :
  state d = STATE_POST ->
  tick d = Some (with_state STATE_WAIT
                   (call (HAL_GPIO_WritePin (CS_GPIO_Port (config d))
                                            (CS_GPIO_Pin (config d)) GPIO_PIN_SET) d)).
Proof.
  intros Hs. unfold tick, HAL_TIM_PeriodElapsedCallback. rewrite Hs. reflexivity.
Qed.

Lemma tick_wait d :
  state d = STATE_WAIT ->
  tick d = Some (with_state STATE_PREPARE
                   (with_current_segment_index
                      ((current_segment_index d + 1) mod NUMBER_OF_SEGMENTS)%nat d)).
Proof.
  intros Hs. unfold tick, HAL_TIM_PeriodElapsedCallback. rewrite Hs. reflexivity.
Qed.

Lemma spi_complete_own d :
  HAL_SPI_TxCpltCallback (hspi (config d)) d = with_spi_tranfer_complete 1 d.
Proof. unfold HAL_SPI_TxCpltCallback. rewrite Z.eqb_refl. reflexivity. Qed.

Lemma bind_Some {A B} (x : A) (f : A -> option B) : (Some x ≫= f) = f x.
Proof. reflexivity. Qed.

Lemma refresh_digit_spec d i thr cnt w :
  state d = STATE_PREPARE -> new_buffer_ready d = 0 ->
  current_segment_index d = i ->
  skip_buff (get_buf (active_buf d) (buffers d)) !! i = Some thr ->
  skip_counter (buffers d) !! i = Some cnt ->
  data (get_buf (active_buf d) (buffers d)) !! i = Some w ->
  exists d', refresh_digit d = Some d' /\
    state d' = STATE_PREPARE /\ new_buffer_ready d' = 0 /\
    current_segment_index d' = ((i + 1) mod NUMBER_OF_SEGMENTS)%nat /\
    current_active_buf_index d' = current_active_buf_index d /\
    buf0 (buffers d') = buf0 (buffers d) /\ buf1 (buffers d') = buf1 (buffers d) /\
    config d' = config d /\
    skip_counter (buffers d') =
      <[i := if real_visit thr cnt then 0 else to_uint8 (cnt + 1)]> (skip_counter (buffers d)) /\
    hal d' =
      HAL_GPIO_WritePin (CS_GPIO_Port (config d)) (CS_GPIO_Pin (config d)) GPIO_PIN_SET ::
      (if real_visit thr cnt
       then HAL_SPI_Transmit_IT (hspi (config d)) i (data_word (active_buf d) i) w
       else HAL_SPI_Transmit_IT (hspi (config d)) i void_data 0) ::
      HAL_GPIO_WritePin (CS_GPIO_Port (config d)) (CS_GPIO_Pin (config d)) GPIO_PIN_RESET ::
      hal d.
Proof.
  intros Hs Hr Hi Ht Hc Hw. subst i.
  unfold refresh_digit.
  rewrite (tick_prepare d Hs Hr), bind_Some.
  match goal with |- context [tick ?x] =>
    rewrite (tick_start_sending x (active_buf d) thr cnt w eq_refl eq_refl eq_refl Ht Hc Hw)
  end.
  rewrite bind_Some, spi_complete_own.
  match goal with |- context [tick ?x] => rewrite (tick_wait_spi x eq_refl eq_refl) end.
  rewrite bind_Some.
  match goal with |- context [tick ?x] => rewrite (tick_post x eq_refl) end.
  rewrite bind_Some.
  match goal with |- context [tick ?x] => rewrite (tick_wait x eq_refl) end.
  eexists; split; [reflexivity|].
  repeat split; try reflexivity; assumption.
Qed.

Lemma lengths_ok_eq d d' :
  buf0 (buffers d') = buf0 (buffers d) -> buf1 (buffers d') = buf1 (buffers d) ->
  length (skip_counter (buffers d')) = length (skip_counter (buffers d)) ->
  lengths_ok d -> lengths_ok d'.
Proof. unfold lengths_ok. intros -> -> ->. tauto. Qed.






Lemma real_visit_reached thr cnt :
  thr <> NOT_USED -> thr <= cnt -> real_visit thr cnt = true.
Proof.
  intros Hn H. unfold real_visit. apply andb_true_iff. split.
  - apply negb_true_iff, Z.eqb_neq. exact Hn.
  - rewrite Z.geb_leb. apply Z.leb_le. exact H.
Qed.

Lemma real_visit_not_used cnt : real_visit NOT_USED cnt = false.
Proof. reflexivity. Qed.



Lemma mjoin_replicate_snoc {A} (p : list A) n :
  mjoin (replicate n p) ++ p = p ++ mjoin (replicate n p).
Proof.
  induction n as [|n IH]; simpl.
  - rewrite app_nil_r. reflexivity.
  - rewrite <- app_assoc, IH. reflexivity.
Qed.






(** ** Before the first frame *)

Lemma not_used_lookup i thr :
  [NOT_USED; NOT_USED; NOT_USED; NOT_USED] !! i = Some thr -> thr = NOT_USED.
Proof.
  intros H. do 4 (destruct i as [|i]; [simpl in H; congruence|]). inversion H.
Qed.

Lemma interrupt_keeps_blank e s :
  is_interrupt e = true -> blank_display s ->
  exists s', exec e s = Some s' /\ blank_display s'.
Proof.
  intros He [Hl Hi Ha Hr Ht Hp Hb]. destruct s as [d m]. simpl in *.
  destruct e as [inst|h| |]; try discriminate; simpl.
  - destruct inst; [| eexists; split; [reflexivity|]; constructor; assumption].
    unfold HAL_TIM_PeriodElapsedCallback.
    destruct (state d) eqn:Hs.
    + rewrite Hr. simpl. eexists; split; [reflexivity|].
      constructor; simpl; auto. intros _. unfold active_buf. simpl. rewrite Ha. auto.
    + destruct (Hp ltac:(discriminate)) as [Hd Hk].
      destruct (lookup_lt_is_Some_2 (skip_buff (buf0 (buffers d))) (current_segment_index d))
        as [thr Hthr]; [destruct Hl as (?&?&?&?&?); lia|].
      destruct (lookup_lt_is_Some_2 (skip_counter (buffers d)) (current_segment_index d))
        as [cnt Hcnt]; [destruct Hl as (?&?&?&?&?); lia|].
      simpl. rewrite Hk. simpl. rewrite Hthr. simpl. rewrite Hcnt. simpl.
      assert (thr = NOT_USED) as -> by (rewrite Ht in Hthr; eapply not_used_lookup; eauto).
      simpl. eexists; split; [reflexivity|].
      constructor; simpl; auto.
      * destruct Hl as (?&?&?&?&?). unfold lengths_ok; simpl. rewrite length_insert. tauto.
    + destruct (negb (spi_tranfer_complete d =? 0)); eexists; (split; [reflexivity|]);
        constructor; simpl; auto; intros _; apply Hp; congruence.
    + eexists; split; [reflexivity|]. constructor; simpl; auto;
        try (intros _; apply Hp; congruence).
    + eexists; split; [reflexivity|]. constructor; simpl; auto; try congruence.
      apply Nat.mod_upper_bound. discriminate.
  - eexists; split; [reflexivity|]. unfold HAL_SPI_TxCpltCallback.
    destruct (h =? hspi (config d)); constructor; simpl; auto.
Qed.

Lemma interrupts_keep_blank es : forall s,
  forallb is_interrupt es = true -> blank_display s ->
  exists s', run es s = Some s' /\ blank_display s'.
Proof.
  induction es as [|e es IH]; intros s Hes Hs; simpl in *.
  - eauto.
  - apply andb_true_iff in Hes as [He Hes].
    destruct (interrupt_keeps_blank e s He Hs) as (s1 & E1 & B1).
    rewrite E1. simpl. eauto.
Qed.

Lemma init_ok_inv h t g p r d d' :
  driver_7_seg_init h t g p r d = (DRIVER_7_SEG_STATUS_OK, d') ->
  h <> NULL /\ t <> NULL /\ g <> NULL /\ r = HAL_OK /\
  d' = (driver_7_seg_init h t g p HAL_OK d).2.
Proof.
  unfold driver_7_seg_init.
  destruct (h =? NULL) eqn:Eh; simpl; [discriminate|].
  destruct (t =? NULL) eqn:Et; simpl; [discriminate|].
  destruct (g =? NULL) eqn:Eg; simpl; [discriminate|].
  apply Z.eqb_neq in Eh, Et, Eg.
  destruct r; simpl; intros H; inversion H; auto.
Qed.

Lemma refresh_digit_blank d j :
  (j < NUMBER_OF_SEGMENTS)%nat -> blank_at d j ->
  exists d', refresh_digit d = Some d' /\
    blank_at d' ((j + 1) mod NUMBER_OF_SEGMENTS) /\
    sent_words (hal d') = (j, void_data, 0) :: sent_words (hal d).
Proof.
  intros Hj (Hl & Hs & Hr & Hi & Ha & Ht).
  assert (Hact : active_buf d = BUF0) by (unfold active_buf; rewrite Ha; reflexivity).
  destruct (get_buf_lengths d BUF0 Hl) as [Hld Hls].
  destruct (lookup_lt_is_Some_2 (data (get_buf BUF0 (buffers d))) j) as [wj Hwj]; [lia|].
  destruct (lookup_lt_is_Some_2 (skip_counter (buffers d)) j) as [cj Hcj];
    [destruct Hl as (?&?&?&?&?); lia|].
  assert (Htj : skip_buff (get_buf (active_buf d) (buffers d)) !! j = Some NOT_USED).
  { rewrite Hact. cbn [get_buf]. rewrite Ht. unfold NUMBER_OF_SEGMENTS in Hj.
    destruct j as [|[|[|[|]]]]; try lia; reflexivity. }
  rewrite <- Hact in Hwj.
  destruct (refresh_digit_spec d j NOT_USED cj wj Hs Hr Hi Htj Hcj Hwj)
    as (d' & E & Hs' & Hr' & Hi' & Ha' & H0 & H1 & Hcfg & Hsc & Hh).
  exists d'. split; [exact E|]. split.
  - unfold blank_at.
    split; [eapply lengths_ok_eq; eauto; rewrite Hsc, length_insert; reflexivity|].
    do 3 (split; [assumption|]). split; [congruence|]. rewrite H0. exact Ht.
  - rewrite Hh, real_visit_not_used. reflexivity.
Qed.

Lemma scan_blank d :
  blank_at d 0 ->
  exists d', scan d = Some d' /\ blank_at d' 0 /\
    sent_words (hal d') = blank_scan ++ sent_words (hal d).
Proof.
  intros V0. unfold scan.
  destruct (refresh_digit_blank d 0 ltac:(unfold NUMBER_OF_SEGMENTS; lia) V0)
    as (d1 & E1 & V1 & T1).
  rewrite E1, bind_Some.
  destruct (refresh_digit_blank d1 1 ltac:(unfold NUMBER_OF_SEGMENTS; lia) V1)
    as (d2 & E2 & V2 & T2).
  rewrite E2, bind_Some.
  destruct (refresh_digit_blank d2 2 ltac:(unfold NUMBER_OF_SEGMENTS; lia) V2)
    as (d3 & E3 & V3 & T3).
  rewrite E3, bind_Some.
  destruct (refresh_digit_blank d3 3 ltac:(unfold NUMBER_OF_SEGMENTS; lia) V3)
    as (d4 & E4 & V4 & T4).
  exists d4. split; [exact E4|]. split; [exact V4|].
  rewrite T4, T3, T2, T1. reflexivity.
Qed.

Lemma scans_blank_display n : forall d,
  blank_at d 0 ->
  exists d', scans n d = Some d' /\ blank_at d' 0 /\
    sent_words (hal d') = mjoin (replicate n blank_scan) ++ sent_words (hal d).
Proof.
  induction n as [|n IH]; intros d V.
  - exists d. split; [reflexivity|]. split; [exact V|reflexivity].
  - destruct (scan_blank d V) as (d1 & E1 & V1 & T1).
    destruct (IH d1 V1) as (d' & E & V' & T).
    exists d'. cbn [scans]. rewrite E1, bind_Some.
    split; [exact E|]. split; [exact V'|].
    rewrite T, T1, app_assoc, mjoin_replicate_snoc. reflexivity.
Qed.

Lemma blank_visit_transmits s :
  blank_display s -> state (drv s) = STATE_START_SENDING ->
  exists s', exec (TIMER TIM6) s = Some s' /\
    hal (drv s') =
      HAL_SPI_Transmit_IT (hspi (config (drv s))) (current_segment_index (drv s))
                          void_data 0 :: hal (drv s).
Proof.
  intros [Hl Hi Ha Hr Hthr Hp Hb] Hs.
  destruct (Hp ltac:(congruence)) as [Hdb Hsb].
  destruct (get_buf_lengths (drv s) BUF0 Hl) as [Hld Hls].
  destruct (lookup_lt_is_Some_2 (data (get_buf BUF0 (buffers (drv s))))
              (current_segment_index (drv s))) as [wj Hwj]; [lia|].
  destruct (lookup_lt_is_Some_2 (skip_counter (buffers (drv s)))
              (current_segment_index (drv s))) as [cj Hcj];
    [destruct Hl as (?&?&?&?&?); lia|].
  assert (Htj : skip_buff (get_buf BUF0 (buffers (drv s))) !! current_segment_index (drv s)
                = Some NOT_USED).
  { cbn [get_buf]. rewrite Hthr. unfold NUMBER_OF_SEGMENTS in Hi.
    destruct (current_segment_index (drv s)) as [|[|[|[|]]]]; try lia; reflexivity. }
  cbn [exec]. change (HAL_TIM_PeriodElapsedCallback TIM6) with tick.
  rewrite (tick_start_sending (drv s) BUF0 NOT_USED cj wj Hs Hsb Hdb Htj Hcj Hwj).
  rewrite bind_Some, real_visit_not_used.
  eexists. split; reflexivity.
Qed.

(** C9: after a successful [driver_7_seg_init] on the freshly started
    program, and as long as only the two interrupts run (no frame has been
    handed over), the active slot's four thresholds are [NOT_USED], every
    word given to the SPI is the blank word, and the tick that serves
    [STATE_START_SENDING] does give the blank word of the current digit to
    the SPI.  With the scheduler running, [n] scans hand over exactly [4 n]
    blank words, one per digit and scan, and nothing else. *)
Theorem blank_until_first_frame h t g p r d0 es n :
  driver_7_seg_init h t g p r power_on = (DRIVER_7_SEG_STATUS_OK, d0) ->
  forallb is_interrupt es = true ->
  (exists s, run es (mk_system d0 None) = Some s /\
     skip_buff (get_buf (active_buf (drv s)) (buffers (drv s))) =
       [NOT_USED; NOT_USED; NOT_USED; NOT_USED] /\
     (forall digit src w, (digit, src, w) ∈ sent_words (hal (drv s)) ->
        src = void_data /\ w = 0) /\
     (state (drv s) = STATE_START_SENDING ->
      exists s', exec (TIMER TIM6) s = Some s' /\
        hal (drv s') =
          HAL_SPI_Transmit_IT (hspi (config (drv s))) (current_segment_index (drv s))
                              void_data 0 :: hal (drv s))) /\
  (exists d', scans n d0 = Some d' /\
     skip_buff (get_buf (active_buf d') (buffers d')) =
       [NOT_USED; NOT_USED; NOT_USED; NOT_USED] /\
     sent_words (hal d') = mjoin (replicate n blank_scan)).
Proof.
  intros Hinit Hes.
  destruct (init_ok_inv _ _ _ _ _ _ _ Hinit) as (Hh & Ht & Hg & -> & ->).
  assert (B0 : blank_display (mk_system (driver_7_seg_init h t g p HAL_OK power_on).2 None)
               /\ blank_at (driver_7_seg_init h t g p HAL_OK power_on).2 0
               /\ sent_words (hal (driver_7_seg_init h t g p HAL_OK power_on).2) = []).
  { unfold driver_7_seg_init.
    destruct (h =? NULL) eqn:Eh; [apply Z.eqb_eq in Eh; contradiction|].
    destruct (t =? NULL) eqn:Et; [apply Z.eqb_eq in Et; contradiction|].
    destruct (g =? NULL) eqn:Eg; [apply Z.eqb_eq in Eg; contradiction|].
    simpl. split; [|split; [|reflexivity]].
    - constructor; simpl; auto.
      + repeat split; reflexivity.
      + unfold NUMBER_OF_SEGMENTS. lia.
      + congruence.
    - unfold blank_at. simpl. split; [repeat split; reflexivity|]. auto. }
  destruct B0 as (B0 & V0 & S0).
  split.
  - destruct (interrupts_keep_blank es _ Hes B0) as (s & E & Bs).
    exists s. split; [exact E|].
    pose proof Bs as [Hl Hi Ha Hr Hthr Hp Hb].
    split; [unfold active_buf; rewrite Ha; exact Hthr|].
    split.
    + intros digit src w Hin.
      rewrite forallb_forall in Hb. apply list_elem_of_In in Hin.
      specialize (Hb _ Hin). simpl in Hb.
      destruct src; [discriminate|]. destruct w; try discriminate. auto.
    + intros Hs. exact (blank_visit_transmits s Bs Hs).
  - destruct (scans_blank_display n _ V0) as (d' & E & (Hl & _ & _ & _ & Ha & Hthr) & T).
    exists d'. split; [exact E|].
    split; [unfold active_buf; rewrite Ha; exact Hthr|].
    rewrite T, S0, app_nil_r. reflexivity.
Qed.

(** ** Who writes what *)

Lemma skip_counter_set_buf b sb bs : skip_counter (set_buf b sb bs) = skip_counter bs.
Proof. destruct b; reflexivity. Qed.

Lemma send_buffer_step_skip_counter pc d pc' d' :
  send_buffer_step pc d = Some (pc', d') ->
  skip_counter (buffers d') = skip_counter (buffers d).
Proof.
  destruct pc as [da lv|da lv|b i da lv|b i da lv|da lv|st]; simpl; intros H.
  - destruct (negb _); inversion H; reflexivity.
  - destruct (_ =? _); inversion H; reflexivity.
  - destruct (_ <? _)%nat; [|inversion H; reflexivity].
    destruct (da !! i); simpl in H; inversion H. apply skip_counter_set_buf.
  - destruct (lv !! i); simpl in H; inversion H. apply skip_counter_set_buf.
  - inversion H; reflexivity.
  - inversion H; reflexivity.
Qed.

Lemma timer_skip_counter inst d d' :
  HAL_TIM_PeriodElapsedCallback inst d = Some d' ->
  (state d = STATE_START_SENDING /\ inst = TIM6 /\
   forall j, j <> current_segment_index d ->
     skip_counter (buffers d') !! j = skip_counter (buffers d) !! j) \/
  skip_counter (buffers d') = skip_counter (buffers d).
Proof.
  unfold HAL_TIM_PeriodElapsedCallback. destruct inst; [|intros H; inversion H; auto].
  destruct (state d) eqn:Hs; intros H.
  - inversion H. simpl. destruct (new_buffer_ready d =? 1); auto.
  - left. split; [reflexivity|]. split; [reflexivity|]. intros j Hj. simpl in H.
    destruct (skip_buf d) as [sb|]; simpl in H; [|discriminate].
    destruct (skip_buff (get_buf sb (buffers d)) !! current_segment_index d) as [thr|];
      simpl in H; [|discriminate].
    destruct (skip_counter (buffers d) !! current_segment_index d) as [cnt|];
      simpl in H; [|discriminate].
    destruct (negb (thr =? NOT_USED) && (cnt >=? thr)).
    + destruct (data_buf d) as [db|]; simpl in H; [|discriminate].
      destruct (data (get_buf db (buffers d)) !! current_segment_index d) as [w|];
        simpl in H; [|discriminate].
      inversion H; simpl. apply list_lookup_insert_ne. congruence.
    + inversion H; simpl. apply list_lookup_insert_ne. congruence.
  - destruct (negb _); inversion H; auto.
  - inversion H; auto.
  - inversion H; auto.
Qed.

(** C10: the skip counters are one array next to the two slots; the only
    step of the system that changes it is the timer handler in
    [STATE_START_SENDING], and then only at the current digit.  So a call of
    [driver_7_seg_send_buffer] leaves every counter as it is, and so does the
    tick that swaps the slots. *)
Theorem skip_counters_survive_handoff e s s' :
  exec e s = Some s' ->
  (skip_counter (buffers (drv s')) <> skip_counter (buffers (drv s)) ->
     e = TIMER TIM6 /\ state (drv s) = STATE_START_SENDING) /\
  (forall j, j <> current_segment_index (drv s) ->
     skip_counter (buffers (drv s')) !! j = skip_counter (buffers (drv s)) !! j) /\
  (current_active_buf_index (drv s') <> current_active_buf_index (drv s) ->
     skip_counter (buffers (drv s')) = skip_counter (buffers (drv s))) /\
  (forall b sb, skip_counter (set_buf b sb (buffers (drv s))) =
                skip_counter (buffers (drv s))).
Proof.
  intros H.
  assert (G : (e = TIMER TIM6 /\ state (drv s) = STATE_START_SENDING /\
               current_active_buf_index (drv s') = current_active_buf_index (drv s) /\
               forall j, j <> current_segment_index (drv s) ->
                 skip_counter (buffers (drv s')) !! j = skip_counter (buffers (drv s)) !! j) \/
              skip_counter (buffers (drv s')) = skip_counter (buffers (drv s))).
  { destruct s as [d m]. destruct e as [inst|h|da lv size|]; simpl in H.
    - destruct (HAL_TIM_PeriodElapsedCallback inst d) as [d1|] eqn:E; simpl in H; [|discriminate].
      inversion H; subst; clear H. simpl.
      destruct (timer_skip_counter inst d d1 E) as [(Hs & -> & Hj)|Heq]; [left|right; exact Heq].
      repeat split; auto.
      unfold HAL_TIM_PeriodElapsedCallback in E. rewrite Hs in E. simpl in E.
      destruct (skip_buf d) as [sb|]; simpl in E; [|discriminate].
      destruct (skip_buff (get_buf sb (buffers d)) !! current_segment_index d) as [thr|];
        simpl in E; [|discriminate].
      destruct (skip_counter (buffers d) !! current_segment_index d) as [cnt|];
        simpl in E; [|discriminate].
      destruct (negb (thr =? NOT_USED) && (cnt >=? thr)).
      + destruct (data_buf d) as [db|]; simpl in E; [|discriminate].
        destruct (data (get_buf db (buffers d)) !! current_segment_index d) as [w|];
          simpl in E; [|discriminate].
        inversion E; reflexivity.
      + inversion E; reflexivity.
    - right. inversion H; subst; simpl. unfold HAL_SPI_TxCpltCallback.
      destruct (h =? hspi (config d)); reflexivity.
    - right. destruct (in_call _); [discriminate|]. inversion H; reflexivity.
    - right. destruct m as [pc|]; simpl in H; [|discriminate].
      destruct (send_buffer_step pc d) as [[pc' d']|] eqn:E; simpl in H; [|discriminate].
      inversion H; subst; simpl. eapply send_buffer_step_skip_counter; eauto. }
  split; [|split; [|split]].
  - intros Hne. destruct G as [(-> & Hs & _)|Heq]; [auto | contradiction].
  - intros j Hj. destruct G as [(_ & _ & _ & Hk)|Heq]; [auto | rewrite Heq; reflexivity].
  - intros Hne. destruct G as [(_ & _ & Ha & _)|Heq]; [contradiction | exact Heq].
  - intros b sb. apply skip_counter_set_buf.
Qed.

(** C8: [driver_7_seg_init] answers NOT_INITIALIZED exactly when a handle is
    null or the timer does not start; with a null SPI handle it returns at
    once, every static and the HAL untouched, and a driver that was never
    initialised still refuses [driver_7_seg_send_buffer]. *)
Theorem init_failure a_hspi a_htim GPIOx GPIO_Pin tim_start d :
  ((driver_7_seg_init a_hspi a_htim GPIOx GPIO_Pin tim_start d).1
     = DRIVER_7_SEG_STATUS_NOT_INITIALIZED <->
   (a_hspi = NULL \/ a_htim = NULL \/ GPIOx = NULL \/ tim_start <> HAL_OK)) /\
  driver_7_seg_init NULL a_htim GPIOx GPIO_Pin tim_start d
    = (DRIVER_7_SEG_STATUS_NOT_INITIALIZED, d) /\
  hal (driver_7_seg_init NULL a_htim GPIOx GPIO_Pin tim_start d).2 = hal d /\
  (forall fuel a_data a_level size,
     driver_7_seg_send_buffer fuel a_data a_level size
       (driver_7_seg_init NULL a_htim GPIOx GPIO_Pin tim_start power_on).2
     = Returns (DRIVER_7_SEG_STATUS_NOT_INITIALIZED, power_on)).
Proof.
  split; [|split; [reflexivity | split; [reflexivity | intros [|fuel] ? ? ?; reflexivity]]].
  unfold driver_7_seg_init.
  destruct (a_hspi =? NULL) eqn:Eh; simpl.
  { apply Z.eqb_eq in Eh. tauto. }
  destruct (a_htim =? NULL) eqn:Et; simpl.
  { apply Z.eqb_eq in Et. tauto. }
  destruct (GPIOx =? NULL) eqn:Eg; simpl.
  { apply Z.eqb_eq in Eg. tauto. }
  apply Z.eqb_neq in Eh, Et, Eg.
  destruct tim_start; simpl; split; intros H;
    try discriminate; try (right; right; right; discriminate); try reflexivity.
  destruct H as [?|[?|[?|?]]]; congruence.
Qed.

(** ** A call that nothing interrupts *)

Lemma send_buffer_run_returned k s d :
  send_buffer_run k (RETURNED s) d = Returns (s, d).
Proof. destruct k; reflexivity. Qed.

Lemma same_outside_slots_refl d : same_outside_slots d d.
Proof. repeat split. Qed.

Lemma same_outside_slots_trans d1 d2 d3 :
  same_outside_slots d1 d2 -> same_outside_slots d2 d3 -> same_outside_slots d1 d3.
Proof.
  unfold same_outside_slots.
  intros (?&?&?&?&?&?&?&?&?) (?&?&?&?&?&?&?&?&?). repeat split; congruence.
Qed.

Lemma write_data_outside b i w d : same_outside_slots d (write_data b i w d).
Proof. unfold same_outside_slots, write_data. destruct b; repeat split. Qed.

Lemma write_skip_buff_outside b i w d : same_outside_slots d (write_skip_buff b i w d).
Proof. unfold same_outside_slots, write_skip_buff. destruct b; repeat split. Qed.

Lemma write_data_data b i w d :
  data (get_buf b (buffers (write_data b i w d))) = <[i:=w]> (data (get_buf b (buffers d))).
Proof. destruct b; reflexivity. Qed.

Lemma write_data_skip_buff b i w d :
  skip_buff (get_buf b (buffers (write_data b i w d))) = skip_buff (get_buf b (buffers d)).
Proof. destruct b; reflexivity. Qed.

Lemma write_skip_buff_data b i v d :
  data (get_buf b (buffers (write_skip_buff b i v d))) = data (get_buf b (buffers d)).
Proof. destruct b; reflexivity. Qed.

Lemma write_skip_buff_skip_buff b i v d :
  skip_buff (get_buf b (buffers (write_skip_buff b i v d)))
    = <[i:=v]> (skip_buff (get_buf b (buffers d))).
Proof. destruct b; reflexivity. Qed.

Lemma write_data_other b i w d :
  get_buf (other_buf b) (buffers (write_data b i w d)) = get_buf (other_buf b) (buffers d).
Proof. destruct b; reflexivity. Qed.

Lemma write_skip_buff_other b i v d :
  get_buf (other_buf b) (buffers (write_skip_buff b i v d)) = get_buf (other_buf b) (buffers d).
Proof. destruct b; reflexivity. Qed.

Lemma copy_loop b da lv k n : forall i d,
  (i + n = NUMBER_OF_SEGMENTS)%nat ->
  length da = NUMBER_OF_SEGMENTS -> length lv = NUMBER_OF_SEGMENTS ->
  length (data (get_buf b (buffers d))) = NUMBER_OF_SEGMENTS ->
  length (skip_buff (get_buf b (buffers d))) = NUMBER_OF_SEGMENTS ->
  exists d',
    send_buffer_run (2 * n + 2 + k) (AT_COPY_DATA b i da lv) d
      = Returns (DRIVER_7_SEG_STATUS_OK, d') /\
    same_outside_slots d d' /\ new_buffer_ready d' = 1 /\
    get_buf (other_buf b) (buffers d') = get_buf (other_buf b) (buffers d) /\
    (forall j, data (get_buf b (buffers d')) !! j =
               if (j <? i)%nat then data (get_buf b (buffers d)) !! j else da !! j) /\
    (forall j, skip_buff (get_buf b (buffers d')) !! j =
               if (j <? i)%nat then skip_buff (get_buf b (buffers d)) !! j
               else to_uint8 <$> lv !! j).
Proof.
  induction n as [|n IH]; intros i d Hin Hda Hlv Hd Hs.
  - assert (i = NUMBER_OF_SEGMENTS) as -> by lia.
    exists (with_new_buffer_ready 1 d). split; [|split; [|split; [|split; [|split]]]].
    + change (2 * 0 + 2 + k)%nat with (S (S k)).
      cbn [send_buffer_run send_buffer_step NUMBER_OF_SEGMENTS Nat.ltb Nat.leb].
      apply send_buffer_run_returned.
    + repeat split.
    + reflexivity.
    + reflexivity.
    + intros j. simpl. destruct (j <? NUMBER_OF_SEGMENTS)%nat eqn:Hj; [reflexivity|].
      apply Nat.ltb_ge in Hj. rewrite !lookup_ge_None_2 by lia. reflexivity.
    + intros j. simpl. destruct (j <? NUMBER_OF_SEGMENTS)%nat eqn:Hj; [reflexivity|].
      apply Nat.ltb_ge in Hj. rewrite !lookup_ge_None_2 by lia. reflexivity.
  - assert (Hi : (i < NUMBER_OF_SEGMENTS)%nat) by lia.
    destruct (lookup_lt_is_Some_2 da i) as [w Hw]; [lia|].
    destruct (lookup_lt_is_Some_2 lv i) as [v Hv]; [lia|].
    set (d1 := write_data b i w d).
    set (d2 := write_skip_buff b i (to_uint8 v) d1).
    destruct (IH (S i) d2) as (d' & E & Ho & Hr & Hoth & Hdat & Hskp); try assumption.
    + lia.
    + unfold d2, d1. rewrite write_skip_buff_data, write_data_data, length_insert. exact Hd.
    + unfold d2, d1. rewrite write_skip_buff_skip_buff, write_data_skip_buff, length_insert.
      exact Hs.
    + exists d'. split; [|split; [|split; [|split; [|split]]]].
      * replace (2 * S n + 2 + k)%nat with (S (S (2 * n + 2 + k))) by lia.
        cbn [send_buffer_run send_buffer_step].
        apply Nat.ltb_lt in Hi. rewrite Hi, Hw. cbn [mbind option_bind].
        cbn [send_buffer_run send_buffer_step]. rewrite Hv. cbn [mbind option_bind].
        exact E.
      * eapply same_outside_slots_trans; [|exact Ho].
        eapply same_outside_slots_trans;
          [apply write_data_outside | apply write_skip_buff_outside].
      * exact Hr.
      * rewrite Hoth. unfold d2, d1.
        rewrite write_skip_buff_other, write_data_other. reflexivity.
      * intros j. rewrite Hdat. unfold d2, d1.
        rewrite write_skip_buff_data, write_data_data.
        destruct (j <? S i)%nat eqn:Hj1; destruct (j <? i)%nat eqn:Hj2;
          try reflexivity.
        -- apply Nat.ltb_lt in Hj2. apply list_lookup_insert_ne. lia.
        -- apply Nat.ltb_lt in Hj1. apply Nat.ltb_ge in Hj2.
           assert (j = i) as -> by lia.
           rewrite list_lookup_insert_eq by lia. congruence.
        -- apply Nat.ltb_ge in Hj1. apply Nat.ltb_lt in Hj2. lia.
      * intros j. rewrite Hskp. unfold d2, d1.
        rewrite write_skip_buff_skip_buff, write_data_skip_buff.
        destruct (j <? S i)%nat eqn:Hj1; destruct (j <? i)%nat eqn:Hj2;
          try reflexivity.
        -- apply Nat.ltb_lt in Hj2. apply list_lookup_insert_ne. lia.
        -- apply Nat.ltb_lt in Hj1. apply Nat.ltb_ge in Hj2.
           assert (j = i) as -> by lia.
           rewrite list_lookup_insert_eq by lia. rewrite Hv. reflexivity.
        -- apply Nat.ltb_ge in Hj1. apply Nat.ltb_lt in Hj2. lia.
Qed.

Lemma send_buffer_returns_ok d da lv k :
  initialized (config d) = status_value DRIVER_7_SEG_STATUS_OK ->
  new_buffer_ready d = 0 ->
  length da = NUMBER_OF_SEGMENTS -> length lv = NUMBER_OF_SEGMENTS ->
  lengths_ok d ->
  exists d',
    driver_7_seg_send_buffer (12 + k) (Some da) (Some lv) (Z.of_nat NUMBER_OF_SEGMENTS) d
      = Returns (DRIVER_7_SEG_STATUS_OK, d') /\
    data (get_buf (other_buf (active_buf d)) (buffers d')) = da /\
    skip_buff (get_buf (other_buf (active_buf d)) (buffers d')) = to_uint8 <$> lv /\
    get_buf (active_buf d) (buffers d') = get_buf (active_buf d) (buffers d) /\
    new_buffer_ready d' = 1 /\
    same_outside_slots d d'.
Proof.
  intros Hinit Hr Hda Hlv Hl.
  set (b := other_buf (active_buf d)).
  destruct (get_buf_lengths d b Hl) as [Hld Hls].
  destruct (copy_loop b da lv k 4 0 d eq_refl Hda Hlv Hld Hls)
    as (d' & E & Ho & Hr' & Hoth & Hdat & Hskp).
  exists d'. split; [|split; [|split; [|split; [|split]]]]; try assumption.
  - unfold driver_7_seg_send_buffer, send_buffer_entry.
    rewrite Hinit, !Z.eqb_refl. cbn [negb].
    change (12 + k)%nat with (S (S (2 * 4 + 2 + k))).
    cbn [send_buffer_run send_buffer_step]. rewrite Hr. cbn [Z.eqb negb].
    cbn [send_buffer_run send_buffer_step].
    fold b in E |- *. unfold b, active_buf in E |- *.
    destruct (current_active_buf_index d =? 0); exact E.
  - apply list_eq. intros j. rewrite Hdat. reflexivity.
  - apply list_eq. intros j. rewrite Hskp, list_lookup_fmap. reflexivity.
  - replace (active_buf d) with (other_buf b) by (unfold b; destruct (active_buf d); reflexivity).
    exact Hoth.
Qed.

(** ** The character generator *)

Lemma encode_digits_4 c0 c1 c2 c3 p0 p1 p2 p3 :
  encode_digits [c0; c1; c2; c3] [p0; p1; p2; p3] =
  Some [transfer_word c0 p0 0; transfer_word c1 p1 1;
        transfer_word c2 p2 2; transfer_word c3 p3 3].
Proof. reflexivity. Qed.

Lemma length_4 {A} (l : list A) :
  length l = 4%nat -> exists a b c e, l = [a; b; c; e].
Proof.
  destruct l as [|a [|b [|c [|e [|]]]]]; simpl; try discriminate. eauto.
Qed.

Lemma char_gen_transmit_ok ds ps lv d k :
  length ds = DIGIT_NUM -> length ps = DIGIT_NUM -> length lv = DIGIT_NUM ->
  initialized (config d) = status_value DRIVER_7_SEG_STATUS_OK ->
  new_buffer_ready d = 0 -> lengths_ok d ->
  exists out_data d',
    encode_digits ds ps = Some out_data /\
    char_gen_transmit (12 + k) (Some (mk_char_gen_data (Some ds) (Some ps) (Some lv))) d
      = Returns (CHAR_GEN_STATUS_OK, d') /\
    data (get_buf (inactive_buf d) (buffers d')) = out_data /\
    skip_buff (get_buf (inactive_buf d) (buffers d')) = to_uint8 <$> lv /\
    new_buffer_ready d' = 1.
Proof.
  intros Hds Hps Hlv Hinit Hr Hl.
  destruct (length_4 ds Hds) as (c0 & c1 & c2 & c3 & ->).
  destruct (length_4 ps Hps) as (p0 & p1 & p2 & p3 & ->).
  destruct (send_buffer_returns_ok d
              [transfer_word c0 p0 0; transfer_word c1 p1 1;
               transfer_word c2 p2 2; transfer_word c3 p3 3] lv k Hinit Hr eq_refl Hlv Hl)
    as (d' & E & Hd & Hs & _ & Hr' & _).
  eexists _, d'. split; [apply encode_digits_4|].
  split; [|auto].
  unfold char_gen_transmit. cbn [digits periods brightness].
  rewrite encode_digits_4.
  change (Z.of_nat DIGIT_NUM) with (Z.of_nat NUMBER_OF_SEGMENTS).
  rewrite E. reflexivity.
Qed.

Lemma encode_digits_lookup ds ps out i c p :
  length ds = DIGIT_NUM -> length ps = DIGIT_NUM ->
  encode_digits ds ps = Some out ->
  ds !! i = Some c -> ps !! i = Some p ->
  out !! i = Some (transfer_word c p i).
Proof.
  intros Hds Hps E Hc Hp.
  destruct (length_4 ds Hds) as (c0 & c1 & c2 & c3 & ->).
  destruct (length_4 ps Hps) as (p0 & p1 & p2 & p3 & ->).
  rewrite encode_digits_4 in E. injection E as <-.
  destruct i as [|[|[|[|i]]]]; simpl in Hc, Hp;
    try discriminate Hc; injection Hc as <-; injection Hp as <-; reflexivity.
Qed.

Lemma blank_word p i :
  (i < DIGIT_NUM)%nat ->
  to_uint16 (Z.lor (to_uint16 (Z.shiftl (match p with
                                          | PERIOD_ON => 0x7F
                                          | PERIOD_OFF => 0xFF
                                          end) 8))
                   (Z.shiftl 1 (Z.of_nat i)))
    = Z.lor (Z.shiftl (match p with PERIOD_ON => 0x7F | PERIOD_OFF => 0xFF end) 8)
            (Z.shiftl 1 (Z.of_nat i)).
Proof.
  unfold DIGIT_NUM. intros Hi.
  destruct i as [|[|[|[|i]]]]; [| | | |lia]; destruct p; reflexivity.
Qed.

(** C6: a character outside the supported set is looked up as
    [INVALID_CHAR], the pattern 0xFF with every segment off (0x7F once the
    decimal point is switched on), and a request that contains it is
    transmitted like any other: the answer is CHAR_GEN_STATUS_OK, and the
    word encoded and handed to the driver for that digit is this pattern in
    the high byte over the digit's select bit. *)
Theorem unsupported_char_is_blank c p i ds ps lv d k :
  is_supported c = false ->
  ds !! i = Some c -> ps !! i = Some p ->
  length ds = DIGIT_NUM -> length ps = DIGIT_NUM -> length lv = DIGIT_NUM ->
  initialized (config d) = status_value DRIVER_7_SEG_STATUS_OK ->
  new_buffer_ready d = 0 -> lengths_ok d ->
  lookup_code char_mappings c = INVALID_CHAR /\
  chars_value (lookup_code char_mappings c) = 0xFF /\
  segment_data c p = match p with PERIOD_ON => 0x7F | PERIOD_OFF => 0xFF end /\
  exists out d',
    encode_digits ds ps = Some out /\
    out !! i = Some (Z.lor (Z.shiftl (match p with
                                       | PERIOD_ON => 0x7F
                                       | PERIOD_OFF => 0xFF
                                       end) 8)
                           (Z.shiftl 1 (Z.of_nat i))) /\
    char_gen_transmit (12 + k) (Some (mk_char_gen_data (Some ds) (Some ps) (Some lv))) d
      = Returns (CHAR_GEN_STATUS_OK, d') /\
    data (get_buf (inactive_buf d) (buffers d')) = out.
Proof.
  intros Hc Hi Hpi Hds Hps Hlv Hinit Hr Hl.
  assert (Hlook : lookup_code char_mappings c = INVALID_CHAR).
  { clear -Hc. destruct c as [[] [] [] [] [] [] [] []];
      first [ discriminate Hc | reflexivity ]. }
  assert (Hseg : segment_data c p
                 = match p with PERIOD_ON => 0x7F | PERIOD_OFF => 0xFF end)
    by (unfold segment_data; rewrite Hlook; destruct p; reflexivity).
  split; [exact Hlook|]. split; [rewrite Hlook; reflexivity|].
  split; [exact Hseg|].
  destruct (char_gen_transmit_ok ds ps lv d k Hds Hps Hlv Hinit Hr Hl)
    as (out & d' & Eenc & E & Hd & _).
  exists out, d'. split; [exact Eenc|].
  split; [|split; [exact E|exact Hd]].
  rewrite (encode_digits_lookup ds ps out i c p Hds Hps Eenc Hi Hpi).
  unfold transfer_word. rewrite Hseg. f_equal.
  apply blank_word. rewrite <- Hds. eapply lookup_lt_Some. exact Hi.
Qed.

(** C5: the request "C105" with the decimal point on the third digit
    encodes to 0xC601, 0xF902, 0x4004, 0x9208: low bytes 1, 2, 4, 8 in digit
    order, bit 7 of the high byte clear for the third digit only; these are
    the words [char_gen_transmit] puts into the inactive slot. *)
Theorem transmit_C105 d k :
  initialized (config d) = status_value DRIVER_7_SEG_STATUS_OK ->
  new_buffer_ready d = 0 -> lengths_ok d ->
  encode_digits ["C"; "1"; "0"; "5"]%char [PERIOD_OFF; PERIOD_OFF; PERIOD_ON; PERIOD_OFF]
    = Some [0xC601; 0xF902; 0x4004; 0x9208] /\
  (fun w => Z.land w 0xFF) <$> [0xC601; 0xF902; 0x4004; 0x9208] = [1; 2; 4; 8] /\
  (fun w => Z.testbit w 15) <$> [0xC601; 0xF902; 0x4004; 0x9208]
    = [true; true; false; true] /\
  exists d',
    char_gen_transmit (12 + k) (Some request_C105) d = Returns (CHAR_GEN_STATUS_OK, d') /\
    data (get_buf (inactive_buf d) (buffers d')) = [0xC601; 0xF902; 0x4004; 0x9208] /\
    skip_buff (get_buf (inactive_buf d) (buffers d')) = [0; 0; 0; 0] /\
    new_buffer_ready d' = 1.
Proof.
  intros Hinit Hr Hl.
  split; [vm_compute; reflexivity|]. split; [vm_compute; reflexivity|].
  split; [vm_compute; reflexivity|].
  destruct (char_gen_transmit_ok ["C"; "1"; "0"; "5"]%char
              [PERIOD_OFF; PERIOD_OFF; PERIOD_ON; PERIOD_OFF]
              [LEVEL_5_MAX; LEVEL_5_MAX; LEVEL_5_MAX; LEVEL_5_MAX] d k
              eq_refl eq_refl eq_refl Hinit Hr Hl)
    as (out & d' & Eo & E & Hd & Hs & Hr').
  assert (out = [0xC601; 0xF902; 0x4004; 0x9208]) as ->.
  { vm_compute in Eo. congruence. }
  exists d'. split; [exact E|]. split; [exact Hd|]. split; [|exact Hr'].
  rewrite Hs. vm_compute. reflexivity.
Qed.

(** C7: what [char_gen_transmit] does with a malformed request.  A null
    [config] trips the assertion; a null [brightness] pointer comes back as
    CHAR_GEN_STATUS_NOT_TRANSMITTED; CHAR_GEN_STATUS_INVALID_PARAMETERS is
    never returned. *)
Theorem transmit_malformed_request :
  char_gen_transmit 12 None booted = AssertFails /\
  char_gen_transmit 12 (Some request_null_brightness) booted
    = Returns (CHAR_GEN_STATUS_NOT_TRANSMITTED, booted) /\
  (forall fuel cfg d d',
     char_gen_transmit fuel cfg d <> Returns (CHAR_GEN_STATUS_INVALID_PARAMETERS, d')).
Proof.
  split; [reflexivity|]. split; [vm_compute; reflexivity|].
  intros fuel cfg d d'. unfold char_gen_transmit.
  destruct cfg as [c|]; [|discriminate].
  destruct (digits c); [|discriminate]. destruct (periods c); [|discriminate].
  destruct (encode_digits _ _); [|discriminate].
  destruct (driver_7_seg_send_buffer _ _ _ _ _) as [[[] ?]| | |]; discriminate.
Qed.

(** ** The handoff between the main context and the timer handler *)

Ltac start_sending_cases H d :=
  destruct (skip_buf d) as [?sb|]; simpl in H; [|discriminate];
  destruct (skip_buff (get_buf _ (buffers d)) !! current_segment_index d) as [?thr|];
    simpl in H; [|discriminate];
  destruct (skip_counter (buffers d) !! current_segment_index d) as [?cnt|];
    simpl in H; [|discriminate];
  destruct (negb (_ =? NOT_USED) && (_ >=? _));
  [ destruct (data_buf d) as [?db|]; simpl in H; [|discriminate];
    destruct (data (get_buf _ (buffers d)) !! current_segment_index d) as [?w|];
      simpl in H; [|discriminate]
  | ];
  inversion H; subst; clear H.

Lemma timer_slots inst d d' :
  HAL_TIM_PeriodElapsedCallback inst d = Some d' ->
  buf0 (buffers d') = buf0 (buffers d) /\ buf1 (buffers d') = buf1 (buffers d).
Proof.
  unfold HAL_TIM_PeriodElapsedCallback. destruct inst; [|intros H; inversion H; auto].
  destruct (state d) eqn:Hs; intros H; simpl in H.
  - inversion H; subst; simpl. destruct (new_buffer_ready d =? 1); auto.
  - start_sending_cases H d; auto.
  - destruct (negb _); inversion H; auto.
  - inversion H; auto.
  - inversion H; auto.
Qed.

Lemma timer_flags inst d d' :
  HAL_TIM_PeriodElapsedCallback inst d = Some d' ->
  (inst = TIM6 /\ state d = STATE_PREPARE /\ new_buffer_ready d = 1 /\
   new_buffer_ready d' = 0 /\
   current_active_buf_index d' = Z.lxor (current_active_buf_index d) 1) \/
  (new_buffer_ready d' = new_buffer_ready d /\
   current_active_buf_index d' = current_active_buf_index d).
Proof.
  unfold HAL_TIM_PeriodElapsedCallback. destruct inst; [|intros H; inversion H; auto].
  destruct (state d) eqn:Hs; intros H; simpl in H.
  - inversion H; subst; simpl. destruct (new_buffer_ready d =? 1) eqn:Hr; [left|right; auto].
    apply Z.eqb_eq in Hr. auto.
  - right. start_sending_cases H d; auto.
  - right. destruct (negb _); inversion H; auto.
  - right. inversion H; auto.
  - right. inversion H; auto.
Qed.

Lemma other_buf_involutive b : other_buf (other_buf b) = b.
Proof. destruct b; reflexivity. Qed.

Lemma get_buf_ext bs bs' b :
  buf0 bs' = buf0 bs -> buf1 bs' = buf1 bs -> get_buf b bs' = get_buf b bs.
Proof. destruct b; simpl; auto. Qed.

Lemma main_step_cases s s' :
  inv s -> exec MAIN_STEP s = Some s' ->
  get_buf (active_buf (drv s)) (buffers (drv s')) =
    get_buf (active_buf (drv s)) (buffers (drv s)) /\
  current_active_buf_index (drv s') = current_active_buf_index (drv s) /\
  hal (drv s') = hal (drv s) /\
  ((new_buffer_ready (drv s') = new_buffer_ready (drv s) /\
    forall da lv, main s = Some (AT_WAIT da lv) -> new_buffer_ready (drv s) <> 0 -> s' = s) \/
   (exists da lv, main s = Some (AT_PUBLISH da lv) /\
      main s' = Some (RETURNED DRIVER_7_SEG_STATUS_OK) /\
      new_buffer_ready (drv s) = 0 /\ new_buffer_ready (drv s') = 1 /\
      buffers (drv s') = buffers (drv s) /\
      copied (inactive_buf (drv s)) NUMBER_OF_SEGMENTS NUMBER_OF_SEGMENTS da lv (drv s'))).
Proof.
  intros [Hl Hi Hp Hm] H. destruct s as [d m]. simpl in *.
  destruct m as [pc|]; simpl in H; [|discriminate].
  destruct pc as [da lv|da lv|b i da lv|b i da lv|da lv|st]; simpl in H, Hm.
  - destruct (negb (new_buffer_ready d =? 0)) eqn:Hr; inversion H; subst; clear H; simpl;
      (split; [reflexivity|]; split; [reflexivity|]; split; [reflexivity|]; left;
       split; [reflexivity|]).
    + intros; reflexivity.
    + intros da' lv' _ Hne. apply negb_false_iff, Z.eqb_eq in Hr. contradiction.
  - destruct (current_active_buf_index d =? 0); inversion H; subst; clear H; simpl;
      (split; [reflexivity|]; split; [reflexivity|]; split; [reflexivity|]; left;
       split; [reflexivity|]; intros; discriminate).
  - destruct Hm as (Hr & Hb & Hc).
    destruct (i <? NUMBER_OF_SEGMENTS)%nat.
    + destruct (da !! i) as [w|]; simpl in H; [|discriminate].
      inversion H; subst; clear H; simpl.
      split; [|split; [reflexivity|]; split; [reflexivity|]; left;
               split; [reflexivity|]; intros; discriminate].
      destruct (active_buf d); reflexivity.
    + inversion H; subst; clear H; simpl.
      split; [reflexivity|]; split; [reflexivity|]; split; [reflexivity|]; left;
        split; [reflexivity|]; intros; discriminate.
  - destruct Hm as (Hr & Hb & Hlt & Hc).
    destruct (lv !! i) as [v|]; simpl in H; [|discriminate].
    inversion H; subst; clear H; simpl.
    split; [|split; [reflexivity|]; split; [reflexivity|]; left;
             split; [reflexivity|]; intros; discriminate].
    destruct (active_buf d); reflexivity.
  - destruct Hm as (Hr & Hc). inversion H; subst; clear H; simpl.
    split; [reflexivity|]; split; [reflexivity|]; split; [reflexivity|]. right.
    exists da, lv. repeat split; auto; apply Hc; assumption.
  - inversion H; subst; clear H; simpl.
    split; [reflexivity|]; split; [reflexivity|]; split; [reflexivity|]; left;
      split; [reflexivity|]; intros; discriminate.
Qed.

Lemma exec_flags e s s' :
  inv s -> exec e s = Some s' ->
  (e = TIMER TIM6 /\ state (drv s) = STATE_PREPARE /\ new_buffer_ready (drv s) = 1 /\
   new_buffer_ready (drv s') = 0 /\
   current_active_buf_index (drv s') = Z.lxor (current_active_buf_index (drv s)) 1) \/
  (e = MAIN_STEP /\ current_active_buf_index (drv s') = current_active_buf_index (drv s) /\
   exists da lv, main s = Some (AT_PUBLISH da lv) /\
      main s' = Some (RETURNED DRIVER_7_SEG_STATUS_OK) /\
      new_buffer_ready (drv s) = 0 /\ new_buffer_ready (drv s') = 1 /\
      buffers (drv s') = buffers (drv s) /\
      copied (inactive_buf (drv s)) NUMBER_OF_SEGMENTS NUMBER_OF_SEGMENTS da lv (drv s')) \/
  (new_buffer_ready (drv s') = new_buffer_ready (drv s) /\
   current_active_buf_index (drv s') = current_active_buf_index (drv s)).
Proof.
  intros Hinv H. destruct e as [inst|hh|da lv size|].
  - destruct s as [d m]. simpl in H.
    destruct (HAL_TIM_PeriodElapsedCallback inst d) as [d1|] eqn:E; simpl in H; [|discriminate].
    inversion H; subst; clear H. simpl.
    destruct (timer_flags inst d d1 E) as [(-> & Hs & Hr & Hr' & Ha)|[Hr Ha]];
      [left; repeat split; assumption | right; right; split; assumption].
  - right; right. destruct s as [d m]. simpl in H. inversion H; subst; simpl.
    unfold HAL_SPI_TxCpltCallback. destruct (hh =? hspi (config d)); auto.
  - right; right. destruct s as [d m]. simpl in H.
    destruct (in_call _); [discriminate|]. inversion H; subst; simpl. auto.
  - destruct (main_step_cases s s' Hinv H) as (_ & Ha & _ & [[Hr _]|Hpub]);
      [right; right; split; assumption | right; left; split; [reflexivity|]; split; assumption].
Qed.

Lemma exec_keeps_active_slot e s s' :
  inv s -> exec e s = Some s' ->
  get_buf (active_buf (drv s)) (buffers (drv s')) =
    get_buf (active_buf (drv s)) (buffers (drv s)).
Proof.
  intros Hinv H. destruct e as [inst|hh|da lv size|].
  - destruct s as [d m]. simpl in H.
    destruct (HAL_TIM_PeriodElapsedCallback inst d) as [d1|] eqn:E; simpl in H; [|discriminate].
    inversion H; subst; clear H. simpl.
    destruct (timer_slots inst d d1 E). apply get_buf_ext; assumption.
  - destruct s as [d m]. simpl in H. inversion H; subst; simpl.
    unfold HAL_SPI_TxCpltCallback. destruct (hh =? hspi (config d)); reflexivity.
  - destruct s as [d m]. simpl in H.
    destruct (in_call _); [discriminate|]. inversion H; subst; reflexivity.
  - destruct (main_step_cases s s' Hinv H) as (Hg & _); exact Hg.
Qed.

(** C3: the handoff as [driver_7_seg_send_buffer] performs it.  While a
    frame is pending, a step of the call changes nothing, and the flag is
    cleared by the timer handler in [STATE_PREPARE] and by nothing else.  No
    step of the call writes the active slot.  The flag goes up in the last
    step of the call, which writes no slot and finds the caller's four words
    and four thresholds in the inactive slot.  A call that starts with no
    frame pending and is not interrupted returns OK within 12 steps. *)
Theorem send_buffer_handoff h t g p s e s' :
  reachable (boot h t g p) s -> exec e s = Some s' ->
  (forall da lv, e = MAIN_STEP -> main s = Some (AT_WAIT da lv) ->
     new_buffer_ready (drv s) <> 0 -> s' = s) /\
  (new_buffer_ready (drv s) <> 0 -> new_buffer_ready (drv s') = 0 ->
     e = TIMER TIM6 /\ state (drv s) = STATE_PREPARE) /\
  (e = MAIN_STEP ->
     get_buf (active_buf (drv s)) (buffers (drv s')) =
       get_buf (active_buf (drv s)) (buffers (drv s))) /\
  (new_buffer_ready (drv s) = 0 -> new_buffer_ready (drv s') <> 0 ->
     e = MAIN_STEP /\
     exists da lv, main s = Some (AT_PUBLISH da lv) /\
       main s' = Some (RETURNED DRIVER_7_SEG_STATUS_OK) /\
       new_buffer_ready (drv s') = 1 /\
       buffers (drv s') = buffers (drv s) /\
       copied (inactive_buf (drv s)) NUMBER_OF_SEGMENTS NUMBER_OF_SEGMENTS da lv (drv s')) /\
  (forall da lv k,
     length da = NUMBER_OF_SEGMENTS -> length lv = NUMBER_OF_SEGMENTS ->
     initialized (config (drv s)) = status_value DRIVER_7_SEG_STATUS_OK ->
     new_buffer_ready (drv s) = 0 ->
     exists d',
       driver_7_seg_send_buffer (12 + k) (Some da) (Some lv)
                                (Z.of_nat NUMBER_OF_SEGMENTS) (drv s)
         = Returns (DRIVER_7_SEG_STATUS_OK, d') /\
       data (get_buf (inactive_buf (drv s)) (buffers d')) = da /\
       skip_buff (get_buf (inactive_buf (drv s)) (buffers d')) = to_uint8 <$> lv /\
       get_buf (active_buf (drv s)) (buffers d') =
         get_buf (active_buf (drv s)) (buffers (drv s)) /\
       new_buffer_ready d' = 1).
Proof.
  intros Hreach H.
  assert (Hinv : inv s) by (eapply reachable_inv; [apply boot_inv | exact Hreach]).
  split; [|split; [|split; [|split]]].
  - intros da lv -> Hm Hne.
    destruct (main_step_cases s s' Hinv H) as (_ & _ & _ & [[_ Hw]|(da' & lv' & Hm' & _)]).
    + eapply Hw; eauto.
    + congruence.
  - intros Hne H0.
    destruct (exec_flags e s s' Hinv H)
      as [(-> & Hs & _)|[(_ & _ & da & lv & _ & _ & _ & H1 & _)|[Hr _]]]; auto; congruence.
  - intros ->. eapply exec_keeps_active_slot; eauto.
  - intros H0 Hne.
    destruct (exec_flags e s s' Hinv H)
      as [(_ & _ & H1 & _)|[(-> & _ & da & lv & Hm & Hm' & _ & H1 & Hb & Hc)|[Hr _]]];
      try congruence.
    split; [reflexivity|]. exists da, lv. auto.
  - intros da lv k Hda Hlv Hinit Hr.
    destruct (send_buffer_returns_ok (drv s) da lv k Hinit Hr Hda Hlv (inv_len s Hinv))
      as (d' & E & Hd & Hs & Hact & Hr' & _).
    exists d'. auto.
Qed.

Lemma exec_timer inst s s' :
  exec (TIMER inst) s = Some s' ->
  exists d1, HAL_TIM_PeriodElapsedCallback inst (drv s) = Some d1 /\ s' = mk_system d1 (main s).
Proof.
  unfold exec. destruct (HAL_TIM_PeriodElapsedCallback inst (drv s)) as [d1|];
    simpl; intros H; inversion H. eauto.
Qed.

Lemma cons_neq_self {A} (x : A) l : l <> x :: l.
Proof. intros H. apply (f_equal length) in H. simpl in H. lia. Qed.

Lemma timer_prepare_next d d' :
  state d = STATE_PREPARE -> HAL_TIM_PeriodElapsedCallback TIM6 d = Some d' ->
  state d' = STATE_START_SENDING.
Proof.
  intros Hs H. unfold HAL_TIM_PeriodElapsedCallback in H. rewrite Hs in H.
  inversion H; reflexivity.
Qed.

Lemma timer_transmit inst d d' hs digit src w :
  (state d <> STATE_PREPARE ->
   data_buf d = Some (active_buf d) /\ skip_buf d = Some (active_buf d)) ->
  HAL_TIM_PeriodElapsedCallback inst d = Some d' ->
  hal d' = HAL_SPI_Transmit_IT hs digit src w :: hal d ->
  digit = current_segment_index d /\
  (src = void_data /\ w = 0 \/
   src = data_word (active_buf d) digit /\
   data (get_buf (active_buf d) (buffers d)) !! digit = Some w).
Proof.
  intros Hp H Hh. unfold HAL_TIM_PeriodElapsedCallback in H.
  destruct inst; [|inversion H; subst; apply cons_neq_self in Hh; contradiction].
  destruct (state d) eqn:Hs; simpl in H.
  - inversion H; subst; simpl in Hh. destruct (new_buffer_ready d =? 1); discriminate.
  - destruct (Hp ltac:(discriminate)) as [Hd Hk]. rewrite Hk, Hd in H. simpl in H.
    destruct (skip_buff (get_buf (active_buf d) (buffers d)) !! current_segment_index d)
      as [thr|]; simpl in H; [|discriminate].
    destruct (skip_counter (buffers d) !! current_segment_index d) as [cnt|];
      simpl in H; [|discriminate].
    destruct (negb (thr =? NOT_USED) && (cnt >=? thr)).
    + destruct (data (get_buf (active_buf d) (buffers d)) !! current_segment_index d)
        as [w'|] eqn:Hw; simpl in H; [|discriminate].
      inversion H; subst; simpl in Hh. inversion Hh; subst. auto.
    + inversion H; subst; simpl in Hh. inversion Hh; subst. auto.
  - destruct (negb _); inversion H; subst; simpl in Hh;
      apply cons_neq_self in Hh; contradiction.
  - inversion H; subst; simpl in Hh. discriminate.
  - inversion H; subst; simpl in Hh. apply cons_neq_self in Hh; contradiction.
Qed.

(** C1, as the code has it: the active slot changes only in a timer tick
    that finds the scheduler in [STATE_PREPARE] with a frame pending, that
    is at the start of one digit's refresh, whichever digit is next; no step
    of the system writes the slot that is active; and a frame word handed to
    the SPI is the current digit's word of the active slot. *)
Theorem swap_only_in_prepare h t g p s e s' :
  reachable (boot h t g p) s -> exec e s = Some s' ->
  (current_active_buf_index (drv s') <> current_active_buf_index (drv s) ->
     e = TIMER TIM6 /\ state (drv s) = STATE_PREPARE /\
     new_buffer_ready (drv s) = 1 /\ new_buffer_ready (drv s') = 0 /\
     state (drv s') = STATE_START_SENDING) /\
  get_buf (active_buf (drv s)) (buffers (drv s')) =
    get_buf (active_buf (drv s)) (buffers (drv s)) /\
  (forall hs digit src w,
     hal (drv s') = HAL_SPI_Transmit_IT hs digit src w :: hal (drv s) ->
     digit = current_segment_index (drv s) /\
     (src = void_data /\ w = 0 \/
      src = data_word (active_buf (drv s)) digit /\
      data (get_buf (active_buf (drv s)) (buffers (drv s))) !! digit = Some w)).
Proof.
  intros Hreach H.
  assert (Hinv : inv s) by (eapply reachable_inv; [apply boot_inv | exact Hreach]).
  split; [|split].
  - intros Hne.
    destruct (exec_flags e s s' Hinv H)
      as [(-> & Hs & Hr & Hr' & _)|[(_ & Ha & _)|[_ Ha]]]; try contradiction.
    repeat split; auto.
    destruct (exec_timer _ _ _ H) as (d1 & E & ->). simpl.
    eapply timer_prepare_next; eauto.
  - eapply exec_keeps_active_slot; eauto.
  - intros hs digit src w Hh. destruct e as [inst|hh|da lv size|].
    + destruct (exec_timer _ _ _ H) as (d1 & E & ->). simpl in Hh.
      eapply timer_transmit; eauto. exact (inv_ptr _ Hinv).
    + destruct s as [d m]. simpl in H. inversion H; subst; simpl in Hh.
      unfold HAL_SPI_TxCpltCallback in Hh.
      destruct (hh =? hspi (config d)); simpl in Hh; apply cons_neq_self in Hh; contradiction.
    + destruct s as [d m]. simpl in H.
      destruct (in_call _); [discriminate|]. inversion H; subst; simpl in Hh.
      apply cons_neq_self in Hh; contradiction.
    + destruct (main_step_cases s s' Hinv H) as (_ & _ & Hhal & _).
      rewrite Hhal in Hh. apply cons_neq_self in Hh; contradiction.
Qed.

(** C1, as stated, fails: the pending frame B becomes active while the
    scheduler is at digit 1, and the scan that started with digit 0 of
    frame A goes on with digits 1 to 3 of frame B. *)
Lemma swap_in_mid_scan :
  ~ swap_boundary_aligned (boot 1 2 3 4) /\
  ~ scan_reads_one_slot (boot 1 2 3 4) /\
  exists s, run torn_scan (boot 1 2 3 4) = Some s /\
    take 4 (sent_words (hal (drv s))) =
      [ (3%nat, data_word BUF0 3, 0x8208); (2%nat, data_word BUF0 2, 0x8004);
        (1%nat, data_word BUF0 1, 0x9902); (0%nat, data_word BUF1 0, 0xC601) ].
Proof.
  split; [|split].
  - intros H.
    pose proof (run_reachable second_frame_pending (boot 1 2 3 4)) as R.
    destruct (run second_frame_pending (boot 1 2 3 4)) as [s|] eqn:E;
      [|vm_compute in E; discriminate].
    specialize (R s eq_refl). vm_compute in E. injection E as <-.
    specialize (H _ (TIMER TIM6) _ R eq_refl).
    vm_compute in H. specialize (H ltac:(discriminate)). discriminate H.
  - intros H.
    pose proof (run_reachable torn_scan (boot 1 2 3 4)) as R.
    destruct (run torn_scan (boot 1 2 3 4)) as [s|] eqn:E;
      [|vm_compute in E; discriminate].
    specialize (R s eq_refl). vm_compute in E. injection E as <-.
    destruct (H _ BUF1 BUF0 BUF0 BUF0 _ _ _ _ _ R eq_refl) as [Hb _]. discriminate Hb.
  - eexists. split; vm_compute; reflexivity.
Qed.


(** ** The theorems at concrete states *)

Lemma swap_only_in_prepare_witness :
  reachable (boot 1 2 3 4) frame_pending /\
  exec (TIMER TIM6) frame_pending = Some frame_active /\
  state (drv frame_pending) = STATE_PREPARE /\
  new_buffer_ready (drv frame_pending) = 1 /\
  new_buffer_ready (drv frame_active) = 0 /\
  state (drv frame_active) = STATE_START_SENDING.
Proof.
  assert (R : reachable (boot 1 2 3 4) frame_pending).
  { apply (run_reachable
             (digit_cycle 1 ++ digit_cycle 1 ++ digit_cycle 1 ++ digit_cycle 1
                ++ submit frame_A full_brightness)).
    vm_compute. reflexivity. }
  assert (E : exec (TIMER TIM6) frame_pending = Some frame_active)
    by (vm_compute; reflexivity).
  destruct (swap_only_in_prepare 1 2 3 4 frame_pending (TIMER TIM6) frame_active R E)
    as (Hswap & _ & _).
  destruct Hswap as (_ & Hs & Hr & Hr' & Hs'); [vm_compute; discriminate|].
  repeat split; assumption.
Defined.


Lemma send_buffer_handoff_witness :
  reachable (boot 1 2 3 4) about_to_publish /\
  exec MAIN_STEP about_to_publish = Some published /\
  exists da lv,
    main about_to_publish = Some (AT_PUBLISH da lv) /\
    main published = Some (RETURNED DRIVER_7_SEG_STATUS_OK) /\
    new_buffer_ready (drv published) = 1 /\
    buffers (drv published) = buffers (drv about_to_publish) /\
    copied (inactive_buf (drv about_to_publish)) NUMBER_OF_SEGMENTS NUMBER_OF_SEGMENTS
           da lv (drv published).
Proof.
  assert (R : reachable (boot 1 2 3 4) about_to_publish).
  { apply (run_reachable
             (CALL_SEND_BUFFER (Some frame_A) (Some full_brightness) 4
                :: replicate 11 MAIN_STEP)).
    vm_compute. reflexivity. }
  assert (E : exec MAIN_STEP about_to_publish = Some published)
    by (vm_compute; reflexivity).
  destruct (send_buffer_handoff 1 2 3 4 about_to_publish MAIN_STEP published R E)
    as (_ & _ & _ & Hraise & _).
  destruct Hraise as (_ & da & lv & H); [reflexivity | vm_compute; discriminate |].
  split; [exact R|]. split; [exact E|]. exists da, lv. exact H.
Defined.


Lemma transmit_C105_witness :
  exists d',
    char_gen_transmit 12 (Some request_C105) booted = Returns (CHAR_GEN_STATUS_OK, d') /\
    data (buf1 (buffers d')) = [0xC601; 0xF902; 0x4004; 0x9208] /\
    skip_buff (buf1 (buffers d')) = [0; 0; 0; 0] /\
    new_buffer_ready d' = 1.
Proof.
  assert (Hl : lengths_ok booted) by (repeat split; reflexivity).
  destruct (transmit_C105 booted 0 eq_refl eq_refl Hl) as (_ & _ & _ & d' & H).
  exists d'. exact H.
Defined.

Lemma unsupported_char_is_blank_witness :
  lookup_code char_mappings "A"%char = INVALID_CHAR /\
  segment_data "A"%char PERIOD_ON = 0x7F /\
  exists out d',
    encode_digits ["A"; "t"; "P"; "9"]%char
                  [PERIOD_ON; PERIOD_OFF; PERIOD_OFF; PERIOD_OFF] = Some out /\
    out !! 0%nat = Some (Z.lor (Z.shiftl 0x7F 8) (Z.shiftl 1 (Z.of_nat 0))) /\
    char_gen_transmit 12
      (Some (mk_char_gen_data (Some ["A"; "t"; "P"; "9"]%char)
                              (Some [PERIOD_ON; PERIOD_OFF; PERIOD_OFF; PERIOD_OFF])
                              (Some full_brightness))) booted
      = Returns (CHAR_GEN_STATUS_OK, d') /\
    data (get_buf (inactive_buf booted) (buffers d')) = out.
Proof.
  assert (Hl : lengths_ok booted) by (repeat split; reflexivity).
  destruct (unsupported_char_is_blank "A"%char PERIOD_ON 0 ["A"; "t"; "P"; "9"]%char
              [PERIOD_ON; PERIOD_OFF; PERIOD_OFF; PERIOD_OFF] full_brightness booted 0
              eq_refl eq_refl eq_refl eq_refl eq_refl eq_refl eq_refl eq_refl Hl)
    as (Hlook & _ & Hseg & Hok).
  split; [exact Hlook|]. split; [exact Hseg | exact Hok].
Defined.

Lemma blank_until_first_frame_witness :
  (exists s, run (digit_cycle 1 ++ [TIMER TIM6]) (mk_system booted None) = Some s /\
     skip_buff (get_buf (active_buf (drv s)) (buffers (drv s))) =
       [NOT_USED; NOT_USED; NOT_USED; NOT_USED] /\
     (forall digit src w, (digit, src, w) ∈ sent_words (hal (drv s)) ->
        src = void_data /\ w = 0) /\
     (state (drv s) = STATE_START_SENDING ->
      exists s', exec (TIMER TIM6) s = Some s' /\
        hal (drv s') =
          HAL_SPI_Transmit_IT (hspi (config (drv s))) (current_segment_index (drv s))
                              void_data 0 :: hal (drv s))) /\
  (exists d', scans 2 booted = Some d' /\
     skip_buff (get_buf (active_buf d') (buffers d')) =
       [NOT_USED; NOT_USED; NOT_USED; NOT_USED] /\
     sent_words (hal d') = mjoin (replicate 2 blank_scan)).
Proof.
  assert (Hinit : driver_7_seg_init 1 2 3 4 HAL_OK power_on
                    = (DRIVER_7_SEG_STATUS_OK, booted)) by (vm_compute; reflexivity).
  exact (blank_until_first_frame 1 2 3 4 HAL_OK booted (digit_cycle 1 ++ [TIMER TIM6]) 2
           Hinit eq_refl).
Defined.

Lemma skip_counters_survive_handoff_witness :
  exec (TIMER TIM6) frame_pending = Some frame_active /\
  skip_counter (buffers (drv frame_active)) = skip_counter (buffers (drv frame_pending)) /\
  skip_counter (buffers (drv frame_active)) = [1; 1; 1; 1].
Proof.
  assert (E : exec (TIMER TIM6) frame_pending = Some frame_active)
    by (vm_compute; reflexivity).
  destruct (skip_counters_survive_handoff (TIMER TIM6) frame_pending frame_active E)
    as (_ & _ & Hswap & _).
  split; [exact E|]. split; [|reflexivity].
  apply Hswap. vm_compute. discriminate.
Defined.

(** ** Further properties of the driver *)

Lemma send_buffer_step_pc_ok pc d pc' d' :
  send_buffer_step pc d = Some (pc', d') ->
  (forall s, pc <> RETURNED s) ->
  forall s, pc' = RETURNED s -> s = DRIVER_7_SEG_STATUS_OK.
Proof.
  intros H Hpc s ->.
  destruct pc as [da lv|da lv|b i da lv|b i da lv|da lv|st]; simpl in H.
  - destruct (negb _); inversion H.
  - destruct (_ =? _); inversion H.
  - destruct (_ <? _)%nat; [|inversion H].
    destruct (da !! i); simpl in H; inversion H.
  - destruct (lv !! i); simpl in H; inversion H.
  - inversion H; reflexivity.
  - exfalso. eapply Hpc; reflexivity.
Qed.

Lemma send_buffer_run_status fuel : forall pc d s d',
  send_buffer_run fuel pc d = Returns (s, d') ->
  (pc = RETURNED s /\ d' = d) \/
  ((forall s0, pc <> RETURNED s0) /\ s = DRIVER_7_SEG_STATUS_OK).
Proof.
  induction fuel as [|fuel IH]; intros pc d s d' H.
  - destruct pc; simpl in H; try discriminate. inversion H; auto.
  - destruct pc as [da lv|da lv|b i da lv|b i da lv|da lv|st];
      try (right; split; [intros s0; discriminate|];
           cbn [send_buffer_run] in H;
           match type of H with
           | match ?x with _ => _ end = _ =>
               destruct x as [[pc1 d1]|] eqn:E; [|discriminate]
           end;
           destruct (IH _ _ _ _ H) as [[-> _]|[_ ->]]; [|reflexivity];
           eapply send_buffer_step_pc_ok; [exact E | intros s0; discriminate | reflexivity]).
    simpl in H. inversion H; auto.
Qed.

Lemma send_buffer_answer_returned fuel a_data a_level size d s d' :
  driver_7_seg_send_buffer fuel a_data a_level size d = Returns (s, d') ->
  (s = DRIVER_7_SEG_STATUS_OK \/ s = DRIVER_7_SEG_STATUS_NOT_INITIALIZED \/
   s = DRIVER_7_SEG_STATUS_INVALID_PARAMETERS) /\
  (s = DRIVER_7_SEG_STATUS_NOT_INITIALIZED <->
   initialized (config d) <> status_value DRIVER_7_SEG_STATUS_OK) /\
  (s = DRIVER_7_SEG_STATUS_INVALID_PARAMETERS <->
   initialized (config d) = status_value DRIVER_7_SEG_STATUS_OK /\
   (a_data = None \/ a_level = None \/ size <> Z.of_nat NUMBER_OF_SEGMENTS)) /\
  (s <> DRIVER_7_SEG_STATUS_OK -> d' = d).
Proof.
  unfold driver_7_seg_send_buffer, send_buffer_entry. intros H.
  destruct (status_value DRIVER_7_SEG_STATUS_OK =? initialized (config d)) eqn:Ei;
    cbn [negb] in H.
  - apply Z.eqb_eq in Ei.
    destruct a_data as [da|], a_level as [lv|];
      try (rewrite send_buffer_run_returned in H; inversion H; subst;
           repeat split; auto; try discriminate; try congruence; intros; tauto).
    destruct (size =? Z.of_nat NUMBER_OF_SEGMENTS) eqn:Es; cbn [negb] in H.
    + apply Z.eqb_eq in Es.
      destruct (send_buffer_run_status _ _ _ _ _ H) as [[E _]|[_ ->]]; [discriminate|].
      repeat split; auto; try discriminate; try congruence.
      intros (_ & [?|[?|?]]); congruence.
    + apply Z.eqb_neq in Es.
      rewrite send_buffer_run_returned in H; inversion H; subst.
      repeat split; auto; try discriminate; try congruence.
  - apply Z.eqb_neq in Ei.
    rewrite send_buffer_run_returned in H; inversion H; subst.
    repeat split; auto; try discriminate; try congruence.
    intros (? & _). congruence.
Qed.

(** X1: the answers of [driver_7_seg_send_buffer].  On a driver that is
    not initialised the call returns NOT_INITIALIZED, whatever the arguments
    are; on an initialised driver with a null pointer or a [size] other than
    4 it returns INVALID_PARAMETERS; both at once and with every static as it
    was.  With four words and four levels and no frame pending it returns OK
    within 12 steps.  Whenever it returns, the answer is one of these three,
    never SEND_ERROR or BUSY, and tells which of the cases held. *)
Theorem send_buffer_answers fuel a_data a_level size d :
  (initialized (config d) <> status_value DRIVER_7_SEG_STATUS_OK ->
   driver_7_seg_send_buffer fuel a_data a_level size d
     = Returns (DRIVER_7_SEG_STATUS_NOT_INITIALIZED, d)) /\
  (initialized (config d) = status_value DRIVER_7_SEG_STATUS_OK ->
   a_data = None \/ a_level = None \/ size <> Z.of_nat NUMBER_OF_SEGMENTS ->
   driver_7_seg_send_buffer fuel a_data a_level size d
     = Returns (DRIVER_7_SEG_STATUS_INVALID_PARAMETERS, d)) /\
  (forall da lv,
     initialized (config d) = status_value DRIVER_7_SEG_STATUS_OK ->
     a_data = Some da -> a_level = Some lv -> size = Z.of_nat NUMBER_OF_SEGMENTS ->
     length da = NUMBER_OF_SEGMENTS -> length lv = NUMBER_OF_SEGMENTS ->
     new_buffer_ready d = 0 -> lengths_ok d ->
     exists d', driver_7_seg_send_buffer (12 + fuel) a_data a_level size d
                  = Returns (DRIVER_7_SEG_STATUS_OK, d')) /\
  (forall s d',
     driver_7_seg_send_buffer fuel a_data a_level size d = Returns (s, d') ->
     (s = DRIVER_7_SEG_STATUS_OK \/ s = DRIVER_7_SEG_STATUS_NOT_INITIALIZED \/
      s = DRIVER_7_SEG_STATUS_INVALID_PARAMETERS) /\
     (s = DRIVER_7_SEG_STATUS_NOT_INITIALIZED <->
      initialized (config d) <> status_value DRIVER_7_SEG_STATUS_OK) /\
     (s = DRIVER_7_SEG_STATUS_INVALID_PARAMETERS <->
      initialized (config d) = status_value DRIVER_7_SEG_STATUS_OK /\
      (a_data = None \/ a_level = None \/ size <> Z.of_nat NUMBER_OF_SEGMENTS)) /\
     (s <> DRIVER_7_SEG_STATUS_OK -> d' = d)).
Proof.
  split; [|split; [|split]].
  - intros Hn. unfold driver_7_seg_send_buffer, send_buffer_entry.
    apply Z.eqb_neq in Hn. rewrite Z.eqb_sym, Hn. cbn [negb].
    apply send_buffer_run_returned.
  - intros Hi Hbad. unfold driver_7_seg_send_buffer, send_buffer_entry.
    rewrite <- Hi, Z.eqb_refl. cbn [negb].
    destruct a_data as [da|], a_level as [lv|];
      try apply send_buffer_run_returned.
    destruct Hbad as [Hbad|[Hbad|Hbad]]; try discriminate.
    apply Z.eqb_neq in Hbad. rewrite Hbad. cbn [negb].
    apply send_buffer_run_returned.
  - intros da lv Hi -> -> -> Hda Hlv Hr Hl.
    destruct (send_buffer_returns_ok d da lv fuel Hi Hr Hda Hlv Hl) as (d' & E & _).
    exists d'. exact E.
  - intros s d' H. exact (send_buffer_answer_returned fuel a_data a_level size d s d' H).
Qed.

Lemma send_buffer_answers_witness :
  driver_7_seg_send_buffer 0 None None 7 power_on
    = Returns (DRIVER_7_SEG_STATUS_NOT_INITIALIZED, power_on) /\
  driver_7_seg_send_buffer 0 (Some frame_A) None 4 booted
    = Returns (DRIVER_7_SEG_STATUS_INVALID_PARAMETERS, booted) /\
  exists d', driver_7_seg_send_buffer 12 (Some frame_A) (Some full_brightness) 4 booted
               = Returns (DRIVER_7_SEG_STATUS_OK, d').
Proof.
  destruct (send_buffer_answers 0 None None 7 power_on) as (H1 & _).
  destruct (send_buffer_answers 0 (Some frame_A) None 4 booted) as (_ & H2 & _).
  destruct (send_buffer_answers 0 (Some frame_A) (Some full_brightness) 4 booted)
    as (_ & _ & H3 & _).
  split; [apply H1; discriminate|].
  split; [apply H2; [reflexivity | right; left; reflexivity]|].
  apply (H3 frame_A full_brightness); try reflexivity.
  repeat split; reflexivity.
Defined.

Lemma send_buffer_run_waits fuel da lv d :
  new_buffer_ready d <> 0 -> send_buffer_run fuel (AT_WAIT da lv) d = Spinning.
Proof.
  intros Hr. apply Z.eqb_neq in Hr.
  induction fuel as [|fuel IH]; [reflexivity|].
  cbn [send_buffer_run send_buffer_step]. rewrite Hr. cbn [negb]. exact IH.
Qed.

(** X2: the busy wait has no bound of its own.  Called on an initialised
    driver with a frame still pending, [driver_7_seg_send_buffer] has not
    returned after any number of steps as long as no timer interrupt is
    served; it answers neither BUSY nor anything else. *)
Theorem send_buffer_spins_while_pending fuel da lv d :
  initialized (config d) = status_value DRIVER_7_SEG_STATUS_OK ->
  new_buffer_ready d <> 0 ->
  driver_7_seg_send_buffer fuel (Some da) (Some lv) (Z.of_nat NUMBER_OF_SEGMENTS) d
    = Spinning.
Proof.
  intros Hi Hr. unfold driver_7_seg_send_buffer, send_buffer_entry.
  rewrite Hi, !Z.eqb_refl. cbn [negb]. apply send_buffer_run_waits. exact Hr.
Qed.

Lemma send_buffer_spins_while_pending_witness :
  driver_7_seg_send_buffer 1000 (Some frame_B) (Some full_brightness) 4 (drv published)
    = Spinning.
Proof.
  apply (send_buffer_spins_while_pending 1000 frame_B full_brightness (drv published)).
  - reflexivity.
  - vm_compute. discriminate.
Defined.

Lemma send_buffer_step_outside pc d pc' d' :
  send_buffer_step pc d = Some (pc', d') -> same_outside_slots d d'.
Proof.
  destruct pc as [da lv|da lv|b i da lv|b i da lv|da lv|st]; simpl; intros H.
  - destruct (negb _); inversion H; apply same_outside_slots_refl.
  - destruct (_ =? _); inversion H; apply same_outside_slots_refl.
  - destruct (_ <? _)%nat; [|inversion H; apply same_outside_slots_refl].
    destruct (da !! i); simpl in H; inversion H. apply write_data_outside.
  - destruct (lv !! i); simpl in H; inversion H. apply write_skip_buff_outside.
  - inversion H. repeat split.
  - inversion H. apply same_outside_slots_refl.
Qed.

Lemma exec_while_waiting e s s' :
  state (drv s) = STATE_WAIT_SPI -> spi_tranfer_complete (drv s) = 0 ->
  not_own_completion (drv s) e = true ->
  exec e s = Some s' ->
  state (drv s') = STATE_WAIT_SPI /\ spi_tranfer_complete (drv s') = 0 /\
  config (drv s') = config (drv s) /\
  current_segment_index (drv s') = current_segment_index (drv s) /\
  hal (drv s') = hal (drv s).
Proof.
  intros Hs Hc He H. destruct e as [inst|h|da lv size|].
  - destruct (exec_timer _ _ _ H) as (d1 & E & ->). simpl.
    unfold HAL_TIM_PeriodElapsedCallback in E. rewrite Hs, Hc in E.
    destruct inst; inversion E; subst; auto.
  - simpl in H. inversion H; subst; simpl. unfold HAL_SPI_TxCpltCallback.
    simpl in He. apply negb_true_iff in He. rewrite He. auto.
  - simpl in H. destruct (in_call s); inversion H; subst; simpl; auto.
  - simpl in H. destruct (main s) as [pc|]; simpl in H; [|discriminate].
    destruct (send_buffer_step pc (drv s)) as [[pc' d']|] eqn:E; simpl in H; [|discriminate].
    inversion H; subst; simpl.
    destruct (send_buffer_step_outside _ _ _ _ E) as (?&?&?&?&?&?&?&?&?).
    repeat split; congruence.
Qed.

(** X3: nothing but the completion interrupt of the driver's own SPI gets
    the scheduler out of [STATE_WAIT_SPI].  Whatever else happens (timer
    ticks, completion interrupts of another SPI, calls of
    [driver_7_seg_send_buffer]), the state and the digit index stay and no
    further HAL call is made: chip select stays low and the display is no
    longer refreshed. *)
Theorem scheduler_waits_for_completion es : forall s s',
  state (drv s) = STATE_WAIT_SPI -> spi_tranfer_complete (drv s) = 0 ->
  forallb (not_own_completion (drv s)) es = true ->
  run es s = Some s' ->
  state (drv s') = STATE_WAIT_SPI /\
  current_segment_index (drv s') = current_segment_index (drv s) /\
  hal (drv s') = hal (drv s).
Proof.
  induction es as [|e es IH]; intros s s' Hs Hc Hes H; simpl in H.
  - inversion H; subst; auto.
  - simpl in Hes. apply andb_true_iff in Hes as [He Hes].
    destruct (exec e s) as [s1|] eqn:E; simpl in H; [|discriminate].
    destruct (exec_while_waiting e s s1 Hs Hc He E) as (Hs1 & Hc1 & Hcfg & Hi1 & Hh1).
    assert (Hes1 : forallb (not_own_completion (drv s1)) es = true).
    { clear -Hes Hcfg. induction es as [|x es IH]; [reflexivity|].
      simpl in *. apply andb_true_iff in Hes as [H1 H2].
      apply andb_true_iff. split; [|auto].
      unfold not_own_completion in *. rewrite Hcfg. exact H1. }
    destruct (IH s1 s' Hs1 Hc1 Hes1 H) as (? & ? & ?).
    repeat split; congruence.
Qed.

Lemma scheduler_waits_for_completion_witness :
  exists s', run all_but_completion waiting_for_spi = Some s' /\
    state (drv s') = STATE_WAIT_SPI /\
    current_segment_index (drv s') = current_segment_index (drv waiting_for_spi) /\
    hal (drv s') = hal (drv waiting_for_spi).
Proof.
  destruct (run all_but_completion waiting_for_spi) as [s'|] eqn:R;
    [|vm_compute in R; discriminate].
  exists s'. split; [reflexivity|].
  exact (scheduler_waits_for_completion all_but_completion waiting_for_spi s'
           eq_refl eq_refl eq_refl R).
Defined.

Lemma boot_flags h t g p :
  new_buffer_ready (drv (boot h t g p)) = 0 /\
  current_active_buf_index (drv (boot h t g p)) = 0.
Proof. unfold boot, driver_7_seg_init. destruct (_ || _); simpl; auto. Qed.

Lemma reachable_flags h t g p s :
  reachable (boot h t g p) s ->
  (new_buffer_ready (drv s) = 0 \/ new_buffer_ready (drv s) = 1) /\
  (current_active_buf_index (drv s) = 0 \/ current_active_buf_index (drv s) = 1).
Proof.
  intros Hr. induction Hr as [|s e s' Hr IH H].
  - destruct (boot_flags h t g p) as [-> ->]. auto.
  - assert (Hinv : inv s) by (eapply reachable_inv; [apply boot_inv | exact Hr]).
    destruct IH as [Hf Ha].
    destruct (exec_flags e s s' Hinv H)
      as [(_ & _ & _ & Hr' & Ha')|[(_ & Ha' & _ & _ & _ & _ & _ & Hr' & _)|[Hr' Ha']]].
    + rewrite Hr', Ha'. split; [auto|]. destruct Ha as [-> | ->]; auto.
    + rewrite Hr', Ha'. auto.
    + rewrite Hr', Ha'. auto.
Qed.

Lemma timer_defined inst s : inv s -> exists s', exec (TIMER inst) s = Some s'.
Proof.
  intros [Hl Hi Hp Hm]. destruct s as [d m]. simpl in *.
  unfold HAL_TIM_PeriodElapsedCallback.
  destruct inst; [|eexists; reflexivity].
  destruct (state d) eqn:Hs; try (eexists; reflexivity).
  - destruct (Hp ltac:(discriminate)) as [Hd Hk].
    destruct (get_buf_lengths d (active_buf d) Hl) as [Hld Hls].
    destruct (lookup_lt_is_Some_2 (skip_buff (get_buf (active_buf d) (buffers d)))
                (current_segment_index d)) as [thr Hthr]; [lia|].
    destruct (lookup_lt_is_Some_2 (data (get_buf (active_buf d) (buffers d)))
                (current_segment_index d)) as [w Hw]; [lia|].
    destruct (lookup_lt_is_Some_2 (skip_counter (buffers d)) (current_segment_index d))
      as [cnt Hcnt]; [destruct Hl as (?&?&?&?&?); lia|].
    simpl. rewrite Hk, Hd. simpl. rewrite Hthr. simpl. rewrite Hcnt. simpl.
    destruct (negb (thr =? NOT_USED) && (cnt >=? thr)); simpl.
    + rewrite Hw. simpl. eexists; reflexivity.
    + eexists; reflexivity.
  - destruct (negb (spi_tranfer_complete d =? 0)); eexists; reflexivity.
Qed.

(** X4: the timer handler is safe in every state the system reaches after
    initialisation, whichever way a call of [driver_7_seg_send_buffer] and
    the two interrupts interleave: it never reads through [data_buf] or
    [skip_buf] while they are null and never indexes outside an array; the
    digit index stays below 4, the active index and the ready flag are 0 or
    1, and outside [STATE_PREPARE] both pointers point at the active
    slot. *)
Theorem timer_handler_safe h t g p s inst :
  reachable (boot h t g p) s ->
  (exists s', exec (TIMER inst) s = Some s') /\
  (current_segment_index (drv s) < NUMBER_OF_SEGMENTS)%nat /\
  (new_buffer_ready (drv s) = 0 \/ new_buffer_ready (drv s) = 1) /\
  (current_active_buf_index (drv s) = 0 \/ current_active_buf_index (drv s) = 1) /\
  (state (drv s) <> STATE_PREPARE ->
   data_buf (drv s) = Some (active_buf (drv s)) /\
   skip_buf (drv s) = Some (active_buf (drv s))).
Proof.
  intros Hr.
  assert (Hinv : inv s) by (eapply reachable_inv; [apply boot_inv | exact Hr]).
  destruct (reachable_flags h t g p s Hr) as [Hf Ha].
  split; [apply timer_defined; exact Hinv|].
  split; [exact (inv_idx s Hinv)|]. split; [exact Hf|]. split; [exact Ha|].
  exact (inv_ptr s Hinv).
Qed.

Lemma timer_handler_safe_witness :
  (exists s', exec (TIMER TIM6) frame_active = Some s') /\
  data_buf (drv frame_active) = Some BUF1 /\ skip_buf (drv frame_active) = Some BUF1.
Proof.
  assert (R : reachable (boot 1 2 3 4) frame_active).
  { apply (run_reachable
             (digit_cycle 1 ++ digit_cycle 1 ++ digit_cycle 1 ++ digit_cycle 1
                ++ submit frame_A full_brightness ++ [TIMER TIM6])).
    vm_compute. reflexivity. }
  destruct (timer_handler_safe 1 2 3 4 frame_active TIM6 R) as (Hd & _ & _ & _ & Hp).
  split; [exact Hd|]. apply Hp. discriminate.
Defined.

Lemma exec_cs_phase c hal0 e s s' :
  config (drv s) = c ->
  (exists new, hal (drv s) = new ++ hal0 /\ cs_trace c new = Some (phase_of (drv s))) ->
  exec e s = Some s' ->
  config (drv s') = c /\
  exists new, hal (drv s') = new ++ hal0 /\ cs_trace c new = Some (phase_of (drv s')).
Proof.
  intros Hc (new & Hh & Hph) H. destruct e as [inst|hh|da lv size|].
  - destruct (exec_timer _ _ _ H) as (d1 & E & ->). simpl.
    destruct s as [d m]. simpl in *. unfold HAL_TIM_PeriodElapsedCallback in E.
    destruct inst; [|inversion E; subst; eauto].
    unfold phase_of in *. destruct (state d) eqn:Hs; simpl in E.
    + inversion E; subst; clear E. simpl.
      assert (Hcfg : config (if new_buffer_ready d =? 1
                             then with_new_buffer_ready 0
                                    (with_current_active_buf_index
                                       (Z.lxor (current_active_buf_index d) 1) d)
                             else d) = config d)
        by (destruct (new_buffer_ready d =? 1); reflexivity).
      assert (Hidx : current_segment_index
                       (if new_buffer_ready d =? 1
                        then with_new_buffer_ready 0
                               (with_current_active_buf_index
                                  (Z.lxor (current_active_buf_index d) 1) d)
                        else d) = current_segment_index d)
        by (destruct (new_buffer_ready d =? 1); reflexivity).
      assert (Hhal : hal (if new_buffer_ready d =? 1
                          then with_new_buffer_ready 0
                                 (with_current_active_buf_index
                                    (Z.lxor (current_active_buf_index d) 1) d)
                          else d) = hal d)
        by (destruct (new_buffer_ready d =? 1); reflexivity).
      rewrite Hcfg, Hidx, Hhal. split; [reflexivity|].
      eexists (_ :: new). rewrite Hh. split; [reflexivity|].
      simpl. rewrite Hph. simpl. rewrite !Z.eqb_refl. reflexivity.
    + start_sending_cases E d; simpl; (split; [reflexivity|]);
        eexists (_ :: new); rewrite Hh; (split; [reflexivity|]);
        simpl; rewrite Hph; simpl; rewrite Z.eqb_refl, Nat.eqb_refl; reflexivity.
    + destruct (negb _); inversion E; subst; simpl; rewrite ?Hs; eauto.
    + inversion E; subst; clear E. simpl. split; [reflexivity|].
      eexists (_ :: new). rewrite Hh. split; [reflexivity|].
      simpl. rewrite Hph. simpl. rewrite !Z.eqb_refl. reflexivity.
    + inversion E; subst; clear E. simpl. eauto.
  - simpl in H. inversion H; subst; simpl. unfold HAL_SPI_TxCpltCallback, phase_of.
    destruct (hh =? hspi (config (drv s))); simpl; eauto.
  - simpl in H. destruct (in_call s); inversion H; subst; simpl; eauto.
  - simpl in H. destruct (main s) as [pc|]; simpl in H; [|discriminate].
    destruct (send_buffer_step pc (drv s)) as [[pc' d']|] eqn:E; simpl in H; [|discriminate].
    inversion H; subst; simpl.
    destruct (send_buffer_step_outside _ _ _ _ E) as (Hcfg&?&?&?&Hst&?&?&Hidx&Hhal).
    split; [congruence|]. exists new. unfold phase_of. rewrite Hhal, Hst, Hidx. auto.
Qed.

(** X5: the HAL calls made after initialisation always follow the pattern
    chip select low, one word to the SPI, chip select high, with the words
    addressed to digits 0, 1, 2, 3, 0, ... in turn, on the configured SPI
    and chip-select pin; the scheduler's state tells where in the pattern
    the calls stand.  No word is sent with chip select high, and no two
    words within one low period. *)
Theorem chip_select_frames_each_word h t g p s :
  reachable (boot h t g p) s ->
  exists new,
    hal (drv s) = new ++ hal (drv (boot h t g p)) /\
    cs_trace (config (drv (boot h t g p))) new = Some (phase_of (drv s)).
Proof.
  intros Hr.
  assert (G : config (drv s) = config (drv (boot h t g p)) /\
              exists new, hal (drv s) = new ++ hal (drv (boot h t g p)) /\
                cs_trace (config (drv (boot h t g p))) new = Some (phase_of (drv s))).
  { induction Hr as [|s e s' Hr IH H].
    - split; [reflexivity|]. exists []. split; [reflexivity|].
      unfold boot, driver_7_seg_init. destruct (_ || _); reflexivity.
    - destruct IH as [Hc Hn]. eapply exec_cs_phase; eauto. }
  exact (proj2 G).
Qed.

Lemma chip_select_frames_each_word_witness :
  exists new,
    hal (drv frame_active) = new ++ hal (drv (boot 1 2 3 4)) /\
    cs_trace (config (drv (boot 1 2 3 4))) new = Some (CS_LOW 0).
Proof.
  assert (R : reachable (boot 1 2 3 4) frame_active).
  { apply (run_reachable
             (digit_cycle 1 ++ digit_cycle 1 ++ digit_cycle 1 ++ digit_cycle 1
                ++ submit frame_A full_brightness ++ [TIMER TIM6])).
    vm_compute. reflexivity. }
  exact (chip_select_frames_each_word 1 2 3 4 frame_active R).
Defined.

(** ** From the handoff to the display *)

Lemma tick_prepare_pending d :
  state d = STATE_PREPARE -> new_buffer_ready d = 1 -> tick d = tick (activated d).
Proof.
  intros Hs Hr. unfold tick, HAL_TIM_PeriodElapsedCallback, activated.
  cbn [state with_new_buffer_ready with_current_active_buf_index new_buffer_ready].
  rewrite Hs, Hr. reflexivity.
Qed.

Lemma scan_pending d :
  state d = STATE_PREPARE -> new_buffer_ready d = 1 -> scan d = scan (activated d).
Proof.
  intros Hs Hr. unfold scan, refresh_digit. rewrite (tick_prepare_pending d Hs Hr).
  reflexivity.
Qed.

Lemma refresh_digit_full d j w cnt :
  lengths_ok d -> state d = STATE_PREPARE -> new_buffer_ready d = 0 ->
  current_segment_index d = j ->
  skip_buff (get_buf (active_buf d) (buffers d)) !! j = Some LEVEL_5_MAX ->
  skip_counter (buffers d) !! j = Some cnt -> 0 <= cnt ->
  data (get_buf (active_buf d) (buffers d)) !! j = Some w ->
  exists d', refresh_digit d = Some d' /\
    lengths_ok d' /\ state d' = STATE_PREPARE /\ new_buffer_ready d' = 0 /\
    current_segment_index d' = ((j + 1) mod NUMBER_OF_SEGMENTS)%nat /\
    active_buf d' = active_buf d /\
    (forall b, get_buf b (buffers d') = get_buf b (buffers d)) /\
    (forall i, i <> j -> skip_counter (buffers d') !! i = skip_counter (buffers d) !! i) /\
    sent_words (hal d') = (j, data_word (active_buf d) j, w) :: sent_words (hal d).
Proof.
  intros Hl Hs Hr Hi Ht Hc H0 Hw.
  destruct (refresh_digit_spec d j LEVEL_5_MAX cnt w Hs Hr Hi Ht Hc Hw)
    as (d' & E & Hs' & Hr' & Hi' & Ha' & Hb0 & Hb1 & Hcfg & Hsc & Hh).
  assert (Hreal : real_visit LEVEL_5_MAX cnt = true)
    by (apply real_visit_reached; [discriminate | exact H0]).
  rewrite Hreal in Hsc, Hh.
  exists d'. split; [exact E|].
  split; [eapply lengths_ok_eq; eauto; rewrite Hsc, length_insert; reflexivity|].
  do 3 (split; [assumption|]).
  split; [unfold active_buf; rewrite Ha'; reflexivity|].
  split; [intros b; apply get_buf_ext; assumption|].
  split; [intros i Hne; rewrite Hsc; apply list_lookup_insert_ne; congruence|].
  rewrite Hh. reflexivity.
Qed.

Lemma lengths_ok_by_slots d b :
  length (data (get_buf b (buffers d))) = NUMBER_OF_SEGMENTS ->
  length (skip_buff (get_buf b (buffers d))) = NUMBER_OF_SEGMENTS ->
  length (data (get_buf (other_buf b) (buffers d))) = NUMBER_OF_SEGMENTS ->
  length (skip_buff (get_buf (other_buf b) (buffers d))) = NUMBER_OF_SEGMENTS ->
  length (skip_counter (buffers d)) = NUMBER_OF_SEGMENTS ->
  lengths_ok d.
Proof. unfold lengths_ok. destruct b; simpl; tauto. Qed.

Lemma full_brightness_lookup i :
  (i < NUMBER_OF_SEGMENTS)%nat ->
  (to_uint8 <$> full_brightness) !! i = Some LEVEL_5_MAX.
Proof.
  unfold NUMBER_OF_SEGMENTS. intros Hi.
  destruct i as [|[|[|[|]]]]; try lia; reflexivity.
Qed.

(** X6: what is handed over is what is shown.  Take an initialised driver
    at the start of a scan with no frame pending.  A call of
    [driver_7_seg_send_buffer] with four words at full brightness returns OK,
    and the scan that follows hands exactly these four words to the SPI, in
    digit order and from the slot the call wrote, which is the active one
    from then on; the flag is clear again. *)
Theorem handed_over_frame_is_shown d w0 w1 w2 w3 k :
  lengths_ok d ->
  initialized (config d) = status_value DRIVER_7_SEG_STATUS_OK ->
  new_buffer_ready d = 0 ->
  current_active_buf_index d = 0 \/ current_active_buf_index d = 1 ->
  state d = STATE_PREPARE -> current_segment_index d = 0%nat ->
  (forall i c, skip_counter (buffers d) !! i = Some c -> 0 <= c) ->
  exists d1 d2,
    driver_7_seg_send_buffer (12 + k) (Some [w0; w1; w2; w3]) (Some full_brightness)
                             (Z.of_nat NUMBER_OF_SEGMENTS) d
      = Returns (DRIVER_7_SEG_STATUS_OK, d1) /\
    scan d1 = Some d2 /\
    sent_words (hal d2) =
      [ (3%nat, data_word (inactive_buf d) 3, w3); (2%nat, data_word (inactive_buf d) 2, w2);
        (1%nat, data_word (inactive_buf d) 1, w1); (0%nat, data_word (inactive_buf d) 0, w0) ]
        ++ sent_words (hal d) /\
    active_buf d2 = inactive_buf d /\ new_buffer_ready d2 = 0.
Proof.
  intros Hl Hinit Hr Hact Hs Hidx Hcnt.
  destruct (send_buffer_returns_ok d [w0; w1; w2; w3] full_brightness k Hinit Hr
              eq_refl eq_refl Hl)
    as (d1 & E & Hd & Hk & Hkeep & Hr1 & Hout).
  destruct Hout as (Hcfg & Hsc & _ & Ha1 & Hs1 & _ & _ & Hi1 & Hh1).
  set (b := inactive_buf d) in *. change (other_buf (active_buf d)) with b in Hd, Hk.
  set (a := activated d1).
  assert (Hba : active_buf a = b).
  { unfold a, activated, active_buf, b, inactive_buf, active_buf. simpl. rewrite Ha1.
    destruct Hact as [-> | ->]; reflexivity. }
  assert (Hla : lengths_ok a).
  { assert (Hother : get_buf (other_buf b) (buffers d1) = get_buf (other_buf b) (buffers d)).
    { unfold b, inactive_buf. rewrite other_buf_involutive. exact Hkeep. }
    destruct (get_buf_lengths d (other_buf b) Hl) as [Ho1 Ho2].
    apply (lengths_ok_by_slots a b); unfold a, activated; simpl;
      rewrite ?Hother, ?Hd, ?Hk, ?Hsc; try assumption; try reflexivity.
    destruct Hl as (?&?&?&?&?); assumption. }
  assert (Hga : forall i, data (get_buf b (buffers a)) !! i = [w0; w1; w2; w3] !! i)
    by (intros i; unfold a, activated; simpl; rewrite Hd; reflexivity).
  assert (Hta : forall i, (i < NUMBER_OF_SEGMENTS)%nat ->
            skip_buff (get_buf b (buffers a)) !! i = Some LEVEL_5_MAX)
    by (intros i Hi; unfold a, activated; simpl; rewrite Hk;
        apply full_brightness_lookup; exact Hi).
  assert (Hca : forall i, skip_counter (buffers a) !! i = skip_counter (buffers d) !! i)
    by (intros i; unfold a, activated; simpl; rewrite Hsc; reflexivity).
  assert (Hlc : length (skip_counter (buffers d)) = NUMBER_OF_SEGMENTS)
    by (destruct Hl as (?&?&?&?&?); assumption).
  destruct (lookup_lt_is_Some_2 (skip_counter (buffers d)) 0) as [c0 Hc0]; [rewrite Hlc; unfold NUMBER_OF_SEGMENTS; lia|].
  destruct (lookup_lt_is_Some_2 (skip_counter (buffers d)) 1) as [c1 Hc1]; [rewrite Hlc; unfold NUMBER_OF_SEGMENTS; lia|].
  destruct (lookup_lt_is_Some_2 (skip_counter (buffers d)) 2) as [c2 Hc2]; [rewrite Hlc; unfold NUMBER_OF_SEGMENTS; lia|].
  destruct (lookup_lt_is_Some_2 (skip_counter (buffers d)) 3) as [c3 Hc3]; [rewrite Hlc; unfold NUMBER_OF_SEGMENTS; lia|].
  (* digit 0 *)
  destruct (refresh_digit_full a 0 w0 c0) as (e1 & R1 & L1 & S1 & F1 & I1 & A1 & G1 & C1 & T1);
    try assumption; try reflexivity.
  { unfold a, activated; simpl. rewrite Hs1. exact Hs. }
  { unfold a, activated; simpl. rewrite Hi1. exact Hidx. }
  { rewrite Hba. apply Hta. unfold NUMBER_OF_SEGMENTS; lia. }
  { rewrite Hca. exact Hc0. }
  { eapply Hcnt; eauto. }
  { rewrite Hba, Hga. reflexivity. }
  (* digit 1 *)
  destruct (refresh_digit_full e1 1 w1 c1) as (e2 & R2 & L2 & S2 & F2 & I2 & A2 & G2 & C2 & T2);
    try assumption; try reflexivity.
  { rewrite A1, G1, Hba. apply Hta. unfold NUMBER_OF_SEGMENTS; lia. }
  { rewrite C1 by lia. rewrite Hca. exact Hc1. }
  { eapply Hcnt; eauto. }
  { rewrite A1, G1, Hba, Hga. reflexivity. }
  (* digit 2 *)
  destruct (refresh_digit_full e2 2 w2 c2) as (e3 & R3 & L3 & S3 & F3 & I3 & A3 & G3 & C3 & T3);
    try assumption; try reflexivity.
  { rewrite A2, G2, A1, G1, Hba. apply Hta. unfold NUMBER_OF_SEGMENTS; lia. }
  { rewrite C2, C1 by lia. rewrite Hca. exact Hc2. }
  { eapply Hcnt; eauto. }
  { rewrite A2, G2, A1, G1, Hba, Hga. reflexivity. }
  (* digit 3 *)
  destruct (refresh_digit_full e3 3 w3 c3) as (e4 & R4 & L4 & S4 & F4 & I4 & A4 & G4 & C4 & T4);
    try assumption; try reflexivity.
  { rewrite A3, G3, A2, G2, A1, G1, Hba. apply Hta. unfold NUMBER_OF_SEGMENTS; lia. }
  { rewrite C3, C2, C1 by lia. rewrite Hca. exact Hc3. }
  { eapply Hcnt; eauto. }
  { rewrite A3, G3, A2, G2, A1, G1, Hba, Hga. reflexivity. }
  exists d1, e4. split; [exact E|]. split.
  - rewrite (scan_pending d1); [|rewrite Hs1; exact Hs | exact Hr1].
    fold a. unfold scan. rewrite R1, bind_Some, R2, bind_Some, R3, bind_Some. exact R4.
  - split; [|split; [rewrite A4, A3, A2, A1; exact Hba | exact F4]].
    rewrite T4, T3, T2, T1, A3, A2, A1, Hba.
    unfold a, activated. simpl. rewrite Hh1. reflexivity.
Qed.

Lemma handed_over_frame_is_shown_witness :
  exists d1 d2,
    driver_7_seg_send_buffer 12 (Some frame_A) (Some full_brightness) 4 booted
      = Returns (DRIVER_7_SEG_STATUS_OK, d1) /\
    scan d1 = Some d2 /\
    sent_words (hal d2) =
      [ (3%nat, data_word BUF1 3, 0x9208); (2%nat, data_word BUF1 2, 0x4004);
        (1%nat, data_word BUF1 1, 0xF902); (0%nat, data_word BUF1 0, 0xC601) ] /\
    active_buf d2 = BUF1 /\ new_buffer_ready d2 = 0.
Proof.
  assert (Hl : lengths_ok booted) by (repeat split; reflexivity).
  assert (Hc : forall i c, skip_counter (buffers booted) !! i = Some c -> 0 <= c).
  { intros i c H. do 4 (destruct i as [|i]; [inversion H; lia|]). inversion H. }
  exact (handed_over_frame_is_shown booted 0xC601 0xF902 0x4004 0x9208 0
           Hl eq_refl eq_refl (or_introl eq_refl) eq_refl eq_refl Hc).
Defined.

(** ** The character generator, continued *)

(** X7: the layout of a transfer word.  For every character, either
    decimal-point flag and every digit index below [DIGIT_NUM], the word fits
    16 bits, its low byte is the one-hot mask of the digit, its high byte is
    the segment pattern, and bit 15 tells the decimal point alone (1 = off):
    every pattern of the table has bit 7 set, so switching the point on
    lowers the pattern by 128 and nothing else. *)
Theorem transfer_word_layout c p i :
  (i < DIGIT_NUM)%nat ->
  0 <= transfer_word c p i < 65536 /\
  Z.land (transfer_word c p i) 0xFF = 2 ^ Z.of_nat i /\
  Z.shiftr (transfer_word c p i) 8 = segment_data c p /\
  Z.testbit (transfer_word c p i) 15 =
    match p with PERIOD_OFF => true | PERIOD_ON => false end /\
  segment_data c PERIOD_ON = glyph c - 128 /\
  segment_data c PERIOD_OFF = glyph c.
Proof.
  unfold DIGIT_NUM. intros Hi.
  assert (Hcode : exists k, lookup_code char_mappings c = k) by eauto.
  destruct Hcode as [k Hk].
  unfold transfer_word, segment_data, glyph. rewrite Hk. clear Hk c.
  destruct i as [|[|[|[|]]]]; try lia; destruct k, p; vm_compute; intuition discriminate.
Qed.

Lemma transfer_word_layout_witness :
  Z.land (transfer_word "5" PERIOD_ON 3) 0xFF = 8 /\
  Z.shiftr (transfer_word "5" PERIOD_ON 3) 8 = 0x12 /\
  Z.testbit (transfer_word "5" PERIOD_ON 3) 15 = false.
Proof.
  destruct (transfer_word_layout "5" PERIOD_ON 3 ltac:(unfold DIGIT_NUM; lia))
    as (_ & Hm & Hs & Hb & _).
  split; [exact Hm|]. split; [exact Hs | exact Hb].
Defined.

Lemma is_supported_In c : is_supported c = true -> In c supported_chars.
Proof.
  unfold is_supported. intros H. apply existsb_exists in H as (x & Hx & E).
  apply Ascii.eqb_eq in E. subst. exact Hx.
Qed.

(** X8: the supported characters can be told apart on the display.  None of
    them is shown as the blank pattern 0xFF, and two of them are shown with
    the same segment pattern exactly when they are the same letter up to
    case (H/h, F/f, C/c). *)
Theorem glyphs_tell_characters_apart c1 c2 :
  is_supported c1 = true -> is_supported c2 = true ->
  glyph c1 <> 0xFF /\ (glyph c1 = glyph c2 <-> upper c1 = upper c2).
Proof.
  intros H1 H2. apply is_supported_In in H1, H2.
  assert (G : forallb (fun a =>
                forallb (fun b =>
                  negb (glyph a =? 0xFF) &&
                  Bool.eqb (glyph a =? glyph b) (Ascii.eqb (upper a) (upper b)))
                supported_chars) supported_chars = true) by (vm_compute; reflexivity).
  rewrite forallb_forall in G. specialize (G c1 H1).
  rewrite forallb_forall in G. specialize (G c2 H2).
  apply andb_true_iff in G as [Gn Ge].
  apply negb_true_iff, Z.eqb_neq in Gn. split; [exact Gn|].
  apply Bool.eqb_prop in Ge. split; intros E.
  - apply Z.eqb_eq in E. rewrite E in Ge. symmetry in Ge. apply Ascii.eqb_eq in Ge. exact Ge.
  - apply Ascii.eqb_eq in E. rewrite E in Ge. apply Z.eqb_eq in Ge. exact Ge.
Qed.

Lemma glyphs_tell_characters_apart_witness :
  glyph "h" <> 0xFF /\ (glyph "h" = glyph "H" <-> upper "h" = upper "H").
Proof.
  exact (glyphs_tell_characters_apart "h" "H" eq_refl eq_refl).
Defined.

Lemma init_cases h t g p r d :
  h <> NULL -> t <> NULL -> g <> NULL ->
  (r = HAL_OK /\
   driver_7_seg_init h t g p r d
     = (DRIVER_7_SEG_STATUS_OK, (driver_7_seg_init h t g p HAL_OK d).2)) \/
  (r <> HAL_OK /\
   exists d1, driver_7_seg_init h t g p r d = (DRIVER_7_SEG_STATUS_NOT_INITIALIZED, d1) /\
     initialized (config d1) = initialized (config d)).
Proof.
  intros Hh Ht Hg. apply Z.eqb_neq in Hh, Ht, Hg.
  unfold driver_7_seg_init. rewrite Hh, Ht, Hg. cbn [orb].
  destruct r; [left; split; reflexivity | right | right | right];
    (split; [discriminate|]; eexists; split; reflexivity).
Qed.

(** X9: what [char_gen_init] answers.  It does not return when a handle is
    null (an assertion fails before the driver is asked), so
    CHAR_GEN_STATUS_NOT_INITIALIZED means that the timer did not start, and
    then [char_gen_transmit] answers CHAR_GEN_STATUS_NOT_TRANSMITTED for
    whatever request if the driver was never initialised before. *)
Theorem char_gen_init_answers a_hspi a_htim GPIOx GPIO_Pin tim_start d :
  (char_gen_init a_hspi a_htim GPIOx GPIO_Pin tim_start d = AssertFails <->
   a_hspi = NULL \/ a_htim = NULL \/ GPIOx = NULL) /\
  (forall d', char_gen_init a_hspi a_htim GPIOx GPIO_Pin tim_start d
                = Returns (CHAR_GEN_STATUS_OK, d') <->
     a_hspi <> NULL /\ a_htim <> NULL /\ GPIOx <> NULL /\ tim_start = HAL_OK /\
     d' = (driver_7_seg_init a_hspi a_htim GPIOx GPIO_Pin HAL_OK d).2) /\
  (forall d', char_gen_init a_hspi a_htim GPIOx GPIO_Pin tim_start d
                = Returns (CHAR_GEN_STATUS_NOT_INITIALIZED, d') ->
     a_hspi <> NULL /\ a_htim <> NULL /\ GPIOx <> NULL /\ tim_start <> HAL_OK /\
     initialized (config d') = initialized (config d) /\
     (initialized (config d) <> status_value DRIVER_7_SEG_STATUS_OK ->
      forall fuel ds ps lv,
        encode_digits ds ps <> None ->
        char_gen_transmit fuel (Some (mk_char_gen_data (Some ds) (Some ps) lv)) d'
          = Returns (CHAR_GEN_STATUS_NOT_TRANSMITTED, d'))).
Proof.
  unfold char_gen_init.
  destruct (a_hspi =? NULL) eqn:Eh.
  { apply Z.eqb_eq in Eh. split; [tauto|]. split; intros d'; [split|]; intros H;
      try discriminate. destruct H as (? & _). contradiction. }
  destruct (a_htim =? NULL) eqn:Et.
  { apply Z.eqb_eq in Et. split; [tauto|]. split; intros d'; [split|]; intros H;
      try discriminate. destruct H as (_ & ? & _). contradiction. }
  destruct (GPIOx =? NULL) eqn:Eg.
  { apply Z.eqb_eq in Eg. split; [tauto|]. split; intros d'; [split|]; intros H;
      try discriminate. destruct H as (_ & _ & ? & _). contradiction. }
  apply Z.eqb_neq in Eh, Et, Eg.
  destruct (init_cases a_hspi a_htim GPIOx GPIO_Pin tim_start d Eh Et Eg)
    as [[-> E]|(Hr & d1 & E & Hi)]; rewrite E.
  - split; [split; [discriminate | intros [?|[?|?]]; contradiction]|].
    split; intros d'; [split|]; intros H; try discriminate.
    + inversion H. repeat split; auto.
    + destruct H as (_ & _ & _ & _ & ->). reflexivity.
  - split; [split; [discriminate | intros [?|[?|?]]; contradiction]|].
    split; intros d'; [split|]; intros H; try discriminate.
    + destruct H as (_ & _ & _ & ? & _). contradiction.
    + inversion H; subst; clear H. do 4 (split; [assumption|]). split; [exact Hi|].
      intros Hn fuel ds ps lv He.
      unfold char_gen_transmit; cbn [digits periods brightness].
      destruct (encode_digits ds ps) as [out|]; [|contradiction].
      unfold driver_7_seg_send_buffer, send_buffer_entry.
      rewrite Hi. apply Z.eqb_neq in Hn. rewrite Z.eqb_sym, Hn. cbn [negb].
      rewrite send_buffer_run_returned. reflexivity.
Qed.

Lemma char_gen_init_answers_witness :
  char_gen_transmit 5 (Some request_C105)
    (driver_7_seg_init 1 2 3 4 HAL_ERROR power_on).2
  = Returns (CHAR_GEN_STATUS_NOT_TRANSMITTED,
             (driver_7_seg_init 1 2 3 4 HAL_ERROR power_on).2).
Proof.
  destruct (char_gen_init_answers 1 2 3 4 HAL_ERROR power_on) as (_ & _ & H).
  destruct (H (driver_7_seg_init 1 2 3 4 HAL_ERROR power_on).2 eq_refl)
    as (_ & _ & _ & _ & _ & Ht).
  apply Ht; discriminate.
Defined.

Lemma init_ok_flags h t g p d :
  h <> NULL -> t <> NULL -> g <> NULL ->
  initialized (config (driver_7_seg_init h t g p HAL_OK d).2)
    = status_value DRIVER_7_SEG_STATUS_OK /\
  new_buffer_ready (driver_7_seg_init h t g p HAL_OK d).2 = new_buffer_ready d.
Proof.
  intros Hh Ht Hg. apply Z.eqb_neq in Hh, Ht, Hg.
  unfold driver_7_seg_init. rewrite Hh, Ht, Hg. split; reflexivity.
Qed.

Lemma send_buffer_spins_while_pending_aux fuel da lv d :
  initialized (config d) = status_value DRIVER_7_SEG_STATUS_OK ->
  new_buffer_ready d <> 0 ->
  driver_7_seg_send_buffer fuel (Some da) (Some lv) (Z.of_nat NUMBER_OF_SEGMENTS) d
    = Spinning.
Proof.
  intros Hi Hr. unfold driver_7_seg_send_buffer, send_buffer_entry.
  rewrite Hi, !Z.eqb_refl. cbn [negb]. apply send_buffer_run_waits. exact Hr.
Qed.

Lemma send_buffer_run_outside fuel : forall pc d s d',
  send_buffer_run fuel pc d = Returns (s, d') -> same_outside_slots d d'.
Proof.
  induction fuel as [|fuel IH]; intros pc d s d' H.
  - destruct pc; simpl in H; try discriminate. inversion H. apply same_outside_slots_refl.
  - destruct pc as [da lv|da lv|b i da lv|b i da lv|da lv|st];
      try (cbn [send_buffer_run] in H;
           match type of H with
           | match ?x with _ => _ end = _ =>
               destruct x as [[pc1 d1]|] eqn:E; [|discriminate]
           end;
           eapply same_outside_slots_trans;
             [eapply send_buffer_step_outside; exact E | eapply IH; exact H]).
    simpl in H. inversion H. apply same_outside_slots_refl.
Qed.

Lemma char_gen_transmit_config fuel cfg d s d' :
  char_gen_transmit fuel cfg d = Returns (s, d') -> config d' = config d.
Proof.
  unfold char_gen_transmit. destruct cfg as [c|]; [|discriminate].
  destruct (digits c); [|discriminate]. destruct (periods c); [|discriminate].
  destruct (encode_digits _ _); [|discriminate].
  destruct (driver_7_seg_send_buffer _ _ _ _ _) as [[st d2]| | |] eqn:E2; try discriminate.
  intros H. assert (d2 = d') as -> by (destruct st; inversion H; reflexivity).
  unfold driver_7_seg_send_buffer in E2.
  apply send_buffer_run_outside in E2. destruct E2 as (Hcfg & _). exact Hcfg.
Qed.

Lemma char_gen_init_ok h t g p r d d0 :
  char_gen_init h t g p r d = Returns (CHAR_GEN_STATUS_OK, d0) ->
  h <> NULL /\ t <> NULL /\ g <> NULL /\ r = HAL_OK /\
  d0 = (driver_7_seg_init h t g p HAL_OK d).2.
Proof.
  unfold char_gen_init.
  destruct (h =? NULL) eqn:Eh; [discriminate|].
  destruct (t =? NULL) eqn:Et; [discriminate|].
  destruct (g =? NULL) eqn:Eg; [discriminate|].
  apply Z.eqb_neq in Eh, Et, Eg.
  destruct (init_cases h t g p r d Eh Et Eg) as [[-> E]|(Hr & d1 & E & Hi)];
    rewrite E; intros H; [|discriminate].
  inversion H. repeat split; auto.
Qed.

(** X10: initialisation and transmission compose.  After [char_gen_init]
    has answered OK, the first [char_gen_transmit] of any request with four
    characters, flags and levels answers OK within 12 steps and leaves the
    frame pending; a second one, before the timer interrupt has been served,
    does not return. *)
Theorem first_transmit_after_init h t g p r d d0 ds ps lv k :
  lengths_ok d -> new_buffer_ready d = 0 ->
  char_gen_init h t g p r d = Returns (CHAR_GEN_STATUS_OK, d0) ->
  length ds = DIGIT_NUM -> length ps = DIGIT_NUM -> length lv = DIGIT_NUM ->
  exists d1,
    char_gen_transmit (12 + k) (Some (mk_char_gen_data (Some ds) (Some ps) (Some lv))) d0
      = Returns (CHAR_GEN_STATUS_OK, d1) /\
    new_buffer_ready d1 = 1 /\
    forall fuel ds' ps' lv',
      length ds' = DIGIT_NUM -> length ps' = DIGIT_NUM ->
      char_gen_transmit fuel (Some (mk_char_gen_data (Some ds') (Some ps') (Some lv'))) d1
        = Spinning.
Proof.
  intros Hl Hr Hinit Hds Hps Hlv.
  apply char_gen_init_ok in Hinit as (Hh & Ht & Hg & -> & ->).
  destruct (init_ok_flags h t g p d Hh Ht Hg) as [Hi Hf].
  destruct (char_gen_transmit_ok ds ps lv _ k Hds Hps Hlv Hi
              ltac:(rewrite Hf; exact Hr) (init_lengths h t g p HAL_OK d Hl))
    as (out & d1 & _ & E & Hd & Hs & Hr1).
  exists d1. split; [exact E|]. split; [exact Hr1|].
  intros fuel ds' ps' lv' Hds' Hps'.
  destruct (length_4 ds' Hds') as (c0 & c1 & c2 & c3 & ->).
  destruct (length_4 ps' Hps') as (p0 & p1 & p2 & p3 & ->).
  unfold char_gen_transmit. cbn [digits periods brightness].
  rewrite encode_digits_4.
  change (Z.of_nat DIGIT_NUM) with (Z.of_nat NUMBER_OF_SEGMENTS).
  rewrite send_buffer_spins_while_pending_aux; [reflexivity | | rewrite Hr1; discriminate].
  (* the driver is still initialised after the first call *)
  rewrite (char_gen_transmit_config _ _ _ _ _ E). exact Hi.
Qed.

Lemma first_transmit_after_init_witness :
  exists d1,
    char_gen_transmit 12 (Some request_C105) booted = Returns (CHAR_GEN_STATUS_OK, d1) /\
    new_buffer_ready d1 = 1 /\
    char_gen_transmit 1000 (Some request_C105) d1 = Spinning.
Proof.
  assert (Hl : lengths_ok power_on) by (repeat split; reflexivity).
  assert (Hinit : char_gen_init 1 2 3 4 HAL_OK power_on
                    = Returns (CHAR_GEN_STATUS_OK, booted)) by (vm_compute; reflexivity).
  destruct (first_transmit_after_init 1 2 3 4 HAL_OK power_on booted
              ["C"; "1"; "0"; "5"]%char
              [PERIOD_OFF; PERIOD_OFF; PERIOD_ON; PERIOD_OFF]
              [LEVEL_5_MAX; LEVEL_5_MAX; LEVEL_5_MAX; LEVEL_5_MAX] 0
              Hl eq_refl Hinit eq_refl eq_refl eq_refl) as (d1 & E & Hr & Hspin).
  exists d1. split; [exact E|]. split; [exact Hr|].
  exact (Hspin 1000%nat ["C"; "1"; "0"; "5"]%char
           [PERIOD_OFF; PERIOD_OFF; PERIOD_ON; PERIOD_OFF]
           [LEVEL_5_MAX; LEVEL_5_MAX; LEVEL_5_MAX; LEVEL_5_MAX] eq_refl eq_refl).
Defined.

(** ** The sensor driver *)

Lemma is_byte_In x : is_byte x -> In x all_bytes.
Proof.
  intros [H0 H1]. unfold all_bytes. apply list_elem_of_In, list_elem_of_fmap.
  exists (Z.to_nat x). split; [lia|]. apply list_elem_of_In, in_seq. lia.
Qed.

Lemma to_uint8_byte x : is_byte x -> to_uint8 x = x.
Proof. intros H. unfold to_uint8. apply Z.mod_small. exact H. Qed.

Lemma lxor_byte x y : is_byte x -> is_byte y -> is_byte (Z.lxor x y).
Proof.
  intros Hx Hy.
  assert (G : forallb (fun a => forallb (fun b =>
                (0 <=? Z.lxor a b) && (Z.lxor a b <? 256)) all_bytes) all_bytes = true)
    by (vm_compute; reflexivity).
  rewrite forallb_forall in G. specialize (G x (is_byte_In x Hx)).
  rewrite forallb_forall in G. specialize (G y (is_byte_In y Hy)).
  apply andb_true_iff in G as [G1 G2]. split; [apply Z.leb_le | apply Z.ltb_lt]; assumption.
Qed.

Lemma crc_shift8_byte x : is_byte x -> is_byte (crc_shift8 x).
Proof.
  intros Hx.
  assert (G : forallb (fun a => (0 <=? crc_shift8 a) && (crc_shift8 a <? 256)) all_bytes
              = true) by (vm_compute; reflexivity).
  rewrite forallb_forall in G. specialize (G x (is_byte_In x Hx)).
  apply andb_true_iff in G as [G1 G2]. split; [apply Z.leb_le | apply Z.ltb_lt]; assumption.
Qed.

Lemma land_lxor_distr a b c :
  Z.land (Z.lxor a b) c = Z.lxor (Z.land a c) (Z.land b c).
Proof.
  apply Z.bits_inj'. intros n Hn.
  rewrite !Z.lxor_spec, !Z.land_spec, Z.lxor_spec.
  destruct (Z.testbit a n), (Z.testbit b n), (Z.testbit c n); reflexivity.
Qed.

Lemma to_uint8_lxor a b : to_uint8 (Z.lxor a b) = Z.lxor (to_uint8 a) (to_uint8 b).
Proof.
  unfold to_uint8. change 256 with (2 ^ 8).
  rewrite <- !Z.land_ones by lia. apply land_lxor_distr.
Qed.

Lemma to_uint8_is_byte x : is_byte (to_uint8 x).
Proof. unfold to_uint8, is_byte. apply Z.mod_pos_bound. lia. Qed.

Lemma crc_shift_byte x : is_byte (crc_shift x).
Proof. unfold crc_shift. destruct (negb _); apply to_uint8_is_byte. Qed.

Lemma land_bit7 x : is_byte x -> Z.land x 0x80 = 0 \/ Z.land x 0x80 = 0x80.
Proof.
  intros Hx.
  assert (G : forallb (fun a => (Z.land a 0x80 =? 0) || (Z.land a 0x80 =? 0x80)) all_bytes
              = true) by (vm_compute; reflexivity).
  rewrite forallb_forall in G. specialize (G x (is_byte_In x Hx)).
  apply orb_true_iff in G as [G|G]; apply Z.eqb_eq in G; auto.
Qed.

Lemma crc_shift_eq x :
  crc_shift x = Z.lxor (to_uint8 (Z.shiftl x 1)) (if Z.land x 0x80 =? 0 then 0 else 0x31).
Proof.
  unfold crc_shift. destruct (Z.land x 0x80 =? 0); cbn [negb].
  - symmetry. apply Z.lxor_0_r.
  - apply to_uint8_lxor.
Qed.

Lemma poly_select p q :
  p = 0 \/ p = 0x80 -> q = 0 \/ q = 0x80 ->
  (if Z.lxor p q =? 0 then 0 else 0x31)
    = Z.lxor (if p =? 0 then 0 else 0x31) (if q =? 0 then 0 else 0x31).
Proof. intros [->| ->] [->| ->]; reflexivity. Qed.

Lemma lxor_swap_middle a b c e :
  Z.lxor (Z.lxor a b) (Z.lxor c e) = Z.lxor (Z.lxor a c) (Z.lxor b e).
Proof.
  rewrite !Z.lxor_assoc. apply (f_equal (Z.lxor a)).
  rewrite <- !Z.lxor_assoc. apply (f_equal (fun t => Z.lxor t e)), Z.lxor_comm.
Qed.

Lemma crc_shift_linear x y :
  is_byte x -> is_byte y ->
  crc_shift (Z.lxor x y) = Z.lxor (crc_shift x) (crc_shift y).
Proof.
  intros Hx Hy. rewrite !crc_shift_eq.
  rewrite Z.shiftl_lxor, to_uint8_lxor, land_lxor_distr.
  rewrite (poly_select _ _ (land_bit7 x Hx) (land_bit7 y Hy)).
  apply lxor_swap_middle.
Qed.

Lemma crc_shifts_byte n x : is_byte x -> is_byte (Nat.iter n crc_shift x).
Proof. intros Hx. destruct n; [exact Hx|apply crc_shift_byte]. Qed.

Lemma crc_shifts_linear n x y :
  is_byte x -> is_byte y ->
  Nat.iter n crc_shift (Z.lxor x y)
    = Z.lxor (Nat.iter n crc_shift x) (Nat.iter n crc_shift y).
Proof.
  intros Hx Hy. induction n as [|n IH]; [reflexivity|].
  cbn [Nat.iter nat_rect]. change (nat_rect _ ?a _ n) with (Nat.iter n crc_shift a).
  rewrite IH. apply crc_shift_linear; apply crc_shifts_byte; assumption.
Qed.

Lemma crc_shift8_linear x y :
  is_byte x -> is_byte y ->
  crc_shift8 (Z.lxor x y) = Z.lxor (crc_shift8 x) (crc_shift8 y).
Proof. apply (crc_shifts_linear 8). Qed.

Lemma crc_byte_byte c b : is_byte c -> is_byte b -> is_byte (crc_byte c b).
Proof.
  intros Hc Hb. unfold crc_byte. fold (crc_shift8 (to_uint8 (Z.lxor c b))).
  rewrite to_uint8_byte by (apply lxor_byte; assumption).
  apply crc_shift8_byte, lxor_byte; assumption.
Qed.

Lemma crc_byte_linear c b delta eps :
  is_byte c -> is_byte b -> is_byte delta -> is_byte eps ->
  crc_byte (Z.lxor c delta) (Z.lxor b eps)
    = Z.lxor (crc_byte c b) (crc_shift8 (Z.lxor delta eps)).
Proof.
  intros Hc Hb Hd He. unfold crc_byte.
  fold (crc_shift8 (to_uint8 (Z.lxor (Z.lxor c delta) (Z.lxor b eps)))).
  fold (crc_shift8 (to_uint8 (Z.lxor c b))).
  rewrite !to_uint8_byte by (repeat apply lxor_byte; assumption).
  rewrite <- crc_shift8_linear by (apply lxor_byte; assumption).
  f_equal. rewrite !Z.lxor_assoc. f_equal.
  rewrite <- !Z.lxor_assoc. f_equal. apply Z.lxor_comm.
Qed.

Lemma crc_rounds_difference l i b e n : forall j c delta,
  Forall is_byte l -> l !! i = Some b -> is_byte e ->
  is_byte c -> is_byte delta ->
  crc_rounds n j (<[i := Z.lxor b e]> l) (Z.lxor c delta)
    = (fun r => Z.lxor r (crc_difference i e n j delta)) <$> crc_rounds n j l c.
Proof.
  intros j c delta Hl Hb He. revert j c delta.
  assert (Hbb : is_byte b) by (eapply Forall_lookup_1; eauto).
  induction n as [|n IH]; intros j c delta Hc Hd; [reflexivity|].
  cbn [crc_rounds crc_difference].
  destruct (Nat.eqb j i) eqn:Hji.
  - apply Nat.eqb_eq in Hji. subst j.
    rewrite list_lookup_insert_eq by (eapply lookup_lt_Some; eauto).
    rewrite Hb. cbn [mbind option_bind].
    rewrite crc_byte_linear by assumption.
    apply IH; [apply crc_byte_byte; assumption|].
    apply crc_shift8_byte, lxor_byte; assumption.
  - apply Nat.eqb_neq in Hji.
    rewrite list_lookup_insert_ne by congruence.
    destruct (l !! j) as [bj|] eqn:Hj; [|reflexivity]. cbn [mbind option_bind].
    assert (Hbj : is_byte bj) by (eapply Forall_lookup_1; eauto).
    replace bj with (Z.lxor bj 0) at 1 by apply Z.lxor_0_r.
    rewrite crc_byte_linear by (try assumption; split; lia).
    apply IH; [apply crc_byte_byte; assumption|].
    apply crc_shift8_byte, lxor_byte; [assumption | split; lia].
Qed.

Lemma crc_difference_nonzero i e :
  (i < 6)%nat -> 1 <= e <= 255 -> crc_difference i e 6 0 0 <> 0.
Proof.
  intros Hi He.
  assert (G : forallb (fun k => forallb (fun x =>
                (x =? 0) || negb (crc_difference k x 6 0 0 =? 0)) all_bytes) (seq 0 6)
              = true) by (vm_compute; reflexivity).
  rewrite forallb_forall in G. specialize (G i ltac:(apply in_seq; lia)).
  rewrite forallb_forall in G. specialize (G e (is_byte_In e ltac:(split; lia))).
  apply orb_true_iff in G as [G|G].
  - apply Z.eqb_eq in G. lia.
  - apply negb_true_iff, Z.eqb_neq in G. exact G.
Qed.

Lemma crc_rounds_defined l n : forall j c,
  (j + n <= length l)%nat -> exists r, crc_rounds n j l c = Some r.
Proof.
  induction n as [|n IH]; intros j c Hlen; [eexists; reflexivity|].
  cbn [crc_rounds].
  destruct (lookup_lt_is_Some_2 l j ltac:(lia)) as [b Hb]. rewrite Hb.
  cbn [mbind option_bind]. apply IH. lia.
Qed.

Lemma crc_of_corrupt l i e crc :
  Forall is_byte l -> (6 <= length l)%nat -> (i < 6)%nat -> 1 <= e <= 255 ->
  calculate_crc (Some l) = Returns crc ->
  exists r', calculate_crc (Some (corrupt i e l)) = Returns r' /\ r' <> crc.
Proof.
  intros Hl Hlen Hi He Hcrc.
  destruct (lookup_lt_is_Some_2 l i ltac:(lia)) as [b Hb].
  destruct (crc_rounds_defined l 6 0 0xFF ltac:(lia)) as [r Hr].
  pose proof (crc_rounds_difference l i b e 6 0 0xFF 0 Hl Hb ltac:(split; lia)
                ltac:(split; lia) ltac:(split; lia)) as Hd.
  rewrite Z.lxor_0_r, Hr in Hd. cbn [fmap option_fmap option_map] in Hd.
  unfold calculate_crc in Hcrc. rewrite Hr in Hcrc. injection Hcrc as <-.
  exists (Z.lxor r (crc_difference i e 6 0 0)).
  unfold calculate_crc, corrupt. rewrite Hb, Hd.
  split; [reflexivity|].
  intros E. apply (crc_difference_nonzero i e Hi He).
  replace (crc_difference i e 6 0 0)
    with (Z.lxor r (Z.lxor r (crc_difference i e 6 0 0)))
    by (rewrite <- Z.lxor_assoc, Z.lxor_nilpotent; apply Z.lxor_0_l).
  rewrite E. apply Z.lxor_nilpotent.
Qed.

(** X11: [calculate_crc] notices every error confined to one of the six
    bytes it covers.  If a byte of the reading is changed, in any of its
    bits, the CRC of the changed reading differs from the CRC of the
    original. *)
Theorem crc_detects_byte_error l i e :
  Forall is_byte l -> (6 <= length l)%nat -> (i < 6)%nat -> 1 <= e <= 255 ->
  exists r r',
    calculate_crc (Some l) = Returns r /\
    calculate_crc (Some (corrupt i e l)) = Returns r' /\
    r' <> r.
Proof.
  intros Hl Hlen Hi He.
  destruct (crc_rounds_defined l 6 0 0xFF ltac:(lia)) as [r Hr].
  assert (Hcrc : calculate_crc (Some l) = Returns r)
    by (unfold calculate_crc; rewrite Hr; reflexivity).
  destruct (crc_of_corrupt l i e r Hl Hlen Hi He Hcrc) as (r' & Er' & Hne).
  exists r, r'. split; [exact Hcrc|]. split; [exact Er'|exact Hne].
Qed.

Lemma crc_detects_byte_error_witness :
  exists r r',
    calculate_crc (Some sample_reading) = Returns r /\
    calculate_crc (Some (corrupt 3 1 sample_reading)) = Returns r' /\
    r' <> r.
Proof.
  apply (crc_detects_byte_error sample_reading 3 1).
  - unfold sample_reading.
    repeat (apply Forall_cons_2; [unfold is_byte; lia|]). apply Forall_nil_2.
  - simpl. lia.
  - lia.
  - lia.
Defined.

(** X12: a reading damaged on the bus is rejected by [aht20_measure] and
    still reported as a success.  When all transfers succeed and one of the
    first six bytes of a reading with a correct CRC byte arrives changed,
    the function sends NACK_CMD and SOFT_RESET_CMD, ignores what the soft
    reset returns, and returns AHT20_STATUS_OK with the damaged bytes in
    [measured_data]. *)
Theorem damaged_reading_reported_ok env hi2c buf size l i e crc b0 :
  hi2c <> NULL ->
  measure_reply env = HAL_OK -> receive_reply env = HAL_OK ->
  answer_reply env = HAL_OK ->
  Forall is_byte l -> length l = 7%nat ->
  calculate_crc (Some l) = Returns crc -> l !! 6%nat = Some crc ->
  (i < 6)%nat -> 1 <= e <= 255 ->
  received env = corrupt i e l ->
  corrupt i e l !! 0%nat = Some b0 -> Z.land b0 (Z.shiftl 1 7) = 0 ->
  aht20_measure env hi2c (Some buf) size
    = Returns (AHT20_STATUS_OK, corrupt i e l, rejected_measure_calls env hi2c size).
Proof.
  intros Hh Hm Hr Ha Hl Hlen Hcrc H6 Hi He Hrec H0 Hbusy.
  destruct (crc_of_corrupt l i e crc Hl ltac:(lia) Hi He Hcrc) as (r' & Er' & Hne).
  assert (H6' : corrupt i e l !! 6%nat = Some crc).
  { unfold corrupt. destruct (l !! i); [|exact H6].
    rewrite list_lookup_insert_ne by lia. exact H6. }
  unfold aht20_measure, rejected_measure_calls.
  apply Z.eqb_neq in Hh. rewrite Hh, Hm, Hr, Hrec, H0, Hbusy, Er', H6', Ha.
  cbn [Z.eqb negb].
  apply Z.eqb_neq in Hne. rewrite Hne.
  unfold aht20_soft_reset. rewrite Hh.
  destruct (reset_reply env); reflexivity.
Qed.

Lemma damaged_reading_reported_ok_witness :
  aht20_measure noisy_bus 1 (Some (replicate 7 0)) 7
    = Returns (AHT20_STATUS_OK, corrupt 3 1 sample_reading,
               rejected_measure_calls noisy_bus 1 7).
Proof.
  apply (damaged_reading_reported_ok noisy_bus 1 (replicate 7 0) 7
           sample_reading 3 1 0xB1 0x1C).
  - unfold NULL. lia.
  - reflexivity.
  - reflexivity.
  - reflexivity.
  - unfold sample_reading.
    repeat (apply Forall_cons_2; [unfold is_byte; lia|]). apply Forall_nil_2.
  - reflexivity.
  - vm_compute. reflexivity.
  - reflexivity.
  - lia.
  - lia.
  - reflexivity.
  - reflexivity.
  - reflexivity.
Defined.

Lemma lor_disjoint_add a b n :
  0 <= n -> 0 <= b < 2 ^ n -> Z.lor (a * 2 ^ n) b = a * 2 ^ n + b.
Proof.
  intros Hn Hb.
  rewrite <- Z.add_lor_land.
  replace (Z.land (a * 2 ^ n) b) with 0; [lia|].
  symmetry. apply Z.bits_inj'. intros k Hk.
  rewrite Z.land_spec, Z.bits_0.
  destruct (Z.lt_ge_cases k n) as [Hlt|Hge].
  - rewrite Z.mul_pow2_bits_low by lia. reflexivity.
  - rewrite <- (Z.mod_small b (2 ^ n)) by lia.
    rewrite Z.mod_pow2_bits_high by lia. apply andb_false_r.
Qed.

(** X13: the two integers [aht20_calculate_measurments] converts.  For
    bytes of a reading, the humidity is the 20-bit number made of byte 1,
    byte 2 and the upper half of byte 3, the temperature the 20-bit number
    made of the lower half of byte 3, byte 4 and byte 5; both are below
    2^20, the divisor of the conversion. *)
Theorem raw_values_are_20_bit d1 d2 d3 d4 d5 :
  is_byte d1 -> is_byte d2 -> is_byte d3 -> is_byte d4 -> is_byte d5 ->
  raw_humidity d1 d2 d3 = d1 * 4096 + d2 * 16 + d3 / 16 /\
  raw_temperature d3 d4 d5 = (d3 mod 16) * 65536 + d4 * 256 + d5 /\
  0 <= raw_humidity d1 d2 d3 < 1048576 /\
  0 <= raw_temperature d3 d4 d5 < 1048576.
Proof.
  unfold is_byte. intros H1 H2 H3 H4 H5.
  assert (Hd : 0 <= d3 / 16 < 16)
    by (split; [apply Z.div_pos; lia | apply Z.div_lt_upper_bound; lia]).
  assert (Hm : 0 <= d3 mod 16 < 16) by (apply Z.mod_pos_bound; lia).
  assert (Eh : raw_humidity d1 d2 d3 = d1 * 4096 + d2 * 16 + d3 / 16).
  { unfold raw_humidity.
    rewrite !Z.shiftl_mul_pow2, Z.shiftr_div_pow2 by lia.
    rewrite (lor_disjoint_add d1 (d2 * 2 ^ 4) 12) by lia.
    replace (d1 * 2 ^ 12 + d2 * 2 ^ 4) with ((d1 * 256 + d2) * 2 ^ 4) by lia.
    change (d3 / 2 ^ 4) with (d3 / 16).
    rewrite (lor_disjoint_add (d1 * 256 + d2) (d3 / 16) 4) by lia.
    lia. }
  assert (Et : raw_temperature d3 d4 d5 = (d3 mod 16) * 65536 + d4 * 256 + d5).
  { unfold raw_temperature.
    change 0x0F with (Z.ones 4). rewrite Z.land_ones by lia.
    change (2 ^ 4) with 16.
    rewrite !Z.shiftl_mul_pow2 by lia.
    rewrite (lor_disjoint_add (d3 mod 16) (d4 * 2 ^ 8) 16) by lia.
    replace (d3 mod 16 * 2 ^ 16 + d4 * 2 ^ 8)
      with ((d3 mod 16 * 256 + d4) * 2 ^ 8) by lia.
    rewrite (lor_disjoint_add (d3 mod 16 * 256 + d4) d5 8) by lia.
    lia. }
  rewrite Eh, Et. repeat split; lia.
Qed.

Lemma raw_values_are_20_bit_witness :
  raw_humidity 0x80 0x00 0x05 = 0x80 * 4096 + 0x00 * 16 + 0x05 / 16 /\
  raw_temperature 0x05 0x9A 0x33 = (0x05 mod 16) * 65536 + 0x9A * 256 + 0x33 /\
  0 <= raw_humidity 0x80 0x00 0x05 < 1048576 /\
  0 <= raw_temperature 0x05 0x9A 0x33 < 1048576.
Proof.
  apply (raw_values_are_20_bit 0x80 0x00 0x05 0x9A 0x33); unfold is_byte; lia.
Defined.

(** ** The buttons *)

Lemma check_interrupt_pin_cons b b1 l pin :
  check_interrupt_pin (b :: b1 :: l) pin
    = if negb (gpio_pin b =? pin) then S <$> check_interrupt_pin (b1 :: l) pin
      else Some 0%nat.
Proof. reflexivity. Qed.

Lemma check_interrupt_pin_spec l pin :
  l <> [] ->
  exists i b,
    check_interrupt_pin l pin = Some i /\ l !! i = Some b /\
    (gpio_pin b = pin \/ i = (length l - 1)%nat) /\
    (forall j b', (j < i)%nat -> l !! j = Some b' -> gpio_pin b' <> pin).
Proof.
  induction l as [|b l IH]; [congruence|]. intros _.
  destruct l as [|b1 l].
  - exists 0%nat, b. repeat split; [right; reflexivity|]. intros j b' Hj. lia.
  - rewrite check_interrupt_pin_cons.
    destruct (gpio_pin b =? pin) eqn:E; cbn [negb].
    + apply Z.eqb_eq in E. exists 0%nat, b.
      repeat split; [left; exact E|]. intros j b' Hj. lia.
    + apply Z.eqb_neq in E.
      destruct (IH ltac:(discriminate)) as (i & bi & Hc & Hi & Hor & Hbefore).
      exists (S i), bi. rewrite Hc. repeat split.
      * exact Hi.
      * destruct Hor as [Hor|Hor]; [left; exact Hor|right].
        cbn [length] in *. lia.
      * intros j b' Hj Hl. destruct j as [|j].
        -- cbn in Hl. injection Hl as <-. exact E.
        -- apply (Hbefore j b'); [lia|exact Hl].
Qed.

Lemma check_interrupt_pin_insert l pin : forall i b b',
  l !! i = Some b -> gpio_pin b' = gpio_pin b ->
  check_interrupt_pin (<[i := b']> l) pin = check_interrupt_pin l pin.
Proof.
  induction l as [|b0 l IH]; intros i b b' Hi Hp; [reflexivity|].
  destruct i as [|i].
  - cbn in Hi. injection Hi as ->. cbn [insert list_insert check_interrupt_pin].
    rewrite Hp. reflexivity.
  - cbn in Hi. cbn [insert list_insert].
    change (list_insert i b' l) with (<[i := b']> l).
    destruct l as [|b1 l]; [discriminate|].
    assert (E : exists b2 l2, <[i := b']> (b1 :: l) = b2 :: l2)
      by (destruct i; eexists _, _; reflexivity).
    destruct E as (b2 & l2 & E).
    pose proof (IH i b b' Hi Hp) as IH'. rewrite E in *.
    transitivity (check_interrupt_pin (b0 :: b2 :: l2) pin);
      [do 2 f_equal; exact E|].
    rewrite !check_interrupt_pin_cons, IH'. reflexivity.
Qed.

Lemma to_uint32_elapsed t delta :
  0 <= t < 2 ^ 32 -> 0 <= delta < 2 ^ 32 ->
  to_uint32 (to_uint32 (t + delta) - t) = delta.
Proof.
  intros Ht Hd. unfold to_uint32.
  rewrite Zminus_mod_idemp_l.
  replace (t + delta - t) with delta by lia.
  apply Z.mod_small. lia.
Qed.

Lemma read_button_at t level pin l i b :
  check_interrupt_pin l pin = Some i -> l !! i = Some b ->
  read_button t level pin l
    = if debounced t b then
        Returns (<[i := match level with
                        | GPIO_PIN_RESET => with_press level t b
                        | GPIO_PIN_SET => with_release level t b
                        end]> l)
      else Returns l.
Proof. intros Hc Hi. unfold read_button. rewrite Hc, Hi. reflexivity. Qed.

(** X14: [read_button] serves every interrupt.  With at least one button
    initialised it returns, and changes at most one button: the first of the
    chain connected to the pin, or, when none before the last is, the last
    of the chain, whatever its pin.  Only the time stamps and the saved pin
    level of that button can change. *)
Theorem read_button_serves_every_pin t level pin l :
  l <> [] ->
  exists i b b',
    read_button t level pin l = Returns (<[i := b']> l) /\
    l !! i = Some b /\
    (gpio_pin b = pin \/ i = (length l - 1)%nat) /\
    (forall j bj, (j < i)%nat -> l !! j = Some bj -> gpio_pin bj <> pin) /\
    gpio_pin b' = gpio_pin b /\ gpio_port b' = gpio_port b /\
    button_state b' = button_state b.
Proof.
  intros Hl.
  destruct (check_interrupt_pin_spec l pin Hl) as (i & b & Hc & Hi & Hor & Hbefore).
  rewrite (read_button_at t level pin l i b Hc Hi).
  destruct (debounced t b).
  - exists i, b.
    eexists. split; [reflexivity|].
    split; [exact Hi|]. split; [exact Hor|]. split; [exact Hbefore|].
    destruct level; repeat split.
  - exists i, b, b. rewrite list_insert_id by exact Hi.
    split; [reflexivity|].
    split; [exact Hi|]. split; [exact Hor|]. split; [exact Hbefore|].
    repeat split.
Qed.

Lemma read_button_serves_every_pin_witness :
  exists i b b',
    read_button 100 GPIO_PIN_RESET 7 two_buttons
      = Returns (<[i := b']> two_buttons) /\
    two_buttons !! i = Some b /\
    (gpio_pin b = 7 \/ i = (length two_buttons - 1)%nat) /\
    (forall j bj, (j < i)%nat -> two_buttons !! j = Some bj -> gpio_pin bj <> 7) /\
    gpio_pin b' = gpio_pin b /\ gpio_port b' = gpio_port b /\
    button_state b' = button_state b.
Proof.
  apply (read_button_serves_every_pin 100 GPIO_PIN_RESET 7 two_buttons).
  discriminate.
Defined.

(** X15: an interrupt on a pin that no button is connected to is taken for
    the button initialised first.  After the debounce time [read_button]
    stores the level and the time in that button. *)
Theorem foreign_pin_updates_oldest_button t level pin front oldest :
  (forall b, In b (front ++ [oldest]) -> gpio_pin b <> pin) ->
  debounced t oldest = true ->
  read_button t level pin (front ++ [oldest])
    = Returns (front ++ [match level with
                         | GPIO_PIN_RESET => with_press level t oldest
                         | GPIO_PIN_SET => with_release level t oldest
                         end]).
Proof.
  intros Hpins Hdeb.
  destruct (check_interrupt_pin_spec (front ++ [oldest]) pin)
    as (i & b & Hc & Hi & Hor & _).
  { destruct front; discriminate. }
  destruct Hor as [Hor|Hor].
  { exfalso. apply (Hpins b); [|exact Hor].
    apply list_elem_of_In. eapply list_elem_of_lookup_2. exact Hi. }
  assert (Ei : i = length front) by (rewrite length_app in Hor; cbn in Hor; lia).
  clear Hor. subst i.
  assert (Eb : b = oldest).
  { rewrite (list_lookup_middle front [] oldest _ eq_refl) in Hi. congruence. }
  subst b.
  rewrite (read_button_at t level pin _ _ _ Hc Hi), Hdeb.
  f_equal.
  rewrite insert_app_r_alt by lia.
  replace (length front - length front)%nat with 0%nat by lia. reflexivity.
Qed.

Lemma foreign_pin_updates_oldest_button_witness :
  read_button 100 GPIO_PIN_RESET 7
      ([mk_Button 0 0 BUTTON_SHORT_PRESS GPIO_PIN_SET 1 4]
       ++ [mk_Button 0 0 BUTTON_SHORT_PRESS GPIO_PIN_SET 1 2])
    = Returns ([mk_Button 0 0 BUTTON_SHORT_PRESS GPIO_PIN_SET 1 4]
               ++ [with_press GPIO_PIN_RESET 100
                     (mk_Button 0 0 BUTTON_SHORT_PRESS GPIO_PIN_SET 1 2)]).
Proof.
  apply (foreign_pin_updates_oldest_button 100 GPIO_PIN_RESET 7
           [mk_Button 0 0 BUTTON_SHORT_PRESS GPIO_PIN_SET 1 4]
           (mk_Button 0 0 BUTTON_SHORT_PRESS GPIO_PIN_SET 1 2)).
  - intros b [<-|[<-|[]]]; simpl; lia.
  - reflexivity.
Defined.

(** X16: contact bounce is ignored, also across the wrap of the tick
    counter.  Once [read_button] has taken a sample at tick [t], a further
    interrupt on the same pin less than DEBOUNCE_TIME_MS ticks later changes
    nothing, whatever level the pin then has. *)
Theorem bounce_is_ignored t level pin l l1 delta level' :
  0 <= t < 2 ^ 32 ->
  read_button t level pin l = Returns l1 -> l1 <> l ->
  0 <= delta < DEBOUNCE_TIME_MS ->
  read_button (to_uint32 (t + delta)) level' pin l1 = Returns l1.
Proof.
  intros Ht Hread Hne Hdelta. unfold DEBOUNCE_TIME_MS in Hdelta.
  unfold read_button in Hread.
  destruct (check_interrupt_pin l pin) as [i|] eqn:Hc; [|discriminate].
  destruct (l !! i) as [b|] eqn:Hi; [|discriminate].
  destruct (debounced t b) eqn:Hdeb; [|congruence].
  injection Hread as <-.
  set (b1 := match level with
             | GPIO_PIN_RESET => with_press level t b
             | GPIO_PIN_SET => with_release level t b
             end).
  assert (Hp : gpio_pin b1 = gpio_pin b) by (subst b1; destruct level; reflexivity).
  assert (Hi1 : <[i := b1]> l !! i = Some b1)
    by (apply list_lookup_insert_eq; eapply lookup_lt_Some; eassumption).
  rewrite (read_button_at _ level' pin _ i b1);
    [|rewrite (check_interrupt_pin_insert l pin i b b1 Hi Hp); exact Hc|exact Hi1].
  replace (debounced (to_uint32 (t + delta)) b1) with false; [reflexivity|].
  symmetry. unfold debounced, DEBOUNCE_TIME_MS.
  subst b1. destruct level; cbn [press_time release_time with_press with_release].
  - rewrite (to_uint32_elapsed t delta) by lia.
    apply andb_false_iff. left. rewrite Z.geb_leb. apply Z.leb_gt. lia.
  - rewrite (to_uint32_elapsed t delta) by lia.
    apply andb_false_iff. right. rewrite Z.geb_leb. apply Z.leb_gt. lia.
Qed.

Lemma bounce_is_ignored_witness :
  read_button (to_uint32 (late_tick + 10)) GPIO_PIN_SET 4
      (<[0%nat := with_press GPIO_PIN_RESET late_tick
                    (mk_Button 0 0 BUTTON_SHORT_PRESS GPIO_PIN_SET 1 4)]> two_buttons)
    = Returns
      (<[0%nat := with_press GPIO_PIN_RESET late_tick
                    (mk_Button 0 0 BUTTON_SHORT_PRESS GPIO_PIN_SET 1 4)]> two_buttons).
Proof.
  apply (bounce_is_ignored late_tick GPIO_PIN_RESET 4 two_buttons _ 10 GPIO_PIN_SET).
  - unfold late_tick. lia.
  - reflexivity.
  - discriminate.
  - unfold DEBOUNCE_TIME_MS. lia.
Defined.

Lemma status_change_state level b :
  button_state (snd (b_hmi_check_button_status_change level b))
    = fst (check_button_state level b).
Proof. reflexivity. Qed.

Lemma status_change_event level b :
  fst (b_hmi_check_button_status_change level b) = HMI_SHORT_EVENT ->
  button_state b = BUTTON_RELEASED /\
  button_state (snd (b_hmi_check_button_status_change level b)) = BUTTON_SHORT_PRESS.
Proof.
  unfold b_hmi_check_button_status_change, check_button_state.
  cbn [fst snd button_state with_button_state].
  destruct (button_state b), (is_set (last_gpio_state b) || is_set level);
    cbn; intros H; try discriminate H. split; reflexivity.
Qed.

Lemma polls_cons level levels b :
  polls (level :: levels) b
    = fst (b_hmi_check_button_status_change level b)
      :: polls levels (snd (b_hmi_check_button_status_change level b)).
Proof.
  cbn [polls]. destruct (b_hmi_check_button_status_change level b). reflexivity.
Qed.

(** X17: a press is reported once.  In any sequence of calls of
    [b_hmi_check_button_status_change] on a button, whatever the pin reads,
    a call that returns HMI_SHORT_EVENT is never followed directly by
    another one that does. *)
Theorem no_two_events_in_a_row levels b i :
  polls levels b !! i = Some HMI_SHORT_EVENT ->
  polls levels b !! S i <> Some HMI_SHORT_EVENT.
Proof.
  revert b i. induction levels as [|level levels IH]; intros b i Hi; [discriminate|].
  rewrite polls_cons in *.
  destruct i as [|i].
  - change (Some (fst (b_hmi_check_button_status_change level b))
            = Some HMI_SHORT_EVENT) in Hi.
    apply (inj Some) in Hi.
    apply status_change_event in Hi as [_ Hs].
    destruct levels as [|level2 levels]; [discriminate|].
    rewrite polls_cons. intros E.
    change (Some (fst (b_hmi_check_button_status_change level2
                         (snd (b_hmi_check_button_status_change level b))))
            = Some HMI_SHORT_EVENT) in E.
    apply (inj Some) in E.
    apply status_change_event in E as [E _]. congruence.
  - apply (IH _ i). exact Hi.
Qed.

Lemma no_two_events_in_a_row_witness :
  polls [GPIO_PIN_RESET; GPIO_PIN_RESET; GPIO_PIN_RESET]
        (mk_Button 50 0 BUTTON_RELEASED GPIO_PIN_RESET 1 4) !! 0%nat
    = Some HMI_SHORT_EVENT /\
  polls [GPIO_PIN_RESET; GPIO_PIN_RESET; GPIO_PIN_RESET]
        (mk_Button 50 0 BUTTON_RELEASED GPIO_PIN_RESET 1 4) !! 1%nat
    <> Some HMI_SHORT_EVENT.
Proof.
  split; [reflexivity|].
  apply (no_two_events_in_a_row [GPIO_PIN_RESET; GPIO_PIN_RESET; GPIO_PIN_RESET]
           (mk_Button 50 0 BUTTON_RELEASED GPIO_PIN_RESET 1 4) 0).
  reflexivity.
Defined.

(** X18: [button_init] stores the opposite of what [check_button_state]
    finds.  With the pin at one level throughout, the state stored by
    [button_init] differs from the state [check_button_state] computes next,
    so that the first call of [b_hmi_check_button_status_change] reports
    HMI_SHORT_EVENT exactly when the pin is low. *)
Theorem button_init_state_is_opposite level port pin l :
  exists b rest,
    button_init level level port pin l = b :: rest /\
    button_state b <> fst (check_button_state level b) /\
    fst (b_hmi_check_button_status_change level b)
      = match level with
        | GPIO_PIN_RESET => HMI_SHORT_EVENT
        | GPIO_PIN_SET => HMI_NO_EVENT
        end.
Proof.
  eexists _, _. split; [reflexivity|].
  destruct level; split; cbn; congruence.
Qed.

(** ** The business logic *)

Lemma detect_events_eq la lb A B :
  detect_events la lb A B
    = (match fst (b_hmi_check_button_status_change la A) with
       | HMI_SHORT_EVENT => EVENT_BUTTON_A_SHORT
       | HMI_NO_EVENT =>
           match fst (b_hmi_check_button_status_change lb B) with
           | HMI_SHORT_EVENT => EVENT_BUTTON_B_SHORT
           | HMI_NO_EVENT => EVENT_NONE
           end
       end,
       snd (b_hmi_check_button_status_change la A),
       snd (b_hmi_check_button_status_change lb B)).
Proof.
  unfold detect_events.
  destruct (b_hmi_check_button_status_change la A) as [[] A'],
           (b_hmi_check_button_status_change lb B) as [[] B'];
    cbn [fst snd]; try reflexivity.
  destruct (b_hmi_check_button_current_state B'); reflexivity.
Qed.

Lemma status_change_after_press level b :
  button_state b = BUTTON_SHORT_PRESS ->
  fst (b_hmi_check_button_status_change level b) = HMI_NO_EVENT.
Proof.
  intros H. unfold b_hmi_check_button_status_change, check_button_state.
  rewrite H. reflexivity.
Qed.

(** X19: when both buttons are found pressed in the same call of
    [detect_events], the event of button A is returned and the press of
    button B is lost: the states of both buttons are updated, so that the
    next call finds no event, whatever the pins read. *)
Theorem simultaneous_press_loses_B la lb A B :
  fst (b_hmi_check_button_status_change la A) = HMI_SHORT_EVENT ->
  fst (b_hmi_check_button_status_change lb B) = HMI_SHORT_EVENT ->
  exists A' B',
    detect_events la lb A B = (EVENT_BUTTON_A_SHORT, A', B') /\
    forall la' lb', fst (fst (detect_events la' lb' A' B')) = EVENT_NONE.
Proof.
  intros HA HB.
  exists (snd (b_hmi_check_button_status_change la A)),
         (snd (b_hmi_check_button_status_change lb B)).
  split.
  - rewrite detect_events_eq, HA. reflexivity.
  - intros la' lb'. rewrite detect_events_eq. cbn [fst].
    apply status_change_event in HA as [_ HA].
    apply status_change_event in HB as [_ HB].
    rewrite (status_change_after_press la' _ HA).
    rewrite (status_change_after_press lb' _ HB). reflexivity.
Qed.

Lemma simultaneous_press_loses_B_witness :
  exists A' B',
    detect_events GPIO_PIN_RESET GPIO_PIN_RESET
        (mk_Button 50 0 BUTTON_RELEASED GPIO_PIN_RESET 1 2)
        (mk_Button 51 0 BUTTON_RELEASED GPIO_PIN_RESET 1 4)
      = (EVENT_BUTTON_A_SHORT, A', B') /\
    forall la' lb', fst (fst (detect_events la' lb' A' B')) = EVENT_NONE.
Proof.
  apply (simultaneous_press_loses_B GPIO_PIN_RESET GPIO_PIN_RESET
           (mk_Button 50 0 BUTTON_RELEASED GPIO_PIN_RESET 1 2)
           (mk_Button 51 0 BUTTON_RELEASED GPIO_PIN_RESET 1 4)); reflexivity.
Defined.

Lemma next_main_state_display n e :
  (n < 3)%nat ->
  next_main_state (display_of n) e
    = display_of ((n + match e with
                       | EVENT_NONE => 0
                       | EVENT_BUTTON_A_SHORT => 1
                       | EVENT_BUTTON_B_SHORT => 2
                       end) mod 3).
Proof.
  intros Hn.
  destruct n as [|[|[|n]]]; [| | |lia]; destruct e; reflexivity.
Qed.

Lemma main_state_after_display events : forall n,
  (n < 3)%nat ->
  main_state_after events (display_of n)
    = display_of ((n + presses EVENT_BUTTON_A_SHORT events
                     + 2 * presses EVENT_BUTTON_B_SHORT events) mod 3).
Proof.
  induction events as [|e events IH]; intros n Hn.
  - cbn [main_state_after fold_left presses List.filter length].
    rewrite Nat.mul_0_r, !Nat.add_0_r, Nat.mod_small by exact Hn. reflexivity.
  - change (main_state_after (e :: events) (display_of n))
      with (main_state_after events (next_main_state (display_of n) e)).
    rewrite next_main_state_display by exact Hn.
    rewrite IH by (apply Nat.mod_upper_bound; discriminate).
    apply (f_equal display_of). unfold presses.
    rewrite <- Nat.add_assoc, Nat.Div0.add_mod_idemp_l.
    apply (f_equal (fun x => x mod 3)%nat).
    destruct e; cbn [List.filter same_event length]; lia.
Qed.

(** X20: which display is selected.  Starting from the Celsius display,
    after any sequence of events the display is the one numbered by the
    presses of A plus twice the presses of B, modulo 3 (0 Celsius,
    1 Fahrenheit, 2 humidity): A steps forward, B steps back, and
    MAIN_STATE_ERROR_DISPLAY is never selected. *)
Theorem display_follows_press_count events :
  main_state_after events MAIN_STATE_DISPLAY_C
    = display_of ((presses EVENT_BUTTON_A_SHORT events
                   + 2 * presses EVENT_BUTTON_B_SHORT events) mod 3).
Proof.
  apply (main_state_after_display events 0). lia.
Qed.

(** X21: [bl_process_sensor_data] reports a failed measurement as a
    success.  Whenever [aht20_measure] returns a status other than
    AHT20_STATUS_OK and the soft reset that follows is transmitted,
    the function converts the bytes then in [measured_data] and returns
    BL_STATUS_OK. *)
Theorem failed_measurement_reported_ok env hi2c measured_data status buf calls raw :
  aht20_measure env hi2c (Some measured_data) 7 = Returns (status, buf, calls) ->
  status <> AHT20_STATUS_OK ->
  raw_values buf = Some raw ->
  bl_process_sensor_data env HAL_OK hi2c measured_data
    = Returns (BL_STATUS_OK, buf, Some raw,
               calls ++ [HAL_I2C_Master_Transmit hi2c DEVICE_ADDRESS [SOFT_RESET_CMD];
                         HAL_Delay 20]).
Proof.
  intros Hm Hs Hraw. unfold bl_process_sensor_data. rewrite Hm.
  assert (Hh : (hi2c =? NULL) = false).
  { unfold aht20_measure in Hm. destruct (hi2c =? NULL); [discriminate|reflexivity]. }
  unfold aht20_soft_reset. rewrite Hh, Hraw.
  destruct status; [congruence|reflexivity..].
Qed.

Lemma failed_measurement_reported_ok_witness :
  bl_process_sensor_data
      (mk_measure_env HAL_ERROR HAL_OK [] HAL_OK HAL_OK) HAL_OK 1 sample_reading
    = Returns (BL_STATUS_OK, sample_reading,
               Some (raw_humidity 0x80 0x00 0x05, raw_temperature 0x05 0x9A 0x33),
               [HAL_I2C_Master_Transmit 1 DEVICE_ADDRESS MEASURE_CMD]
               ++ [HAL_I2C_Master_Transmit 1 DEVICE_ADDRESS [SOFT_RESET_CMD];
                   HAL_Delay 20]).
Proof.
  apply (failed_measurement_reported_ok
           (mk_measure_env HAL_ERROR HAL_OK [] HAL_OK HAL_OK) 1 sample_reading
           AHT20_STATUS_NOT_TRANSMITTED).
  - reflexivity.
  - discriminate.
  - reflexivity.
Defined.

Lemma decimal_small fuel n : 0 <= n < 10 -> decimal (S fuel) n = [digit_char n].
Proof.
  intros Hn. cbn [decimal].
  replace (n <? 10) with true by (symmetry; apply Z.ltb_lt; lia).
  rewrite Z.mod_small by lia. reflexivity.
Qed.

Lemma decimal_step fuel n :
  10 <= n -> decimal (S fuel) n = decimal fuel (n / 10) ++ [digit_char (n mod 10)].
Proof.
  intros Hn. cbn [decimal].
  replace (n <? 10) with false by (symmetry; apply Z.ltb_ge; lia). reflexivity.
Qed.

Lemma decimal_2 fuel n :
  10 <= n < 100 ->
  decimal (S (S fuel)) n = [digit_char (n / 10); digit_char (n mod 10)].
Proof.
  intros Hn. rewrite decimal_step by lia.
  rewrite decimal_small by (Z.div_mod_to_equations; lia). reflexivity.
Qed.

Lemma decimal_3 fuel n :
  100 <= n < 1000 ->
  decimal (S (S (S fuel))) n
    = [digit_char (n / 100); digit_char (n / 10 mod 10); digit_char (n mod 10)].
Proof.
  intros Hn. rewrite decimal_step by lia.
  rewrite decimal_2 by (Z.div_mod_to_equations; lia).
  rewrite Z.div_div by lia. reflexivity.
Qed.

Lemma decimal_4 fuel n :
  1000 <= n < 10000 ->
  decimal (S (S (S (S fuel)))) n
    = [digit_char (n / 1000); digit_char (n / 100 mod 10);
       digit_char (n / 10 mod 10); digit_char (n mod 10)].
Proof.
  intros Hn. rewrite decimal_step by lia.
  rewrite decimal_3 by (Z.div_mod_to_equations; lia).
  rewrite !Z.div_div by lia. reflexivity.
Qed.

Lemma printf_03d_in_range v :
  0 <= v <= 999 ->
  printf_03d v = [digit_char (v / 100); digit_char (v / 10 mod 10); digit_char (v mod 10)].
Proof.
  intros Hv. unfold printf_03d.
  replace (v <? 0) with false by (symmetry; apply Z.ltb_ge; lia).
  rewrite Z.abs_eq by lia.
  destruct (Z.lt_ge_cases v 10) as [H1|H1]; [|destruct (Z.lt_ge_cases v 100) as [H2|H2]].
  - rewrite decimal_small by lia.
    rewrite (Z.div_small v 100), (Z.div_small v 10), (Z.mod_small v 10) by lia.
    reflexivity.
  - rewrite decimal_2 by lia.
    rewrite (Z.div_small v 100), (Z.mod_small (v / 10) 10)
      by (Z.div_mod_to_equations; lia).
    reflexivity.
  - rewrite decimal_3 by lia. reflexivity.
Qed.

Lemma printf_03d_4_digits v :
  1000 <= v <= 9999 ->
  printf_03d v = [digit_char (v / 1000); digit_char (v / 100 mod 10);
                  digit_char (v / 10 mod 10); digit_char (v mod 10)].
Proof.
  intros Hv. unfold printf_03d.
  replace (v <? 0) with false by (symmetry; apply Z.ltb_ge; lia).
  rewrite Z.abs_eq by lia. rewrite decimal_4 by lia. reflexivity.
Qed.

Lemma printf_03d_minus_3_digits a :
  100 <= a <= 999 ->
  printf_03d (- a) = ["-"%char; digit_char (a / 100); digit_char (a / 10 mod 10);
                      digit_char (a mod 10)].
Proof.
  intros Ha. unfold printf_03d.
  replace (- a <? 0) with true by (symmetry; apply Z.ltb_lt; lia).
  rewrite Z.abs_neq, Z.opp_involutive by lia. rewrite decimal_3 by lia. reflexivity.
Qed.

Lemma printf_03d_minus_2_digits a :
  10 <= a <= 99 ->
  printf_03d (- a) = ["-"%char; digit_char (a / 10); digit_char (a mod 10)].
Proof.
  intros Ha. unfold printf_03d.
  replace (- a <? 0) with true by (symmetry; apply Z.ltb_lt; lia).
  rewrite Z.abs_neq, Z.opp_involutive by lia. rewrite decimal_2 by lia. reflexivity.
Qed.

(** X22: the text shown for a value of at most three digits.  For
    [0 <= v <= 999] the call of [snprintf] leaves in [t_data] the letter and
    the three decimal digits of [v], so that with the decimal point of
    [periods] the display reads [v / 10] with one decimal. *)
Theorem display_text_in_range letter v :
  0 <= v <= 999 ->
  snprintf_t_data letter v
    = [letter; digit_char (v / 100); digit_char (v / 10 mod 10);
       digit_char (v mod 10); Ascii.zero].
Proof.
  intros Hv. unfold snprintf_t_data. rewrite (printf_03d_in_range v Hv). reflexivity.
Qed.

Lemma display_text_in_range_witness :
  snprintf_t_data "C" 234 = ["C"; "2"; "3"; "4"; Ascii.zero]%char.
Proof.
  apply (display_text_in_range "C" 234). lia.
Defined.

(** X23: values that do not fit lose their last digit, not their first.
    For [v] from 1000 to 9999, and from -999 to -100, [t_data] holds what it
    would hold for [v] divided by ten: the five bytes of [t_data] cut the
    text after four characters, while the decimal point stays on the third
    digit.  So 100.0 degrees are shown as 10.0. *)
Theorem display_text_cut letter v :
  1000 <= v <= 9999 \/ -999 <= v <= -100 ->
  snprintf_t_data letter v = snprintf_t_data letter (Z.quot v 10).
Proof.
  intros [Hv|Hv]; unfold snprintf_t_data.
  - rewrite Z.quot_div_nonneg by lia.
    rewrite (printf_03d_4_digits v Hv).
    rewrite (printf_03d_in_range (v / 10)) by (Z.div_mod_to_equations; lia).
    rewrite !Z.div_div by lia. reflexivity.
  - replace v with (- (- v)) by lia.
    rewrite Z.quot_opp_l by lia. rewrite Z.quot_div_nonneg by lia.
    rewrite (printf_03d_minus_3_digits (- v)) by lia.
    rewrite (printf_03d_minus_2_digits (- v / 10)) by (Z.div_mod_to_equations; lia).
    rewrite !Z.div_div by lia. reflexivity.
Qed.

Lemma display_text_cut_witness :
  snprintf_t_data "C" 1000 = snprintf_t_data "C" (Z.quot 1000 10).
Proof.
  apply (display_text_cut "C" 1000). left. lia.
Defined.

Lemma printf_03d_at_least_3 v : (3 <= length (printf_03d v))%nat.
Proof.
  unfold printf_03d. rewrite !length_app, length_replicate.
  destruct (v <? 0); cbn [length]; lia.
Qed.

Lemma snprintf_t_data_shape letter v :
  exists c1 c2 c3, snprintf_t_data letter v = [letter; c1; c2; c3; Ascii.zero].
Proof.
  unfold snprintf_t_data. pose proof (printf_03d_at_least_3 v) as H.
  destruct (printf_03d v) as [|c1 [|c2 [|c3 rest]]]; cbn [length] in H; try lia.
  exists c1, c2, c3. reflexivity.
Qed.

Lemma display_text_shape s r :
  exists c0 c1 c2 c3, display_text s r = [c0; c1; c2; c3; Ascii.zero].
Proof.
  destruct s; cbn [display_text];
    try (destruct (snprintf_t_data_shape "C" (temperature_c_x10 r)) as (c1 & c2 & c3 & ->));
    try (destruct (snprintf_t_data_shape "F" (temperature_f_x10 r)) as (c1 & c2 & c3 & ->));
    try (destruct (snprintf_t_data_shape "H" (humidity_x10 r)) as (c1 & c2 & c3 & ->));
    eexists _, _, _, _; reflexivity.
Qed.

Lemma char_gen_transmit_digits fuel ds ds' ps lv d :
  encode_digits ds ps = encode_digits ds' ps ->
  char_gen_transmit fuel (Some (mk_char_gen_data (Some ds) (Some ps) lv)) d
    = char_gen_transmit fuel (Some (mk_char_gen_data (Some ds') (Some ps) lv)) d.
Proof.
  intros E. unfold char_gen_transmit. cbn [digits periods brightness].
  rewrite E. reflexivity.
Qed.

(** X24: one round of [bl_spi_transmit_sensor_data].  With the display
    driver initialised and no frame pending, the call returns; [t_data]
    holds the text of the current state, the frame handed to the driver is
    made of the first four characters of it with the decimal point on the
    third digit, and the state is switched by the event detected, the text
    shown being still that of the state before. *)
Theorem transmit_shows_display_text k la lb r s :
  initialized (config (display s)) = status_value DRIVER_7_SEG_STATUS_OK ->
  new_buffer_ready (display s) = 0 -> lengths_ok (display s) ->
  exists s',
    bl_spi_transmit_sensor_data (12 + k) la lb r s = Returns s' /\
    t_data s' = display_text (currentMainState s) r /\
    currentMainState s'
      = next_main_state (currentMainState s)
          (fst (fst (detect_events la lb (buttonA s) (buttonB s)))) /\
    encode_digits (take 4 (t_data s')) bl_periods
      = Some (data (get_buf (inactive_buf (display s)) (buffers (display s')))) /\
    new_buffer_ready (display s') = 1.
Proof.
  intros Hinit Hr Hl.
  destruct (display_text_shape (currentMainState s) r) as (c0 & c1 & c2 & c3 & Et).
  destruct (char_gen_transmit_ok [c0; c1; c2; c3] bl_periods bl_brightness
              (display s) k eq_refl eq_refl eq_refl Hinit Hr Hl)
    as (out & d' & Eenc & E & Hd & _ & Hr').
  unfold bl_spi_transmit_sensor_data.
  destruct (detect_events la lb (buttonA s) (buttonB s)) as [[event A'] B'].
  rewrite Et.
  rewrite (char_gen_transmit_digits _ [c0; c1; c2; c3; Ascii.zero] [c0; c1; c2; c3])
    by reflexivity.
  rewrite E.
  eexists. split; [reflexivity|].
  cbn [t_data currentMainState display fst].
  split; [reflexivity|]. split; [reflexivity|].
  split; [|exact Hr'].
  rewrite Hd. exact Eenc.
Qed.

Lemma transmit_shows_display_text_witness :
  exists s',
    bl_spi_transmit_sensor_data 12 GPIO_PIN_SET GPIO_PIN_SET sample_readings bl_started
      = Returns s' /\
    t_data s' = display_text (currentMainState bl_started) sample_readings /\
    currentMainState s'
      = next_main_state (currentMainState bl_started)
          (fst (fst (detect_events GPIO_PIN_SET GPIO_PIN_SET
                       (buttonA bl_started) (buttonB bl_started)))) /\
    encode_digits (take 4 (t_data s')) bl_periods
      = Some (data (get_buf (inactive_buf (display bl_started))
                            (buffers (display s')))) /\
    new_buffer_ready (display s') = 1.
Proof.
  apply (transmit_shows_display_text 0 GPIO_PIN_SET GPIO_PIN_SET sample_readings
           bl_started).
  - reflexivity.
  - reflexivity.
  - repeat split; reflexivity.
Defined.

Lemma debounced_fresh t b :
  press_time b = 0 -> release_time b = 0 ->
  DEBOUNCE_TIME_MS <= t < 2 ^ 32 ->
  debounced t b = true.
Proof.
  intros Hp Hr Ht. unfold DEBOUNCE_TIME_MS in Ht.
  unfold debounced, DEBOUNCE_TIME_MS, to_uint32. rewrite Hp, Hr.
  rewrite Z.sub_0_r, Z.mod_small by lia.
  apply andb_true_iff. split; rewrite Z.geb_leb; apply Z.leb_le; lia.
Qed.

(** X25: after [bl_init_buttons], an interrupt on any pin other than the
    pin of button B is recorded on button A, whether or not it is the pin of
    button A. *)
Theorem other_pins_are_taken_for_button_A a1 a2 b1 b2 portA pinA portB pinB t level pin :
  pin <> pinB -> DEBOUNCE_TIME_MS <= t < 2 ^ 32 ->
  exists a b,
    bl_init_buttons a1 a2 b1 b2 portA pinA portB pinB = [b; a] /\
    HAL_GPIO_EXTI_Callback t level pin [b; a]
      = Returns [b; match level with
                    | GPIO_PIN_RESET => with_press level t a
                    | GPIO_PIN_SET => with_release level t a
                    end].
Proof.
  intros Hpin Ht.
  set (a := mk_Button 0 0 (match a1 with
                           | GPIO_PIN_RESET => BUTTON_RELEASED
                           | GPIO_PIN_SET => BUTTON_SHORT_PRESS
                           end) a2 portA pinA).
  set (b := mk_Button 0 0 (match b1 with
                           | GPIO_PIN_RESET => BUTTON_RELEASED
                           | GPIO_PIN_SET => BUTTON_SHORT_PRESS
                           end) b2 portB pinB).
  exists a, b. split; [reflexivity|].
  unfold HAL_GPIO_EXTI_Callback.
  rewrite (read_button_at t level pin [b; a] 1 a).
  - rewrite (debounced_fresh t a eq_refl eq_refl Ht). reflexivity.
  - rewrite check_interrupt_pin_cons.
    change (gpio_pin b) with pinB.
    replace (pinB =? pin) with false by (symmetry; apply Z.eqb_neq; congruence).
    reflexivity.
  - reflexivity.
Qed.

Lemma other_pins_are_taken_for_button_A_witness :
  exists a b,
    bl_init_buttons GPIO_PIN_SET GPIO_PIN_SET GPIO_PIN_SET GPIO_PIN_SET 1 2 1 4 = [b; a] /\
    HAL_GPIO_EXTI_Callback 100 GPIO_PIN_RESET 7 [b; a]
      = Returns [b; with_press GPIO_PIN_RESET 100 a].
Proof.
  apply (other_pins_are_taken_for_button_A GPIO_PIN_SET GPIO_PIN_SET GPIO_PIN_SET
           GPIO_PIN_SET 1 2 1 4 100 GPIO_PIN_RESET 7).
  - lia.
  - unfold DEBOUNCE_TIME_MS. lia.
Defined.

(** X26: the first press is lost when it comes before the first poll.
    [bl_init_buttons] with both buttons released stores BUTTON_SHORT_PRESS
    for them.  If button A is then pressed before [detect_events] has run,
    the call finds no event; if [detect_events] has run once before the
    press, the call after the press finds EVENT_BUTTON_A_SHORT. *)
Theorem press_before_first_poll_is_lost portA pinA portB pinB t :
  pinA <> pinB -> DEBOUNCE_TIME_MS <= t < 2 ^ 32 ->
  (exists pressed polled,
     HAL_GPIO_EXTI_Callback t GPIO_PIN_RESET pinA
       (released_buttons portA pinA portB pinB) = Returns pressed /\
     detect_events_on GPIO_PIN_RESET GPIO_PIN_SET pressed = Some (EVENT_NONE, polled)) /\
  (exists idle pressed polled,
     detect_events_on GPIO_PIN_SET GPIO_PIN_SET (released_buttons portA pinA portB pinB)
       = Some (EVENT_NONE, idle) /\
     HAL_GPIO_EXTI_Callback t GPIO_PIN_RESET pinA idle = Returns pressed /\
     detect_events_on GPIO_PIN_RESET GPIO_PIN_SET pressed
       = Some (EVENT_BUTTON_A_SHORT, polled)).
Proof.
  intros Hpin Ht. unfold released_buttons, bl_init_buttons, button_init.
  set (a := mk_Button 0 0 BUTTON_SHORT_PRESS GPIO_PIN_SET portA pinA).
  set (b := mk_Button 0 0 BUTTON_SHORT_PRESS GPIO_PIN_SET portB pinB).
  assert (Hc : forall b' a' : Button, gpio_pin b' = pinB ->
               check_interrupt_pin [b'; a'] pinA = Some 1%nat).
  { intros b' a' Hb. rewrite check_interrupt_pin_cons, Hb.
    replace (pinB =? pinA) with false by (symmetry; apply Z.eqb_neq; congruence).
    reflexivity. }
  split.
  - exists [b; with_press GPIO_PIN_RESET t a].
    eexists. unfold HAL_GPIO_EXTI_Callback.
    rewrite (read_button_at t GPIO_PIN_RESET pinA [b; a] 1 a (Hc b a eq_refl) eq_refl).
    rewrite (debounced_fresh t a eq_refl eq_refl Ht).
    split; reflexivity.
  - exists [with_button_state BUTTON_RELEASED b; with_button_state BUTTON_RELEASED a].
    exists [with_button_state BUTTON_RELEASED b;
            with_press GPIO_PIN_RESET t (with_button_state BUTTON_RELEASED a)].
    eexists. split; [reflexivity|].
    unfold HAL_GPIO_EXTI_Callback.
    rewrite (read_button_at t GPIO_PIN_RESET pinA
               [with_button_state BUTTON_RELEASED b; with_button_state BUTTON_RELEASED a]
               1 (with_button_state BUTTON_RELEASED a)
               (Hc (with_button_state BUTTON_RELEASED b) _ eq_refl) eq_refl).
    rewrite (debounced_fresh t (with_button_state BUTTON_RELEASED a) eq_refl eq_refl Ht).
    split; reflexivity.
Qed.

Lemma press_before_first_poll_is_lost_witness :
  (exists pressed polled,
     HAL_GPIO_EXTI_Callback 100 GPIO_PIN_RESET 2 (released_buttons 1 2 1 4)
       = Returns pressed /\
     detect_events_on GPIO_PIN_RESET GPIO_PIN_SET pressed = Some (EVENT_NONE, polled)) /\
  (exists idle pressed polled,
     detect_events_on GPIO_PIN_SET GPIO_PIN_SET (released_buttons 1 2 1 4)
       = Some (EVENT_NONE, idle) /\
     HAL_GPIO_EXTI_Callback 100 GPIO_PIN_RESET 2 idle = Returns pressed /\
     detect_events_on GPIO_PIN_RESET GPIO_PIN_SET pressed
       = Some (EVENT_BUTTON_A_SHORT, polled)).
Proof.
  apply (press_before_first_poll_is_lost 1 2 1 4 100).
  - lia.
  - unfold DEBOUNCE_TIME_MS. lia.
Defined.
